(** * latexmake: a shallow embedding of [latexmake.py]

    The build orchestrator [LatexMaker] drives three external tools
    (the compiler, [bibtex], [makeindex]) and decides what to run next by
    scanning text files with regular expressions.  The development has
    these parts:

    - [Re]: the fragment of Python's [re] module the program uses, as a
      backtracking matcher with Python's priorities (greedy repetition,
      ordered alternation, leftmost match, non-overlapping [finditer]);
    - [Py]: the few string and dictionary operations of Python the program
      relies on ([str.strip], [str.endswith], insertion-ordered [dict]);
    - [LatexMake]: the program itself, as a state-and-exception monad over
      the object's fields, a file system and a trace of observable events,
      with the external tools as an arbitrary function [exec] on the file
      system;
    - [Props]: the notions in which the properties are stated, among them
      the statements of the specification that the code does not meet;
    - [Cases]: sample projects on which the program is run;
    - the properties, claim by claim (C1 to C10), and the sample runs;
    - further properties of the methods: what [__init__],
      [_parse_texlipse_config], [check_errors], [latex_run],
      [bibtex_run], [open_preview], [need_latex_rerun], [run] and [main]
      do on the inputs the claims leave out, with their sample runs.

    Text is modelled byte by byte, which is how Python reads a file in
    ASCII whatever the encoding of the locale is, and a name that string
    formatting puts into a pattern is modelled for names without
    characters special to [re]; [ascii_text] and [plain_name] say which
    texts and names these are. *)

From Stdlib Require Import String Ascii List ZArith Bool Lia.
From stdpp Require Import gmap strings list.

Import ListNotations.
Local Open Scope string_scope.
Local Open Scope list_scope.

(** ** Python's [re], the fragment in use *)

Module Re.

(** One-character matchers: a literal, [.] (anything but a newline, no
    DOTALL flag is ever given) and [\s]. *)
Inductive cset : Type :=
| CChr (c : ascii)
| CDot
| CSpace.

Definition newline : ascii := "010"%char.

(** [str.isspace] on the code points below 256, which is what [\s] and
    [str.strip] use on [str] values. *)
Definition is_space (c : ascii) : bool :=
  let n := nat_of_ascii c in
  (((9 <=? n) && (n <=? 13)) || ((28 <=? n) && (n <=? 32))
   || (n =? 133) || (n =? 160))%nat.

Definition cset_match (cs : cset) (c : ascii) : bool :=
  match cs with
  | CChr d => Ascii.eqb c d
  | CDot => negb (Ascii.eqb c newline)
  | CSpace => is_space c
  end.

(** Patterns.  [Many cs] is the greedy [cs*]; the program repeats nothing
    but single characters ([.*]).  [Bol] and [Eol] are [^] and [$] under
    [re.M], the only flag the program passes. *)
Inductive re : Type :=
| Eps
| One (cs : cset)
| Many (cs : cset)
| Seq (r1 r2 : re)
| Alt (r1 r2 : re)
| Grp (n : nat) (r : re)
| Bol
| Eol.

(** A position in the subject: how many characters were consumed, the
    last of them, what is left, and the groups captured on the way. *)
Record mstate : Type := MState {
  m_pos : nat;
  m_prev : option ascii;
  m_rest : list ascii;
  m_caps : list (nat * list ascii)
}.

Definition kont : Type := mstate -> option mstate.

Definition orelse {A} (x y : option A) : option A :=
  match x with Some _ => x | None => y end.

(** Greedy repetition: take a character when possible and try the rest;
    give it back when the continuation fails. *)
Fixpoint many (cs : cset) (pos : nat) (prev : option ascii)
    (caps : list (nat * list ascii)) (rest : list ascii) (k : kont)
    {struct rest} : option mstate :=
  match rest with
  | c :: rest' =>
      if cset_match cs c
      then orelse (many cs (S pos) (Some c) caps rest' k)
                  (k (MState pos prev rest caps))
      else k (MState pos prev rest caps)
  | [] => k (MState pos prev rest caps)
  end.

Definition at_bol (st : mstate) : bool :=
  match m_prev st with
  | None => true
  | Some c => Ascii.eqb c newline
  end.

Definition at_eol (st : mstate) : bool :=
  match m_rest st with
  | [] => true
  | c :: _ => Ascii.eqb c newline
  end.

Definition set_cap (n : nat) (from to : mstate) : mstate :=
  MState (m_pos to) (m_prev to) (m_rest to)
         ((n, take (m_pos to - m_pos from) (m_rest from)) :: m_caps to).

(** The backtracking matcher, in continuation-passing style: [mt r st k]
    is the first way, in Python's order of preference, to match [r] at
    [st] such that [k] accepts what follows. *)
Fixpoint mt (r : re) (st : mstate) (k : kont) : option mstate :=
  match r with
  | Eps => k st
  | One cs =>
      match m_rest st with
      | c :: rest' =>
          if cset_match cs c
          then k (MState (S (m_pos st)) (Some c) rest' (m_caps st))
          else None
      | [] => None
      end
  | Many cs => many cs (m_pos st) (m_prev st) (m_caps st) (m_rest st) k
  | Seq r1 r2 => mt r1 st (fun st' => mt r2 st' k)
  | Alt r1 r2 => orelse (mt r1 st k) (mt r2 st k)
  | Grp n r1 => mt r1 st (fun st' => k (set_cap n st st'))
  | Bol => if at_bol st then k st else None
  | Eol => if at_eol st then k st else None
  end.

(** A match object: where it starts and ends, and its groups. *)
Record rmatch : Type := RMatch {
  r_start : nat;
  r_end : nat;
  r_caps : list (nat * list ascii)
}.

Definition match_at (r : re) (pos : nat) (prev : option ascii)
    (rest : list ascii) : option rmatch :=
  match mt r (MState pos prev rest []) Some with
  | Some st => Some (RMatch pos (m_pos st) (m_caps st))
  | None => None
  end.

Fixpoint cap_lookup (n : nat) (caps : list (nat * list ascii))
    : option (list ascii) :=
  match caps with
  | [] => None
  | (i, s) :: caps' => if Nat.eqb i n then Some s else cap_lookup n caps'
  end.

(** [m.group(n)], [None] for a group that took no part in the match. *)
Definition group (m : rmatch) (n : nat) : option string :=
  option_map string_of_list_ascii (cap_lookup n (r_caps m)).

(** What [findall] and string formatting see: [''] for such a group. *)
Definition group_str (m : rmatch) (n : nat) : string :=
  match group m n with Some s => s | None => "" end.

(** [pattern.search]: the match at the leftmost position that has one. *)
Fixpoint search_from (r : re) (pos : nat) (prev : option ascii)
    (rest : list ascii) {struct rest} : option rmatch :=
  match match_at r pos prev rest with
  | Some m => Some m
  | None =>
      match rest with
      | [] => None
      | c :: rest' => search_from r (S pos) (Some c) rest'
      end
  end.

Definition search (r : re) (s : string) : option rmatch :=
  search_from r 0 None (list_ascii_of_string s).

(** [pattern.finditer]: leftmost matches that do not overlap.  [skip]
    counts the characters still covered by the last match.  None of the
    program's patterns matches the empty string; after an empty match the
    scan moves on by one character. *)
Fixpoint finditer_from (r : re) (skip : nat) (pos : nat)
    (prev : option ascii) (rest : list ascii) {struct rest} : list rmatch :=
  match skip with
  | S n =>
      match rest with
      | [] => []
      | c :: rest' => finditer_from r n (S pos) (Some c) rest'
      end
  | 0 =>
      match match_at r pos prev rest with
      | Some m =>
          m :: match rest with
               | [] => []
               | c :: rest' =>
                   finditer_from r (pred (r_end m - r_start m))
                                 (S pos) (Some c) rest'
               end
      | None =>
          match rest with
          | [] => []
          | c :: rest' => finditer_from r 0 (S pos) (Some c) rest'
          end
      end
  end.

Definition finditer (r : re) (s : string) : list rmatch :=
  finditer_from r 0 0 None (list_ascii_of_string s).

(** A literal string as a pattern. *)
Fixpoint lit_chars (l : list ascii) : re :=
  match l with
  | [] => Eps
  | c :: l' => Seq (One (CChr c)) (lit_chars l')
  end.

Definition lit (s : string) : re := lit_chars (list_ascii_of_string s).

(** A pattern built at run time by string formatting, as in
    ['No file %s.bbl.' % name]: the text is not escaped, so a dot stands
    for any character.  This is how [re] reads a name without any
    other character that is special to it; a name with such a character
    is outside the model. *)
Fixpoint compile_chars (l : list ascii) : re :=
  match l with
  | [] => Eps
  | c :: l' =>
      Seq (One (if Ascii.eqb c "."%char then CDot else CChr c))
          (compile_chars l')
  end.

Definition compile (s : string) : re :=
  compile_chars (list_ascii_of_string s).

Definition seqs (rs : list re) : re := fold_right Seq Eps rs.

End Re.

Import Re.

(** ** The Python operations the program relies on *)

Module Py.

Definition nl : string := String newline EmptyString.
Definition dquote : string := String (ascii_of_nat 34) EmptyString.

(** [sep.join(parts)] *)
Fixpoint join (sep : string) (parts : list string) : string :=
  match parts with
  | [] => EmptyString
  | [p] => p
  | p :: ps => p +:+ sep +:+ join sep ps
  end.

(** [s.endswith(suffix)] *)
Definition endswith (s suffix : string) : bool :=
  let n := String.length s in
  let k := String.length suffix in
  (k <=? n)%nat && String.eqb (substring (n - k) k s) suffix.

(** [s[:-4]] *)
Definition drop_last4 (s : string) : string :=
  substring 0 (String.length s - 4) s.

Fixpoint lstrip_chars (l : list ascii) : list ascii :=
  match l with
  | c :: l' => if is_space c then lstrip_chars l' else l
  | [] => []
  end.

(** [s.strip()] *)
Definition strip (s : string) : string :=
  string_of_list_ascii
    (rev (lstrip_chars (rev (lstrip_chars (list_ascii_of_string s))))).

(** [s.replace('\r', '')] *)
Definition remove_cr (s : string) : string :=
  string_of_list_ascii
    (List.filter (fun c => negb (Ascii.eqb c "013"%char))
                 (list_ascii_of_string s)).

(** Reading a file opened in text mode: every line ending ([\r\n], [\r]
    or [\n]) arrives as [\n].  Bytes are taken as code points, which
    is exact for a file in ASCII; the [UnicodeDecodeError] of a file that
    is not text in the encoding of the locale is not modelled. *)
Fixpoint universal_newlines (l : list ascii) : list ascii :=
  match l with
  | [] => []
  | c :: l' =>
      if Ascii.eqb c "013"%char then
        newline :: match l' with
                   | d :: l'' =>
                       if Ascii.eqb d newline
                       then universal_newlines l''
                       else universal_newlines l'
                   | [] => []
                   end
      else c :: universal_newlines l'
  end.

Definition decode (bytes : string) : string :=
  string_of_list_ascii (universal_newlines (list_ascii_of_string bytes)).

(** [os.path.basename] *)
Fixpoint basename_chars (acc l : list ascii) : list ascii :=
  match l with
  | [] => acc
  | c :: l' =>
      if Ascii.eqb c "/"%char then basename_chars [] l'
      else basename_chars (acc ++ [c]) l'
  end.

Definition basename (p : string) : string :=
  string_of_list_ascii (basename_chars [] (list_ascii_of_string p)).

Definition has_slash (p : string) : bool :=
  existsb (fun c => Ascii.eqb c "/"%char) (list_ascii_of_string p).

(** A [dict] with string keys whose iteration order is observed: an
    association list in insertion order, without duplicate keys. *)
Definition pydict (V : Type) : Type := list (string * V).

Fixpoint dict_get {V} (k : string) (d : pydict V) : option V :=
  match d with
  | [] => None
  | (k', v) :: d' => if String.eqb k' k then Some v else dict_get k d'
  end.

(** [d[k] = v]: a known key keeps its place, a new one goes last. *)
Fixpoint dict_set {V} (k : string) (v : V) (d : pydict V) : pydict V :=
  match d with
  | [] => [(k, v)]
  | (k', v') :: d' =>
      if String.eqb k' k then (k, v) :: d'
      else (k', v') :: dict_set k v d'
  end.

(** The value a function hands back when only its truth is tested:
    [None] stands for falling off the end of the function. *)
Definition truthy (r : option bool) : bool :=
  match r with Some b => b | None => false end.

End Py.

Import Py.

(** ** The program *)

Module LatexMake.

(** *** Module constants *)

Definition BIB_PATTERN : re :=
  seqs [lit "\bibdata{"; Grp 1 (Many CDot); lit "}"].
Definition CITE_PATTERN : re :=
  seqs [lit "\citation{"; Grp 1 (Many CDot); lit "}"].
Definition BIBCITE_PATTERN : re :=
  seqs [lit "\bibcite{"; Grp 1 (Many CDot); lit "}{";
        Grp 2 (Many CDot); lit "}"].
Definition BIBENTRY_PATTERN : re :=
  seqs [lit "@"; Many CDot; lit "{"; Grp 1 (Many CDot); lit ",";
        One CSpace].
Definition ERROR_PATTTERN : re :=
  Alt (seqs [Bol; lit "! ";
             Grp 1 (seqs [Many CDot; One (CChr newline); lit "l.";
                          Many CDot]);
             Eol])
      (Alt (seqs [Bol; lit "! "; Grp 2 (Many CDot); Eol])
           (Grp 3 (seqs [lit "No pages of output"; One CDot]))).
Definition LATEX_RERUN_PATTERNS : list re :=
  [ seqs [lit "LaTeX Warning: Reference "; Many CDot; lit " undefined"];
    lit "LaTeX Warning: There were undefined references.";
    lit "LaTeX Warning: Label(s) may have changed.";
    seqs [lit "No file "; Many CDot;
          Grp 1 (Alt (lit ".toc") (lit ".lof")); lit "."] ].
Definition TEXLIPSE_MAIN_PATTERN : re :=
  seqs [Bol; lit "mainTexFile="; Grp 1 (Many CDot); lit ".tex"; Eol].
(** The two patterns written in place, in [generate_citation_counter]
    and [read_glossaries]. *)
Definition INPUT_PATTERN : re :=
  seqs [lit "\@input{"; Grp 1 (seqs [Many CDot; lit ".aux"]); lit "}"].
Definition NEWGLOSSARY_PATTERN : re :=
  seqs [lit "\@newglossary{"; Grp 1 (Many CDot); lit "}{"; Many CDot;
        lit "}{"; Grp 2 (Many CDot); lit "}{"; Grp 3 (Many CDot);
        lit "}"].
Definition CITATION_UNDEFINED : re :=
  seqs [lit "LaTeX Warning: Citation "; Many CDot; lit " undefined"].

Definition LATEX_FLAGS : list string :=
  ["-interaction=nonstopmode"; "-shell-escape"; "--synctex=1"].
Definition MAX_RUNS : nat := 4.
Definition NO_LATEX_ERROR (cmd : string) : string :=
  "Could not run command " +:+ dquote +:+ cmd +:+ dquote
  +:+ ". Is your latex distribution under your PATH?".

(** *** The world outside the program *)

(** A name in the file system is a regular file, with its bytes and
    modification time, or a directory. *)
Inductive entry : Type :=
| File (content : string) (mtime : Z)
| Dir.

Record world : Type := World {
  w_files : gmap string entry;
  w_time : Z
}.

Inductive level : Type := DEBUG | INFO | WARNING | ERROR | FATAL.

(** What the program does that can be seen from outside. *)
Inductive event : Type :=
| EvLog (lv : level) (msg : string)
| EvSetLevel (lv : level)
| EvPopen (cmd : list string)
| EvStartfile (f : string)
| EvNotify (msg : string)
| EvUsage (msg : string).

(** The exceptions the program raises, catches or lets through by
    name.  [IOError] is [OSError] in Python 3, the interpreter the
    script asks for.  What the interpreter raises on input outside the
    model has no constructor: [UnicodeDecodeError] (bytes that are not
    text), [ValueError] (a null character in a file name) and [re.error]
    (a name that is not a pattern). *)
Inductive exn : Type :=
| LatexMkError (msg : string)
| OSError (what : string)
| NameError (name : string)
| AttributeError (name : string)
| KeyError
| SystemExit (code : Z).

(** What the program cannot decide: the effect of running a command to
    its end ([None]: it could not be started), what happens to the files
    during a sleep, what [os.startfile] does, which names the process may
    delete, the platform, whether [notify2] was imported, and the text
    [str(e)] of the [OSError] for a command that could not be started. *)
Record env : Type := Env {
  exec : list string -> world -> option world;
  sleep : world -> world;
  startfile : string -> world -> option world;
  removable : string -> bool;
  platform : string;
  notify2_loaded : bool;
  strerror : list string -> string
}.

(** *** Options and the object *)

Record options : Type := Options {
  filename : option string;
  clean : bool;
  quiet : Z;
  exit_on_error : bool;
  notify : bool;
  preview : bool;
  pdf : bool;
  command : option string;
  check_cite : bool
}.

Record LatexMaker : Type := Maker {
  opt : options;
  project_name : string;
  latex_cmd : string;
  out : string;
  glossaries : pydict (string * string);
  latex_run_counter : nat;
  bib_file : string;
  old_dir : list string
}.

Definition set_project_name (v : string) (o : LatexMaker) : LatexMaker :=
  Maker (opt o) v (latex_cmd o) (out o) (glossaries o)
        (latex_run_counter o) (bib_file o) (old_dir o).
Definition set_latex_cmd (v : string) (o : LatexMaker) : LatexMaker :=
  Maker (opt o) (project_name o) v (out o) (glossaries o)
        (latex_run_counter o) (bib_file o) (old_dir o).
Definition set_out (v : string) (o : LatexMaker) : LatexMaker :=
  Maker (opt o) (project_name o) (latex_cmd o) v (glossaries o)
        (latex_run_counter o) (bib_file o) (old_dir o).
Definition set_glossaries (v : pydict (string * string)) (o : LatexMaker)
    : LatexMaker :=
  Maker (opt o) (project_name o) (latex_cmd o) (out o) v
        (latex_run_counter o) (bib_file o) (old_dir o).
Definition set_latex_run_counter (v : nat) (o : LatexMaker) : LatexMaker :=
  Maker (opt o) (project_name o) (latex_cmd o) (out o) (glossaries o)
        v (bib_file o) (old_dir o).
Definition set_bib_file (v : string) (o : LatexMaker) : LatexMaker :=
  Maker (opt o) (project_name o) (latex_cmd o) (out o) (glossaries o)
        (latex_run_counter o) v (old_dir o).
Definition set_old_dir (v : list string) (o : LatexMaker) : LatexMaker :=
  Maker (opt o) (project_name o) (latex_cmd o) (out o) (glossaries o)
        (latex_run_counter o) (bib_file o) v.

(** *** The monad: object, world and trace, with exceptions *)

Record state : Type := State {
  st_self : LatexMaker;
  st_world : world;
  st_trace : list event
}.

Inductive result (A : Type) : Type :=
| Ok (a : A) (s : state)
| Raise (e : exn) (s : state).
Arguments Ok {A} a s.
Arguments Raise {A} e s.

Definition M (A : Type) : Type := state -> result A.

Definition ret {A} (a : A) : M A := fun s => Ok a s.
Definition bind {A B} (m : M A) (f : A -> M B) : M B :=
  fun s => match m s with
           | Ok a s' => f a s'
           | Raise e s' => Raise e s'
           end.

Declare Scope prog_scope.
Delimit Scope prog_scope with prog.
Notation "x <- c ;; k" := (bind c (fun x => k))
  (at level 100, c at next level, right associativity) : prog_scope.
Notation "c ;; k" := (bind c (fun _ => k))
  (at level 100, right associativity) : prog_scope.
Local Open Scope prog_scope.

Definition raise {A} (e : exn) : M A := fun s => Raise e s.
Definition get_self : M LatexMaker := fun s => Ok (st_self s) s.
Definition get_world : M world := fun s => Ok (st_world s) s.
Definition update_self (f : LatexMaker -> LatexMaker) : M unit :=
  fun s => Ok tt (State (f (st_self s)) (st_world s) (st_trace s)).
Definition put_world (w : world) : M unit :=
  fun s => Ok tt (State (st_self s) w (st_trace s)).
Definition emit (ev : event) : M unit :=
  fun s => Ok tt (State (st_self s) (st_world s) (st_trace s ++ [ev])).

(** [try: c  except OSError as e: h(e)]; the handler is given what the
    error is about. *)
Definition except_OSError {A} (c : M A) (h : string -> M A) : M A :=
  fun s => match c s with
           | Raise (OSError what) s' => h what s'
           | r => r
           end.

(** [try: c  except LatexMkError: h] *)
Definition except_LatexMkError {A} (c : M A) (h : M A) : M A :=
  fun s => match c s with
           | Raise (LatexMkError _) s' => h s'
           | r => r
           end.

Definition when (b : bool) (c : M unit) : M unit :=
  if b then c else ret tt.

Fixpoint for_each {A} (l : list A) (body : A -> M unit) : M unit :=
  match l with
  | [] => ret tt
  | x :: l' => body x ;; for_each l' body
  end.

(** A [for] loop that updates a local variable. *)
Fixpoint for_fold {A B} (l : list A) (acc : B) (body : B -> A -> M B)
    : M B :=
  match l with
  | [] => ret acc
  | x :: l' => acc' <- body acc x ;; for_fold l' acc' body
  end.

(** *** Files and processes *)

Definition log (lv : level) (msg : string) : M unit := emit (EvLog lv msg).

Definition is_file (w : world) (path : string) : bool :=
  match w_files w !! path with
  | Some (File _ _) => true
  | _ => false
  end.

(** [os.path.isfile(path)] *)
Definition isfile (path : string) : M bool :=
  w <- get_world ;; ret (is_file w path).

(** [with open(path) as fobj: fobj.read()] *)
Definition read (path : string) : M string :=
  w <- get_world ;;
  match w_files w !! path with
  | Some (File c _) => ret (decode c)
  | _ => raise (OSError path)
  end.

(** [with open(path, 'rb') as fobj:], up to the body. *)
Definition open_rb (path : string) : M unit :=
  w <- get_world ;;
  match w_files w !! path with
  | Some (File _ _) => ret tt
  | _ => raise (OSError path)
  end.

(** [os.listdir('.')]: the names without a directory part. *)
Definition list_dir (w : world) : list string :=
  List.filter (fun n => negb (has_slash n)) (map_to_list (w_files w)).*1.

Definition listdir : M (list string) :=
  w <- get_world ;; ret (list_dir w).

(** [shutil.copy(src, dst)]: the bytes of [src] under the name [dst], or
    inside [dst] when that is a directory, stamped with the current
    time. *)
Definition copy (src dst : string) : M unit :=
  w <- get_world ;;
  match w_files w !! src with
  | Some (File c _) =>
      let target :=
        match w_files w !! dst with
        | Some Dir => dst +:+ "/" +:+ basename src
        | _ => dst
        end in
      if String.eqb target src then raise (OSError src)
      else
        match w_files w !! target with
        | Some Dir => raise (OSError target)
        | _ => put_world (World (<[target := File c (w_time w)]> (w_files w))
                                (w_time w))
        end
  | _ => raise (OSError src)
  end.

(** [filecmp.cmp(f1, f2)], with its default [shallow=True]: two regular
    files with the same size and modification time are taken to be equal
    without a look at their bytes. *)
Definition filecmp_cmp (f1 f2 : string) : M bool :=
  w <- get_world ;;
  match w_files w !! f1, w_files w !! f2 with
  | Some e1, Some e2 =>
      match e1, e2 with
      | File c1 t1, File c2 t2 =>
          if (String.length c1 =? String.length c2)%nat && (t1 =? t2)%Z
          then ret true
          else if negb (String.length c1 =? String.length c2)%nat
          then ret false
          else ret (String.eqb c1 c2)
      | _, _ => ret false
      end
  | None, _ => raise (OSError f1)
  | _, None => raise (OSError f2)
  end.

Definition is_some {A} (o : option A) : bool :=
  match o with Some _ => true | None => false end.

Definition nonempty (s : string) : bool :=
  match s with EmptyString => false | _ => true end.

(** *** Citation counting *)

(** The loop of [_count_citations]: [counter[name] += 1] on a
    [defaultdict(int)]. *)
Definition count_matches (ms : list rmatch) : gmap string nat :=
  fold_left
    (fun counter m =>
       let name := group_str m 1 in
       <[name := S (default 0 (counter !! name))]> counter)
    ms ∅.

Definition count_citations_text (content : string) : gmap string nat :=
  count_matches (finditer CITE_PATTERN content).

Definition _count_citations (aux_file : string) : M (gmap string nat) :=
  content <- read aux_file ;;
  ret (count_citations_text content).

Section Program.

Variable E : env.

(** [Popen(cmd).wait()] and [call(cmd)] *)
Definition popen (cmd : list string) : M unit :=
  emit (EvPopen cmd) ;;
  w <- get_world ;;
  match exec E cmd w with
  | Some w' => put_world w'
  | None => raise (OSError (hd EmptyString cmd))
  end.

(** [os.remove(path)]: it fails on a directory, on a missing name and on
    a file the process may not delete. *)
Definition remove (path : string) : M unit :=
  w <- get_world ;;
  match w_files w !! path with
  | Some (File _ _) =>
      if removable E path
      then put_world (World (delete path (w_files w)) (w_time w))
      else raise (OSError path)
  | _ => raise (OSError path)
  end.

(** [notify(msg)]: without the module [notify2] the name [Notification]
    is looked up on [None]. *)
Definition notify_send (msg : string) : M unit :=
  if notify2_loaded E then emit (EvNotify msg)
  else raise (AttributeError "Notification").

Definition _fatal_error {A} (msg : string) : M A :=
  log ERROR msg ;;
  raise (LatexMkError msg).

Definition _parse_texlipse_config : M string :=
  ex <- isfile ".texlipse" ;;
  (if ex then ret tt
   else
     w <- get_world ;;
     put_world (sleep E w) ;;
     ex' <- isfile ".texlipse" ;;
     if ex' then ret tt
     else _fatal_error "! Fatal error: File .texlipse is missing.") ;;
  content <- read ".texlipse" ;;
  match search TEXLIPSE_MAIN_PATTERN content with
  | Some m =>
      let project_name := group_str m 1 in
      log INFO ("Found inputfile in " +:+ dquote +:+ ".texlipse"
                +:+ dquote +:+ ": " +:+ project_name +:+ ".tex") ;;
      ret project_name
  | None => _fatal_error "! Fatal error: Parsing .texlipse failed."
  end.

(** [LatexMaker.__init__] *)
Definition init (project_name : string) (opt : options) : M unit :=
  update_self (fun o =>
    Maker opt (LatexMake.project_name o) (latex_cmd o) (out o)
          (glossaries o) (latex_run_counter o) (bib_file o) (old_dir o)) ;;
  name <- (if String.eqb project_name ".texlipse"
           then _parse_texlipse_config
           else ret project_name) ;;
  update_self (set_project_name name) ;;
  when (endswith name ".tex")
       (update_self (set_project_name (drop_last4 name))) ;;
  update_self (set_latex_cmd
    (match command opt with
     | Some c =>
         if nonempty c then c
         else if pdf opt then "pdflatex" else "latex"
     | None => if pdf opt then "pdflatex" else "latex"
     end)) ;;
  update_self (set_out EmptyString) ;;
  update_self (set_glossaries []) ;;
  update_self (set_latex_run_counter 0) ;;
  update_self (set_bib_file EmptyString).

Definition read_glossaries : M unit :=
  o <- get_self ;;
  let filename := project_name o +:+ ".aux" in
  main_aux <- read filename ;;
  for_each (finditer NEWGLOSSARY_PATTERN main_aux) (fun m =>
    let name := group_str m 1 in
    let ext_i := group_str m 2 in
    let ext_o := group_str m 3 in
    update_self (fun o =>
      set_glossaries (dict_set name (ext_i, ext_o) (glossaries o)) o)).

Definition generate_citation_counter : M (gmap string (gmap string nat)) :=
  o <- get_self ;;
  let filename := project_name o +:+ ".aux" in
  main_aux <- read filename ;;
  counter <- _count_citations filename ;;
  for_fold (finditer INPUT_PATTERN main_aux) (<[filename := counter]> ∅)
    (fun cite_counter m =>
       let filename := group_str m 1 in
       except_OSError
         (counter <- _count_citations filename ;;
          ret (<[filename := counter]> cite_counter))
         (fun _ => ret cite_counter)).

(** Both places that hash the table of contents name the module
    [hashlib], which the script never imports (it imports the function
    [sha256] from it): once the file is open, looking the name up
    raises [NameError]. *)
Definition _read_latex_files
    : M (gmap string (gmap string nat) * string * gmap string string) :=
  o <- get_self ;;
  let aux := project_name o +:+ ".aux" in
  ex <- isfile aux ;;
  cite_counter <-
    (if ex then
       c <- generate_citation_counter ;;
       read_glossaries ;;
       ret c
     else ret (<[aux := ∅]> ∅)) ;;
  let fname := project_name o +:+ ".toc" in
  ex_toc <- isfile fname ;;
  toc_sha <-
    (if ex_toc then
       open_rb fname ;;
       raise (NameError "hashlib")
     else ret EmptyString) ;;
  o <- get_self ;;
  gloss_files <-
    for_fold (map fst (glossaries o)) ∅ (fun gloss_files gloss =>
      match dict_get gloss (glossaries o) with
      | None => raise KeyError
      | Some (_, ext) =>
          let filename := project_name o +:+ "." +:+ ext in
          ex <- isfile filename ;;
          if ex then
            content <- read filename ;;
            ret (<[gloss := content]> gloss_files)
          else ret gloss_files
      end) ;;
  ret (cite_counter, toc_sha, gloss_files).

Definition _is_toc_changed (toc_sha : string) : M (option bool) :=
  o <- get_self ;;
  let fname := project_name o +:+ ".toc" in
  ex <- isfile fname ;;
  if ex then
    open_rb fname ;;
    raise (NameError "hashlib")
  else ret None.

Definition _need_bib_run (old_cite_counter : gmap string (gmap string nat))
    : M (option bool) :=
  o <- get_self ;;
  content <- read (project_name o +:+ ".aux") ;;
  match search BIB_PATTERN content with
  | None => ret (Some false)
  | Some m =>
      update_self (set_bib_file (group_str m 1)) ;;
      o <- get_self ;;
      ex <- isfile (bib_file o +:+ ".bib") ;;
      if negb ex then
        log WARNING "Could not find *.bib file." ;;
        ret (Some false)
      else if is_some (search (compile ("No file " +:+ project_name o
                                        +:+ ".bbl."))
                              (out o))
              || is_some (search CITATION_UNDEFINED (out o))
      then ret (Some true)
      else
        new_counter <- generate_citation_counter ;;
        if negb (bool_decide (old_cite_counter = new_counter))
        then ret (Some true)
        else
          ex_old <- isfile (bib_file o +:+ ".bib.old") ;;
          if ex_old then
            let new := bib_file o +:+ ".bib" in
            let old := bib_file o +:+ ".bib.old" in
            same <- filecmp_cmp new old ;;
            if negb same then ret (Some true) else ret None
          else ret None
  end.

(** [ERROR_PATTTERN.findall]: a tuple of the three groups per match,
    [chain]ed into one list. *)
Definition findall3 (r : re) (s : string) : list (list string) :=
  map (fun m => [group_str m 1; group_str m 2; group_str m 3])
      (finditer r s).

Definition error_text (errors : list (list string)) : string :=
  join nl (map (fun error => strip (remove_cr error))
               (List.filter (fun error => nonempty (strip error))
                            (concat errors))).

Definition check_errors : M unit :=
  o <- get_self ;;
  let errors := findall3 ERROR_PATTTERN (out o) in
  match errors with
  | [] => ret tt
  | _ =>
      log ERROR "! Errors occurred:" ;;
      let error := error_text errors in
      log ERROR error ;;
      log ERROR ("! See " +:+ dquote +:+ project_name o +:+ ".log"
                 +:+ dquote +:+ " for details.") ;;
      when (exit_on_error (opt o))
           (raise (LatexMkError
                     (join nl [error;
                               "See " +:+ dquote +:+ project_name o
                               +:+ ".log" +:+ dquote
                               +:+ " for details."])))
  end.

Definition latex_cmdline (o : LatexMaker) : list string :=
  [latex_cmd o] ++ LATEX_FLAGS
  ++ ["-jobname"; project_name o; project_name o +:+ ".tex"].

Definition latex_run : M unit :=
  o <- get_self ;;
  log INFO ("Running " +:+ latex_cmd o +:+ "...") ;;
  except_OSError (popen (latex_cmdline o))
                 (fun _ => _fatal_error (NO_LATEX_ERROR (latex_cmd o))) ;;
  update_self (fun o => set_latex_run_counter (S (latex_run_counter o)) o) ;;
  content <- read (project_name o +:+ ".log") ;;
  update_self (set_out content) ;;
  check_errors.

Definition bibtex_run : M unit :=
  o <- get_self ;;
  log INFO "Running bibtex..." ;;
  except_OSError (popen ["bibtex"; project_name o])
                 (fun _ => _fatal_error (NO_LATEX_ERROR "bibtex")) ;;
  copy (bib_file o +:+ ".bib") (bib_file o +:+ ".bib.old").

Definition makeindex_cmd (o : LatexMaker) (fname_in fname_out : string)
    : list string :=
  ["makeindex"; "-q"; "-s"; project_name o +:+ ".ist";
   "-o"; fname_in; fname_out].

(** The body of the loop of [makeindex_runs], for one glossary. *)
Definition makeindex_one (gloss_files : gmap string string)
    (gloss_changed : bool) (gloss : string) : M bool :=
  o <- get_self ;;
  match dict_get gloss (glossaries o) with
  | None => raise KeyError
  | Some (ext_i, ext_o) =>
      let fname_in := project_name o +:+ "." +:+ ext_i in
      let fname_out := project_name o +:+ "." +:+ ext_o in
      let make_gloss :=
        is_some (search (compile ("No file " +:+ fname_in +:+ "."))
                        (out o)) in
      ex <- isfile fname_out ;;
      make_gloss <-
        (if negb ex then ret true
         else
           content <- read fname_out ;;
           match gloss_files !! gloss with
           | Some old =>
               if negb (String.eqb old content) then ret true
               else ret make_gloss
           | None => ret true
           end) ;;
      if make_gloss then
        log INFO ("Running makeindex (" +:+ gloss +:+ ")...") ;;
        except_OSError
          (popen (makeindex_cmd o fname_in fname_out))
          (fun _ => _fatal_error (NO_LATEX_ERROR "makeindex")) ;;
        ret true
      else ret gloss_changed
  end.

Definition makeindex_runs (gloss_files : gmap string string) : M bool :=
  o <- get_self ;;
  for_fold (map fst (glossaries o)) false (makeindex_one gloss_files).

Definition open_preview : M unit :=
  o <- get_self ;;
  log INFO "Opening preview..." ;;
  let ext := if pdf (opt o) then "pdf" else "dvi" in
  let filename := project_name o +:+ "." +:+ ext in
  if String.eqb (platform E) "win32" then
    except_OSError
      (emit (EvStartfile filename) ;;
       w <- get_world ;;
       match startfile E filename w with
       | Some w' => put_world w'
       | None => raise (OSError filename)
       end)
      (fun _ =>
         log ERROR ("Preview-Error: Extension ." +:+ ext
                    +:+ " is not linked to a specific application!"))
  else if String.eqb (platform E) "darwin" then
    popen ["open"; filename]
  else
    except_OSError
      (popen ["xdg-open"; filename])
      (fun _ =>
         log ERROR ("Preview-Error: opening previewer failed with "
                    +:+ "the following message:" +:+ nl
                    +:+ strerror E ["xdg-open"; filename])).

Definition need_latex_rerun (o : LatexMaker) : bool :=
  existsb (fun pattern => is_some (search pattern (out o)))
          LATEX_RERUN_PATTERNS.

(** The [while] loop of [run].  Every turn that goes on raises the
    counter, so [MAX_RUNS] turns are enough ([rerun_loop_fuel]). *)
Fixpoint rerun_loop (fuel : nat) : M unit :=
  match fuel with
  | 0 => ret tt
  | S fuel' =>
      o <- get_self ;;
      if (latex_run_counter o <? MAX_RUNS)%nat then
        if negb (need_latex_rerun o) then ret tt
        else latex_run ;; rerun_loop fuel'
      else ret tt
  end.

(** The block of [run] under [if self.opt.check_cite]. *)
Definition check_cite_block : M unit :=
  o <- get_self ;;
  aux_content <- read (project_name o +:+ ".aux") ;;
  let cites : gset string :=
    list_to_set (map (fun m => group_str m 1)
                     (finditer BIBCITE_PATTERN aux_content)) in
  bib_content <- read (bib_file o +:+ ".bib") ;;
  for_each (finditer BIBENTRY_PATTERN bib_content) (fun m =>
    let name := group_str m 1 in
    when (negb (bool_decide (name ∈ cites)))
         (log INFO ("Bib entry not cited: " +:+ dquote +:+ name
                    +:+ dquote))).

Definition ending_of (o : LatexMaker) : string :=
  if pdf (opt o) then ".pdf" else ".dvi".

(** The block of [run] under the second [if self.opt.clean]. *)
Definition clean_block : M unit :=
  o <- get_self ;;
  let ending := ending_of o in
  names <- listdir ;;
  for_each names (fun fname =>
    when (negb (bool_decide (fname ∈ old_dir o) || endswith fname ending))
         (except_OSError (remove fname) (fun _ => ret tt))).

(** [run], up to the end of the rerun loop. *)
Definition run_build : M unit :=
  update_self (set_old_dir []) ;;
  o <- get_self ;;
  when (clean (opt o))
       (names <- listdir ;; update_self (set_old_dir names)) ;;
  snapshot <- _read_latex_files ;;
  let '(cite_counter, toc_sha, gloss_files) := snapshot in
  latex_run ;;
  read_glossaries ;;
  gloss_changed <- makeindex_runs gloss_files ;;
  again <- (if gloss_changed then ret true
            else r <- _is_toc_changed toc_sha ;; ret (truthy r)) ;;
  when again latex_run ;;
  need_bib <- _need_bib_run cite_counter ;;
  when (truthy need_bib) (bibtex_run ;; latex_run) ;;
  rerun_loop MAX_RUNS.

(** [run], from the uncited-entries check on. *)
Definition run_finish : M unit :=
  o <- get_self ;;
  when (check_cite (opt o)) check_cite_block ;;
  when (clean (opt o)) clean_block ;;
  when (preview (opt o)) open_preview ;;
  let msg := "'" +:+ project_name o +:+ ".tex' compiled" in
  log INFO msg ;;
  when (notify (opt o)) (notify_send msg).

Definition run : M unit := run_build ;; run_finish.

(** [parser.error(msg)]: usage and message on standard error, exit
    status 2. *)
Definition parser_error {A} (msg : string) : M A :=
  emit (EvUsage msg) ;;
  raise (SystemExit 2).

Definition verbosity (q : Z) : option level :=
  let q := Z.min q 2 in
  if (q =? -1)%Z then Some DEBUG
  else if (q =? 0)%Z then Some INFO
  else if (q =? 1)%Z then Some ERROR
  else if (q =? 2)%Z then Some FATAL
  else None.

(** The handler of [main]: [except LatexMkError]. *)
Definition exit_handler : M unit :=
  log ERROR "! Exiting..." ;;
  raise (SystemExit 1).

(** [main], after [parse_known_args] has produced [args] and the
    arguments it did not recognise, [rest].  The text of the namespace
    in the debug line is left out, and so is the handler that repeats
    logged errors as desktop notifications. *)
Definition main (args : options) (rest : list string) : M unit :=
  when (negb (bool_decide (rest = [])))
       (parser_error
          ("unrecognized arguments: "
           +:+ join " " (map (fun r => dquote +:+ r +:+ dquote) rest)
           +:+ ". Specify at most one filename")) ;;
  fname <-
    match filename args with
    | Some f => ret f
    | None =>
        names <- listdir ;;
        match List.filter (fun n => endswith n ".tex") names with
        | [f] => ret f
        | [] => parser_error
                  "could not find one *.tex file in current directory"
        | _ => parser_error
                 ("multiple *.tex files in current directory, "
                  +:+ "specify only one")
        end
    end ;;
  when (notify args)
       (if notify2_loaded E then ret tt
        else parser_error
               ("Unable to use desktop notification ('-N', '--notify'). "
                +:+ "Could not load package 'notify2'.")) ;;
  match verbosity (quiet args) with
  | None => raise KeyError
  | Some lv => emit (EvSetLevel lv)
  end ;;
  log DEBUG "arguments: " ;;
  except_LatexMkError (init fname args ;; run) exit_handler.

End Program.

(** The object before [__init__] has run, and the process at its start. *)
Definition blank (opt : options) : LatexMaker :=
  Maker opt EmptyString EmptyString EmptyString [] 0 EmptyString [].

Definition start (args : options) (w : world) : state :=
  State (blank args) w [].

(** The exit status of the process: 0 at the end of [main], the code of
    [sys.exit], 1 for an exception nobody caught. *)
Definition exit_status {A} (r : result A) : Z :=
  match r with
  | Ok _ _ => 0
  | Raise (SystemExit code) _ => code
  | Raise _ _ => 1
  end.

(** *** What a computation leaves alone *)

Definition final {A} (r : result A) : state :=
  match r with
  | Ok _ s => s
  | Raise _ s => s
  end.

(** A compiler pass is seen in the trace as a process started with the
    command line of [latex_run]; no other command line of the program
    has seven words of which the second is the first of [LATEX_FLAGS]. *)
Definition is_compiler_cmd (cmd : list string) : bool :=
  match cmd with
  | [_; flag; _; _; _; _; _] => String.eqb flag "-interaction=nonstopmode"
  | _ => false
  end.

Definition is_compiler_call (ev : event) : bool :=
  match ev with
  | EvPopen cmd => is_compiler_cmd cmd
  | _ => false
  end.

Definition compiler_calls (tr : list event) : nat :=
  length (List.filter is_compiler_call tr).

(** The part of the state that only [__init__], [run] and [latex_run]
    write: the configuration, the baseline listing, the pass counter and
    the number of compiler passes in the trace. *)
Record core : Type := Core {
  c_opt : options;
  c_project_name : string;
  c_latex_cmd : string;
  c_old_dir : list string;
  c_counter : nat;
  c_calls : nat
}.

Definition core_of (s : state) : core :=
  let o := st_self s in
  Core (opt o) (project_name o) (latex_cmd o) (old_dir o)
       (latex_run_counter o) (compiler_calls (st_trace s)).

(** Field updates that stay out of the core. *)
Definition minor (f : LatexMaker -> LatexMaker) : Prop :=
  forall o,
    opt (f o) = opt o /\ project_name (f o) = project_name o
    /\ latex_cmd (f o) = latex_cmd o /\ old_dir (f o) = old_dir o
    /\ latex_run_counter (f o) = latex_run_counter o.

Definition steady {A} (c : M A) : Prop :=
  forall s, core_of (final (c s)) = core_of s.

End LatexMake.

(** * Notions used to state the properties *)

Module Props.

Import LatexMake.

Definition counter (s : state) : nat := latex_run_counter (st_self s).
Definition calls (s : state) : nat := compiler_calls (st_trace s).

(** What only [__init__] and the first lines of [run] write. *)
Definition ids (s : state) : options * string * string * list string :=
  let c := core_of s in
  (c_opt c, c_project_name c, c_latex_cmd c, c_old_dir c).

(** A computation that runs the compiler at most [n] times: the counter
    and the number of compiler processes in the trace move together
    when it returns, and by no more than [n] when it raises. *)
Definition spends {A} (c : M A) (n : nat) : Prop :=
  forall s,
    match c s with
    | Ok _ s' =>
        exists k, k <= n /\ counter s' = counter s + k
                  /\ calls s' = calls s + k
    | Raise _ s' =>
        counter s' <= counter s + n /\ calls s' <= calls s + n
    end.

(** The same for a computation that ends with the rerun loop, which
    runs the compiler until the counter is at [MAX_RUNS]. *)
Definition spends_upto {A} (c : M A) (n : nat) : Prop :=
  forall s,
    counter (final (c s)) <= Nat.max (counter s + n) MAX_RUNS /\
    calls (final (c s)) <= calls s + Nat.max n (MAX_RUNS - counter s).

(** *** Lines and markers

    The directives of an auxiliary file are read with patterns of the
    shape: an opening, a greedy group of any characters, a closing
    brace.  What they find is decided line by line. *)

Definition close_brace : ascii := "}"%char.

Fixpoint is_prefix (p l : list ascii) : bool :=
  match p, l with
  | [], _ => true
  | a :: p', b :: l' => Ascii.eqb a b && is_prefix p' l'
  | _ :: _, [] => false
  end.

(** The position of the last closing brace. *)
Fixpoint last_close (xs : list ascii) : option nat :=
  match xs with
  | [] => None
  | c :: xs' =>
      match last_close xs' with
      | Some i => Some (S i)
      | None => if Ascii.eqb c close_brace then Some 0 else None
      end
  end.

(** The text up to the first line break, and what follows it. *)
Fixpoint line_of (l : list ascii) : list ascii :=
  match l with
  | [] => []
  | c :: l' => if Ascii.eqb c newline then [] else c :: line_of l'
  end.

Fixpoint after_line (l : list ascii) : list ascii :=
  match l with
  | [] => []
  | c :: l' => if Ascii.eqb c newline then l else after_line l'
  end.

(** [text.split('\n')] *)
Fixpoint split_lines (l : list ascii) : list (list ascii) :=
  match l with
  | [] => [[]]
  | c :: l' =>
      if Ascii.eqb c newline then [] :: split_lines l'
      else match split_lines l' with
           | first :: others => (c :: first) :: others
           | [] => [[c]]
           end
  end.

(** What stands between the opening [p] at the head of a line and the
    last closing brace of the line. *)
Definition key_after (p line : list ascii) : option (list ascii) :=
  option_map (fun i => take i (drop (length p) line))
             (last_close (drop (length p) line)).

(** The key a line gives: from its first [p] to its last closing brace;
    no key when no closing brace follows the first [p]. *)
Fixpoint marker_key (p line : list ascii) : option (list ascii) :=
  if is_prefix p line then key_after p line
  else match line with
       | [] => None
       | _ :: line' => marker_key p line'
       end.

Definition cite_open : list ascii := list_ascii_of_string "\citation{".

(** The number of lines of [content] whose key is [k]. *)
Definition cite_lines (k content : string) : nat :=
  length (List.filter
            (fun line =>
               bool_decide (marker_key cite_open line
                            = Some (list_ascii_of_string k)))
            (split_lines (list_ascii_of_string content))).

(** The number of places of [content] where the marker [\citation{k}]
    is written. *)
Fixpoint occurrences (p l : list ascii) : nat :=
  (if is_prefix p l then 1 else 0)
  + match l with
    | [] => 0
    | _ :: l' => occurrences p l'
    end.

Definition cite_marker (k : string) : string := "\citation{" +:+ k +:+ "}".

Definition cite_markers (k content : string) : nat :=
  occurrences (list_ascii_of_string (cite_marker k))
              (list_ascii_of_string content).

(** An auxiliary file written line by line: a citation marker, or a
    line without one. *)
Inductive aux_line : Type :=
| Cite (k : string)
| Other (l : string).

Definition render (l : aux_line) : string :=
  match l with
  | Cite k => cite_marker k
  | Other t => t
  end.

Definition unlines (ls : list string) : string :=
  fold_right (fun l acc => l +:+ nl +:+ acc) EmptyString ls.

Definition no_newline (l : list ascii) : bool :=
  forallb (fun c => negb (Ascii.eqb c newline)) l.

Definition no_close (l : list ascii) : bool :=
  forallb (fun c => negb (Ascii.eqb c close_brace)) l.

(** A key holds no closing brace and no line break; another line holds no
    line break and no [\citation{]. *)
Definition well_formed (l : aux_line) : bool :=
  match l with
  | Cite k =>
      no_close (list_ascii_of_string k) && no_newline (list_ascii_of_string k)
  | Other t =>
      no_newline (list_ascii_of_string t)
      && (occurrences cite_open (list_ascii_of_string t) =? 0)%nat
  end.

(** The keys of the markers, in the order of the file. *)
Definition cited (ls : list aux_line) : list string :=
  omap (fun l => match l with Cite k => Some k | Other _ => None end) ls.

(** C2 as the specification words it: the counter of [k] is the number
    of markers of [k] in the text. *)
Definition counts_markers (content k : string) : Prop :=
  default 0 (count_citations_text content !! k) = cite_markers k content.

(** Skipping [n] characters of the subject. *)
Fixpoint advance (n : nat) (st : mstate) : mstate :=
  match n with
  | 0 => st
  | S n' =>
      match m_rest st with
      | c :: r => advance n' (MState (S (m_pos st)) (Some c) r (m_caps st))
      | [] => st
      end
  end.

(** The first groups of a list of matches, and the keys of a list of
    lines. *)
Definition keys (ms : list rmatch) : list string :=
  map (fun m => group_str m 1) ms.

Definition line_keys (p : list ascii) (ls : list (list ascii))
    : list string :=
  map string_of_list_ascii (omap (marker_key p) ls).

(** How often [k] stands in a list of keys. *)
Definition tally (k : string) (ks : list string) : nat :=
  length (List.filter (String.eqb k) ks).

(** A counter holds the keys that were counted, none at 0. *)
Definition positive (n : nat) : option nat :=
  if (n =? 0)%nat then None else Some n.

(** That shape, for the opening [p]. *)
Definition brace_pattern (p : list ascii) : re :=
  Seq (lit_chars p)
      (Seq (Grp 1 (Many CDot)) (Seq (lit_chars [close_brace]) Eps)).

(** *** The glossary registry *)

(** The declarations of an auxiliary file, in the order of the file:
    name, input extension, output extension. *)
Definition declared (aux : string) : list (string * (string * string)) :=
  map (fun m => (group_str m 1, (group_str m 2, group_str m 3)))
      (finditer NEWGLOSSARY_PATTERN aux).

(** The extensions the last declaration of [name] gives. *)
Fixpoint last_decl (name : string) (decls : list (string * (string * string)))
    : option (string * string) :=
  match decls with
  | [] => None
  | (n, v) :: rest =>
      match last_decl name rest with
      | Some v' => Some v'
      | None => if String.eqb n name then Some v else None
      end
  end.

Definition aux_name (s : state) : string :=
  project_name (st_self s) +:+ ".aux".

(** C6 as the specification words it: after [read_glossaries] the
    registry holds what the auxiliary file declares and nothing else. *)
Definition registry_rederived (s : state) : Prop :=
  forall bytes t s',
    w_files (st_world s) !! aux_name s = Some (File bytes t) ->
    read_glossaries s = Ok tt s' ->
    forall name,
      dict_get name (glossaries (st_self s'))
      = last_decl name (declared (decode bytes)).

(** *** The aggregate citation counter *)

(** The counter of a file, if the file can be read. *)
Definition file_counter (w : world) (f : string)
    : option (gmap string nat) :=
  match w_files w !! f with
  | Some (File bytes _) => Some (count_citations_text (decode bytes))
  | _ => None
  end.

(** The auxiliary files an auxiliary file refers to. *)
Definition included (aux : string) : list string :=
  keys (finditer INPUT_PATTERN aux).

(** *** Cleaning up *)

(** The names the clean-up spares: those of the baseline and those with
    the ending of the final output. *)
Definition spared (o : LatexMaker) (name : string) : bool :=
  bool_decide (name ∈ old_dir o) || endswith name (ending_of o).

Definition is_regular (e : option entry) : bool :=
  match e with Some (File _ _) => true | _ => false end.

Definition can_go (E : env) (e : option entry) (name : string) : bool :=
  is_regular e && removable E name.

(** A computation that leaves the configuration and the baseline
    listing as they are. *)
Definition keeps_ids {A} (c : M A) : Prop :=
  forall s, ids (final (c s)) = ids s.

(** One turn of the loop, on the files. *)
Definition sweep_one (E : env) (o : LatexMaker) (fs : gmap string entry)
    (name : string) : gmap string entry :=
  if spared o name then fs
  else if can_go E (fs !! name) name then delete name fs
  else fs.

(** *** Names of the files of a project *)

Definition toc_name (s : state) : string :=
  project_name (st_self s) +:+ ".toc".

Definition with_bib_file (b : string) (s : state) : state :=
  State (set_bib_file b (st_self s)) (st_world s) (st_trace s).

(** *** Deciding on a bibliography pass *)

(** The two hints of the compiler log: a missing [.bbl] file, a citation
    that is not defined. *)
Definition log_hints_bib (o : LatexMaker) : bool :=
  is_some (search (compile ("No file " +:+ project_name o +:+ ".bbl."))
                  (out o))
  || is_some (search CITATION_UNDEFINED (out o)).

(** The name the [\bibdata] directive of an auxiliary file gives. *)
Definition bibdata_of (aux : string) : option string :=
  option_map (fun m => group_str m 1) (search BIB_PATTERN aux).

(** The situation in which only the saved copy decides: the directive
    names [b], [b.bib] exists, the log gives no hint and the citation
    counter is the one of the snapshot. *)
Record bib_case (s : state) (b : string)
    (old_cite_counter : gmap string (gmap string nat)) : Prop := {
  bc_aux : exists bytes t,
    w_files (st_world s) !! aux_name s = Some (File bytes t)
    /\ bibdata_of (decode bytes) = Some b;
  bc_bib : is_file (st_world s) (b +:+ ".bib") = true;
  bc_log : log_hints_bib (st_self s) = false;
  bc_counter :
    generate_citation_counter (with_bib_file b s)
    = Ok old_cite_counter (with_bib_file b s)
}.

(** The saved copy exists and its bytes differ from those of the
    source. *)
Definition saved_copy_differs (w : world) (b : string) : Prop :=
  exists c1 t1 c2 t2,
    w_files w !! (b +:+ ".bib") = Some (File c1 t1)
    /\ w_files w !! (b +:+ ".bib.old") = Some (File c2 t2)
    /\ c1 <> c2.

(** The two files have the same size and modification time. *)
Definition same_signature (w : world) (b : string) : Prop :=
  exists c1 t1 c2 t2,
    w_files w !! (b +:+ ".bib") = Some (File c1 t1)
    /\ w_files w !! (b +:+ ".bib.old") = Some (File c2 t2)
    /\ String.length c1 = String.length c2 /\ t1 = t2.

(** C3 as the specification words it: in that situation a bibliography
    pass is asked for exactly when the saved copy differs. *)
Definition saved_copy_rule_as_stated (s : state) (b : string)
    (old_cite_counter : gmap string (gmap string nat)) : Prop :=
  bib_case s b old_cite_counter ->
  forall r s',
    _need_bib_run old_cite_counter s = Ok r s' ->
    (truthy r = true <-> saved_copy_differs (st_world s) b).

(** *** Glossaries *)

Definition fname_in (o : LatexMaker) (ext_i : string) : string :=
  project_name o +:+ "." +:+ ext_i.
Definition fname_out (o : LatexMaker) (ext_o : string) : string :=
  project_name o +:+ "." +:+ ext_o.

(** The test of the program for one glossary: its search of the log
    for the notice of a missing input file succeeds, or the output file
    is absent, or its content differs from the snapshot or has no
    snapshot. *)
Definition needs_rebuild (o : LatexMaker) (w : world)
    (gloss_files : gmap string string) (gloss ext_i ext_o : string) : bool :=
  is_some (search (compile ("No file " +:+ fname_in o ext_i +:+ ".")) (out o))
  || negb (is_file w (fname_out o ext_o))
  || match w_files w !! fname_out o ext_o, gloss_files !! gloss with
     | Some (File bytes _), Some old => negb (String.eqb old (decode bytes))
     | Some (File _ _), None => true
     | _, _ => false
     end.

Definition is_index_call (ev : event) : bool :=
  match ev with
  | EvPopen (tool :: _) => String.eqb tool "makeindex"
  | _ => false
  end.

Definition index_calls (tr : list event) : nat :=
  length (List.filter is_index_call tr).

(** *** Fatal conditions *)

Definition tex_files (w : world) : list string :=
  List.filter (fun n => endswith n ".tex") (list_dir w).

Definition exiting_notice : event := EvLog ERROR "! Exiting...".

(** The way out of [main] the specification describes for a fatal
    condition: the notice is logged and the exit status is not 0. *)
Definition handled_as_fatal (r : result unit) : Prop :=
  exiting_notice ∈ st_trace (final r) /\ exit_status r <> 0%Z.

(** C7 as the specification words it, for a project name that cannot
    be resolved: no name given and not exactly one [.tex] file. *)
Definition unresolvable_name_is_fatal (E : env) (args : options)
    (w : world) : Prop :=
  filename args = None ->
  length (tex_files w) <> 1 ->
  handled_as_fatal (main E args [] (start args w)).

(** What running the index tool for one glossary comes to. *)
Definition rebuild (E : env) (gloss ext_i ext_o : string) (s : state)
    : result bool :=
  let o := st_self s in
  let cmd := makeindex_cmd o (fname_in o ext_i) (fname_out o ext_o) in
  let tr := (st_trace s
             ++ [EvLog INFO ("Running makeindex (" +:+ gloss +:+ ")...")])
            ++ [EvPopen cmd] in
  match exec E cmd (st_world s) with
  | Some w' => Ok true (State o w' tr)
  | None =>
      Raise (LatexMkError (NO_LATEX_ERROR "makeindex"))
            (State o (st_world s)
                   (tr ++ [EvLog ERROR (NO_LATEX_ERROR "makeindex")]))
  end.

(** The tool can be started, and running it does not create [f]. *)
Definition tool_starts (E : env) (tool : string) : Prop :=
  forall cmd w, hd_error cmd = Some tool -> is_Some (exec E cmd w).

Definition tool_keeps_absent (E : env) (tool f : string) : Prop :=
  forall cmd w w',
    hd_error cmd = Some tool -> exec E cmd w = Some w' ->
    is_file w f = false -> is_file w' f = false.

Definition add_events (evs : list event) (s : state) : state :=
  State (st_self s) (st_world s) (st_trace s ++ evs).

(** The lines [check_errors] logs, and the message it raises. *)
Definition error_report (o : LatexMaker) : list event :=
  [EvLog ERROR "! Errors occurred:";
   EvLog ERROR (error_text (findall3 ERROR_PATTTERN (out o)));
   EvLog ERROR ("! See " +:+ dquote +:+ project_name o +:+ ".log"
                +:+ dquote +:+ " for details.")].

Definition error_message (o : LatexMaker) : string :=
  join nl [error_text (findall3 ERROR_PATTTERN (out o));
           "See " +:+ dquote +:+ project_name o +:+ ".log" +:+ dquote
           +:+ " for details."].

(** *** Further notions *)

(** The warning of [_need_bib_run] for a bibliography that is not
    there. *)
Definition bib_warning : event := EvLog WARNING "Could not find *.bib file.".

(** The file [open_preview] hands to the viewer. *)
Definition preview_name (o : LatexMaker) : string :=
  project_name o +:+ "." +:+ (if pdf (opt o) then "pdf" else "dvi").

(** A position at which [^] matches under [re.M]. *)
Definition bol (prev : option ascii) : bool :=
  match prev with
  | None => true
  | Some c => Ascii.eqb c newline
  end.

(** A position at which [$] matches under [re.M]. *)
Definition eol (rest : list ascii) : bool :=
  match rest with
  | [] => true
  | c :: _ => Ascii.eqb c newline
  end.

(** What stands before the place where a text is cut: nothing, or text
    that ends a line. *)
Fixpoint prev_of (prev : option ascii) (pre : list ascii) : option ascii :=
  match pre with
  | [] => prev
  | c :: pre' => prev_of (Some c) pre'
  end.

(** A text after which a line starts: it is empty or ends with a line
    break. *)
Definition ends_line (pre : string) : bool :=
  match last (list_ascii_of_string pre) with
  | None => true
  | Some c => Ascii.eqb c newline
  end.

(** The notices of the compiler log that ask for another pass. *)
Inductive rerun_notice : string -> Prop :=
| notice_reference (x : string) :
    no_newline (list_ascii_of_string x) = true ->
    rerun_notice ("LaTeX Warning: Reference " +:+ x +:+ " undefined")
| notice_references :
    rerun_notice "LaTeX Warning: There were undefined references."
| notice_labels :
    rerun_notice "LaTeX Warning: Label(s) may have changed."
| notice_toc (x : string) :
    no_newline (list_ascii_of_string x) = true ->
    rerun_notice ("No file " +:+ x +:+ ".toc.")
| notice_lof (x : string) :
    no_newline (list_ascii_of_string x) = true ->
    rerun_notice ("No file " +:+ x +:+ ".lof.").

(** Whether [text] holds [w] at some place. *)
Definition mentions (w text : string) : bool :=
  negb (occurrences (list_ascii_of_string w) (list_ascii_of_string text)
        =? 0)%nat.

(** A pattern that can only match where the literal [p] stands. *)
Definition opens_with (r : re) (p : list ascii) : Prop :=
  forall st k, is_prefix p (m_rest st) = false -> mt r st k = None.

(** The opening of an error line of the compiler log. *)
Definition bang : list ascii := list_ascii_of_string "! ".

(** No line of the text opens with [! ]. *)
Definition no_bang_line (text : string) : bool :=
  forallb (fun line => negb (is_prefix bang line))
          (split_lines (list_ascii_of_string text)).

(** The line of the project file that names the main file. *)
Definition main_open : list ascii := list_ascii_of_string "mainTexFile=".
Definition tex_ext : list ascii := list_ascii_of_string ".tex".

(** The name a line of the project file gives: what stands between
    [mainTexFile=] at its head and [.tex] at its end. *)
Definition main_of_line (line : list ascii) : option string :=
  let body := drop (length main_open) line in
  if is_prefix main_open line && bool_decide (tex_ext `suffix_of` body)
  then Some (string_of_list_ascii (take (length body - length tex_ext) body))
  else None.

(** The name the first such line gives. *)
Definition main_of (content : string) : option string :=
  head (omap main_of_line (split_lines (list_ascii_of_string content))).

(** What [_parse_texlipse_config] logs when it has the name. *)
Definition found_notice (name : string) : event :=
  EvLog INFO ("Found inputfile in " +:+ dquote +:+ ".texlipse" +:+ dquote
              +:+ ": " +:+ name +:+ ".tex").

(** The notices of the compiler log that ask for a bibliography pass,
    for the project [name]. *)
Inductive bib_notice (name : string) : string -> Prop :=
| notice_bbl : bib_notice name ("No file " +:+ name +:+ ".bbl.")
| notice_citation (x : string) :
    no_newline (list_ascii_of_string x) = true ->
    bib_notice name ("LaTeX Warning: Citation " +:+ x +:+ " undefined").

(** A computation that raises nothing but exceptions with [P]. *)
Definition throws {A} (c : M A) (P : exn -> Prop) : Prop :=
  forall s e s', c s = Raise e s' -> P e.

(** The classes of exceptions. *)
Definition is_OSError (e : exn) : Prop := exists f, e = OSError f.
Definition is_LatexMkError (e : exn) : Prop := exists msg, e = LatexMkError msg.

(** What a build may raise: a fatal condition of its own, a failure of
    the file system, and the name that is not defined. *)
Definition build_failure (e : exn) : Prop :=
  is_LatexMkError e \/ is_OSError e \/ e = NameError "hashlib".

(** A computation in which the pass counter and the number of compiler
    processes never go down. *)
Definition grows {A} (c : M A) : Prop :=
  forall s,
    counter s <= counter (final (c s)) /\ calls s <= calls (final (c s)).

(** The last message of [run]. *)
Definition compiled_notice (o : LatexMaker) : event :=
  EvLog INFO ("'" +:+ project_name o +:+ ".tex' compiled").

(** The registry after the declarations [decls] are written into [g],
    in their order. *)
Definition register (decls : list (string * (string * string)))
    (g : pydict (string * string)) : pydict (string * string) :=
  fold_left (fun g d => dict_set d.1 d.2 g) decls g.

(** A directory without files of an earlier build, and an object that
    knows no glossary. *)
Definition fresh_start (s : state) : Prop :=
  is_file (st_world s) (aux_name s) = false
  /\ is_file (st_world s) (toc_name s) = false
  /\ glossaries (st_self s) = [].

(** The object after a compiler pass that left the log [text], and what the pass
    writes to the trace. *)
Definition passed (text : string) (o : LatexMaker) : LatexMaker :=
  set_out text (set_latex_run_counter (S (latex_run_counter o)) o).

Definition pass_events (o : LatexMaker) : list event :=
  [EvLog INFO ("Running " +:+ latex_cmd o +:+ "...");
   EvPopen (latex_cmdline o)].

(** The baseline [run] records. *)
Definition baseline (s : state) : list string :=
  if clean (opt (st_self s)) then list_dir (st_world s) else [].

(** Options that ask for nothing after the build. *)
Definition plain_options (o : options) : Prop :=
  check_cite o = false /\ clean o = false /\ preview o = false
  /\ notify o = false.

(** A log without error and without a notice that asks for a pass. *)
Definition settled_log (text : string) : bool :=
  no_bang_line text && negb (mentions "No pages of output" text)
  && negb (mentions "LaTeX Warning: " text)
  && negb (mentions "No file " text).

(** An auxiliary file without glossary and without bibliography. *)
Definition plain_aux (aux : string) : Prop :=
  declared aux = [] /\ bibdata_of aux = None.

(** *** Plain names and plain text *)

(** The characters with a meaning of their own in a pattern of [re],
    the dot apart.  A name without them that string formatting puts into
    a pattern stands for itself there, up to its dots.  A plain name
    holds none of them, and not the character 0, which no file name
    holds. *)
Definition re_special : list ascii :=
  list_ascii_of_string "\^$*+?{}[]()|".

Definition plain_name (s : string) : bool :=
  forallb (fun c => negb (existsb (Ascii.eqb c) re_special)
                    && negb (Ascii.eqb c "000"%char))
          (list_ascii_of_string s).

(** Text in ASCII, without the character 0: its bytes are its
    characters, whatever encoding the files are read in. *)
Definition ascii_text (s : string) : bool :=
  forallb (fun c => (0 <? nat_of_ascii c)%nat && (nat_of_ascii c <? 128)%nat)
          (list_ascii_of_string s).

(** *** A notice read with its dots as wildcards *)

(** A character of a notice against a character of the text: a dot
    stands for any character but a line break. *)
Definition wild (a b : ascii) : bool :=
  if Ascii.eqb a "."%char then negb (Ascii.eqb b newline) else Ascii.eqb a b.

Fixpoint wild_prefix (p l : list ascii) : bool :=
  match p, l with
  | [], _ => true
  | a :: p', b :: l' => wild a b && wild_prefix p' l'
  | _ :: _, [] => false
  end.

Fixpoint wild_occurs (p l : list ascii) : bool :=
  wild_prefix p l
  || match l with
     | [] => false
     | _ :: l' => wild_occurs p l'
     end.

(** The log names the file [f] as missing, the way the program reads
    it: [No file f.] stands somewhere, where every dot, those of [f] and
    the one that ends the notice, may be any character of the line. *)
Definition names_missing (f out : string) : bool :=
  wild_occurs (list_ascii_of_string ("No file " +:+ f +:+ "."))
              (list_ascii_of_string out).

(** The log reports the file [f] missing: the notice of the compiler
    stands in it as it is written. *)
Definition reports_missing (f out : string) : bool :=
  mentions ("No file " +:+ f +:+ ".") out.

(** *** Which glossaries are rebuilt *)

Definition registered (o : LatexMaker) (gloss ext_i ext_o : string) : Prop :=
  dict_get gloss (glossaries o) = Some (ext_i, ext_o).

(** The output file is there and its content is not the one of the
    snapshot, or the snapshot has none. *)
Definition snapshot_differs (w : world) (gloss_files : gmap string string)
    (gloss f_out : string) : bool :=
  match w_files w !! f_out, gloss_files !! gloss with
  | Some (File bytes _), Some old => negb (String.eqb old (decode bytes))
  | Some (File _ _), None => true
  | _, _ => false
  end.

(** The rule by which the program rebuilds a glossary. *)
Definition must_rebuild (o : LatexMaker) (w : world)
    (gloss_files : gmap string string) (gloss ext_i ext_o : string) : bool :=
  names_missing (fname_in o ext_i) (out o)
  || negb (is_file w (fname_out o ext_o))
  || snapshot_differs w gloss_files gloss (fname_out o ext_o).

(** The rule as the specification words it. *)
Definition rebuild_as_stated (o : LatexMaker) (w : world)
    (gloss_files : gmap string string) (gloss ext_i ext_o : string) : bool :=
  reports_missing (fname_in o ext_i) (out o)
  || negb (is_file w (fname_out o ext_o))
  || snapshot_differs w gloss_files gloss (fname_out o ext_o).

(** The command line of the index tool for a glossary. *)
Definition index_command (o : LatexMaker) (ext_i ext_o : string)
    : list string :=
  makeindex_cmd o (fname_in o ext_i) (fname_out o ext_o).

(** What a computation that went from [s] to [s'] wrote to the trace. *)
Definition new_events (s s' : state) : list event :=
  drop (length (st_trace s)) (st_trace s').

(** The glossaries [names], one after the other: each is rebuilt or
    left alone by the rule, as the files are when its turn comes. *)
Fixpoint rebuild_each (E : env) (gloss_files : gmap string string)
    (names : list string) (changed : bool) (s : state) : result bool :=
  match names with
  | [] => Ok changed s
  | gloss :: names' =>
      match dict_get gloss (glossaries (st_self s)) with
      | None => Raise KeyError s
      | Some (ext_i, ext_o) =>
          if must_rebuild (st_self s) (st_world s) gloss_files
                          gloss ext_i ext_o
          then match rebuild E gloss ext_i ext_o s with
               | Ok _ s' => rebuild_each E gloss_files names' true s'
               | Raise e s' => Raise e s'
               end
          else rebuild_each E gloss_files names' changed s
      end
  end.

(** The index tool, run for one glossary, leaves the output files of
    the other glossaries as they are, and no two glossaries have the
    same command line. *)
Definition outputs_apart (E : env) (o : LatexMaker) : Prop :=
  forall g1 i1 o1 g2 i2 o2,
    registered o g1 i1 o1 -> registered o g2 i2 o2 -> g1 <> g2 ->
    index_command o i1 o1 <> index_command o i2 o2
    /\ forall w w',
         exec E (index_command o i1 o1) w = Some w' ->
         w_files w' !! fname_out o o2 = w_files w !! fname_out o o2.

(** C5 as the specification words it, in one of its consequences: when
    no registered glossary meets the rule of the specification, no
    glossary is rebuilt and the result is [False]. *)
Definition rebuild_rule_as_stated (E : env)
    (gloss_files : gmap string string) (s : state) : Prop :=
  (forall gloss ext_i ext_o,
     registered (st_self s) gloss ext_i ext_o ->
     rebuild_as_stated (st_self s) (st_world s) gloss_files
                       gloss ext_i ext_o = false) ->
  makeindex_runs E gloss_files s = Ok false s.

(** *** References to other auxiliary files *)

(** The place of the last [q] in [xs]. *)
Fixpoint last_at (q xs : list ascii) : option nat :=
  match xs with
  | [] => None
  | _ :: xs' =>
      match last_at q xs' with
      | Some i => Some (S i)
      | None => if is_prefix q xs then Some 0 else None
      end
  end.

(** What stands between the opening [p] at the head of a line and the
    last [a] of the line that [c] follows, with that [a]. *)
Definition ref_after (p a c line : list ascii) : option (list ascii) :=
  option_map (fun i => take (i + length a) (drop (length p) line))
             (last_at (a ++ c) (drop (length p) line)).

(** What a line gives: from its first [p] on. *)
Fixpoint ref_key (p a c line : list ascii) : option (list ascii) :=
  if is_prefix p line then ref_after p a c line
  else match line with
       | [] => None
       | _ :: line' => ref_key p a c line'
       end.

Definition line_refs (p a c : list ascii) (ls : list (list ascii))
    : list string :=
  map string_of_list_ascii (omap (ref_key p a c) ls).

(** That shape of pattern: an opening, a greedy group that ends with
    [a], and a closing [c]. *)
Definition closed_pattern (p a c : list ascii) : re :=
  Seq (lit_chars p)
      (Seq (Grp 1 (Seq (Many CDot) (Seq (lit_chars a) Eps)))
           (Seq (lit_chars c) Eps)).

Definition input_open : list ascii := list_ascii_of_string "\@input{".
Definition aux_ext : list ascii := list_ascii_of_string ".aux".

(** The file a line of an auxiliary file refers to: the text from the
    first [\@input{] of the line to the last [.aux] of the line that a
    closing brace follows. *)
Definition reference (line : list ascii) : option (list ascii) :=
  ref_key input_open aux_ext [close_brace] line.

(** The files an auxiliary file refers to, line by line. *)
Definition references (aux : string) : list string :=
  map string_of_list_ascii
      (omap reference (split_lines (list_ascii_of_string aux))).

(** The directive that names the file [f]. *)
Definition input_marker (f : string) : string := "\@input{" +:+ f +:+ "}".

(** C8 as the specification words it: every file that a directive of
    the main auxiliary file names has its counter in the aggregate if it
    can be read, and no entry if it cannot. *)
Definition references_as_stated (s : state) : Prop :=
  forall bytes t m f,
    w_files (st_world s) !! aux_name s = Some (File bytes t) ->
    generate_citation_counter s = Ok m s ->
    endswith f ".aux" = true ->
    mentions (input_marker f) (decode bytes) = true ->
    m !! f = file_counter (st_world s) f.

(** A file that is not there, or that holds plain text. *)
Definition text_or_absent (w : world) (f : string) : bool :=
  match w_files w !! f with
  | Some (File bytes _) => ascii_text bytes
  | _ => true
  end.

(** *** The clean-up of [run] *)

(** The ending of the final output. *)
Definition final_extension (o : options) : string :=
  if pdf o then ".pdf" else ".dvi".

(** The names the clean-up keeps: those of the listing [before] and
    those with the ending of the final output. *)
Definition kept (before : list string) (o : options) (name : string) : bool :=
  bool_decide (name ∈ before) || endswith name (final_extension o).

(** The names the clean-up deletes from [w]: the regular files of the
    working directory that are not kept and that the process may
    delete. *)
Definition swept (E : env) (before : list string) (o : options) (w : world)
    (name : string) : bool :=
  bool_decide (name ∈ list_dir w) && negb (kept before o name)
  && (is_file w name && removable E name).

(** The citation check of [run], when it is asked for, returns. *)
Definition checked (s s' : state) : Prop :=
  if check_cite (opt (st_self s)) then check_cite_block s = Ok tt s'
  else s' = s.

(** What [run] does after the clean-up. *)
Definition after_cleanup (E : env) (o : LatexMaker) : M unit :=
  bind (when (preview (opt o)) (open_preview E))
       (fun _ =>
          bind (log INFO ("'" +:+ project_name o +:+ ".tex' compiled"))
               (fun _ =>
                  when (notify (opt o))
                       (notify_send E ("'" +:+ project_name o
                                       +:+ ".tex' compiled")))).

(** *** The exceptions of [main] *)

Definition is_AttributeError (e : exn) : Prop :=
  exists name, e = AttributeError name.

(** The exit of [main] with a status: 2 from the argument parser, 1
    right after the notice of the handler. *)
Definition orderly_exit (code : Z) (s : state) : Prop :=
  code = 2%Z \/ (code = 1%Z /\ last (st_trace s) = Some exiting_notice).

(** *** Bibliographies and citations, line by line *)

(** What the check logs for an entry that is not cited. *)
Definition uncited_notice (name : string) : event :=
  EvLog INFO ("Bib entry not cited: " +:+ dquote +:+ name +:+ dquote).

(** A bibliography written line by line: the head of an entry,
    [@kind{key,], or another line. *)
Inductive bib_line : Type :=
| Entry (kind key : string)
| Field (t : string).

Definition render_bib (l : bib_line) : string :=
  match l with
  | Entry kind key => "@" +:+ kind +:+ "{" +:+ key +:+ ","
  | Field t => t
  end.

(** The lines of an auxiliary file that matter to the check: a
    [\bibcite{key}{label}], or another line. *)
Inductive bibcite_line : Type :=
| Bibcite (key label : string)
| Plain (t : string).

Definition render_bibcite (l : bibcite_line) : string :=
  match l with
  | Bibcite key label => "\bibcite{" +:+ key +:+ "}{" +:+ label +:+ "}"
  | Plain t => t
  end.

(** A text without the character [c]. *)
Definition lacks (c : ascii) (l : list ascii) : bool :=
  forallb (fun x => negb (Ascii.eqb x c)) l.

(** The literals of the two patterns of the check. *)
Definition bibcite_open : list ascii := list_ascii_of_string "\bibcite{".
Definition cite_mid : list ascii := list_ascii_of_string "}{".
Definition cite_end : list ascii := list_ascii_of_string "}".
Definition entry_open : list ascii := list_ascii_of_string "@".
Definition entry_mid : list ascii := list_ascii_of_string "{".
Definition entry_end : list ascii := list_ascii_of_string ",".

(** No line holds a line break.  The key of an entry holds no opening
    brace, and another line of the bibliography holds no [@]. *)
Definition bib_line_ok (l : bib_line) : bool :=
  match l with
  | Entry kind key =>
      no_newline (list_ascii_of_string kind)
      && no_newline (list_ascii_of_string key)
      && lacks "{"%char (list_ascii_of_string key)
  | Field t =>
      no_newline (list_ascii_of_string t)
      && lacks "@"%char (list_ascii_of_string t)
  end.

(** The label of a [\bibcite] holds no closing brace, and another line
    of the auxiliary file holds no [\bibcite{]. *)
Definition bibcite_line_ok (l : bibcite_line) : bool :=
  match l with
  | Bibcite key label =>
      no_newline (list_ascii_of_string key)
      && no_newline (list_ascii_of_string label)
      && lacks close_brace (list_ascii_of_string label)
  | Plain t =>
      no_newline (list_ascii_of_string t)
      && (occurrences bibcite_open (list_ascii_of_string t) =? 0)%nat
  end.

(** The keys of the entries, and the keys that are cited, in the order
    of the files. *)
Definition entry_keys (ls : list bib_line) : list string :=
  omap (fun l => match l with Entry _ key => Some key | Field _ => None end)
       ls.

Definition cited_keys (ls : list bibcite_line) : list string :=
  omap (fun l => match l with Bibcite key _ => Some key | Plain _ => None end)
       ls.

(** The entries that no [\bibcite] names. *)
Definition not_cited (aux : list bibcite_line) (bib : list bib_line)
    : list string :=
  List.filter (fun key => negb (bool_decide (key ∈ cited_keys aux)))
              (entry_keys bib).

End Props.

Import Props.

(** * Sample projects *)

Module Cases.

Import LatexMake.

(** A text file from its lines. *)
Definition text (ls : list string) : string :=
  String.concat EmptyString (map (fun l => l +:+ nl) ls).

Definition dir (entries : list (string * entry)) (now : Z) : world :=
  World (list_to_map entries) now.

Definition options_default : options :=
  Options None false 0 true false false true None false.

(** An object as [__init__] leaves it, for [pdflatex]. *)
Definition fresh (name : string) (o : options) : LatexMaker :=
  Maker o name "pdflatex" EmptyString [] 0 EmptyString [].

(** The text of the error for a program that is not installed. *)
Definition no_such_file (cmd : list string) : string :=
  "[Errno 2] No such file or directory: '" +:+ hd EmptyString cmd +:+ "'".

(** Tools that start and leave the files alone. *)
Definition E_idle : env :=
  Env (fun _ w => Some w) (fun w => w) (fun _ _ => None) (fun _ => true) "linux" false
      no_such_file.

(** No tool can be started. *)
Definition E_no_tools : env :=
  Env (fun _ _ => None) (fun w => w) (fun _ _ => None) (fun _ => true) "linux" false
      no_such_file.

(** A compiler whose log holds every rerun trigger, each time. *)
Definition log_restless : string :=
  text ["LaTeX Warning: Reference `sec:a' on page 1 undefined on input line 3.";
        "LaTeX Warning: There were undefined references.";
        "LaTeX Warning: Label(s) may have changed. Rerun to get it right.";
        "No file paper.lof."].

Definition E_restless : env :=
  Env (fun _ w =>
         Some (World (<["paper.log" := File log_restless (w_time w)]>
                        (<["paper.aux" := File (text ["\relax "]) (w_time w)]>
                           (w_files w)))
                     (w_time w + 1)))
      (fun w => w) (fun _ _ => None) (fun _ => true) "linux" false
      no_such_file.

Definition no_stop : options :=
  Options None false 0 false false false true None false.

Definition s_paper : state :=
  State (fresh "paper" no_stop)
        (dir [("paper.tex", File (text ["\documentclass{article}"]) 0)] 1)
        [].

(** A project with a table of contents from an earlier run. *)
Definition s_toc : state :=
  State (fresh "paper" options_default)
        (dir [("paper.tex", File (text ["\tableofcontents"]) 0);
              ("paper.toc", File (text ["\contentsline {section}{A}{1}"]) 0)]
             1)
        [].

(** A project with a bibliography and a saved copy of it. *)
Definition aux_refs : string :=
  text ["\relax "; "\citation{knuth}"; "\bibdata{refs}"].

Definition s_refs (bib saved : entry) : state :=
  State (fresh "paper" options_default)
        (dir [("paper.aux", File aux_refs 0);
              ("refs.bib", bib);
              ("refs.bib.old", saved)] 9)
        [].

Definition counter_refs : gmap string (gmap string nat) :=
  {[ "paper.aux" := {[ "knuth" := 1 ]} ]}.

(** A registry with an entry of an earlier auxiliary file, and an
    auxiliary file that declares another glossary. *)
Definition aux_glossary : string :=
  text ["\relax "; "\@newglossary{main}{glg}{gls}{glo}"].

Definition s_stale : state :=
  State (Maker options_default "paper" "pdflatex" EmptyString
               [("acronym", ("acr", "acn"))] 0 EmptyString [])
        (dir [("paper.aux", File aux_glossary 0)] 1)
        [].

(** The glossary [main] of the project [main], with input extension
    [glo] and output extension [gls]; [main.gls] does not exist. *)
Definition s_main : state :=
  State (Maker options_default "main" "pdflatex" EmptyString
               [("main", ("glo", "gls"))] 1 EmptyString [])
        (dir [("main.tex", File (text ["\printglossary"]) 0);
              ("main.glo", File (text ["\glossaryentry{a}{1}"]) 1)] 2)
        [].

(** A main auxiliary file that refers to one file that exists and one
    that does not. *)
Definition s_chapters : state :=
  State (fresh "paper" options_default)
        (dir [("paper.aux",
               File (text ["\@input{ch1.aux}"; "\@input{ch2.aux}";
                           "\citation{a}"]) 0);
              ("ch1.aux", File (text ["\citation{b}"; "\citation{b}"]) 0)]
             1)
        [].

(** Two source files and no file name on the command line. *)
Definition w_two_sources : world :=
  dir [("paper.tex", File (text ["\input{chapter}"]) 0);
       ("chapter.tex", File (text ["text"]) 0)] 1.

(** A run with the clean flag: the compiler leaves a log, an auxiliary
    file and the output. *)
Definition cleaning : options :=
  Options None true 0 false false false true None false.

Definition E_pdf : env :=
  Env (fun _ w =>
         Some (World (<["paper.pdf" := File "%PDF" (w_time w)]>
                        (<["paper.log" := File (text ["Output written"])
                                               (w_time w)]>
                           (<["paper.aux" := File (text ["\relax "])
                                                  (w_time w)]>
                              (w_files w))))
                     (w_time w + 1)))
      (fun w => w) (fun _ _ => None) (fun _ => true) "linux" false
      no_such_file.

Definition s_clean : state :=
  State (fresh "paper" cleaning)
        (dir [("paper.tex", File (text ["\documentclass{article}"]) 0);
              ("figures", Dir)] 1)
        [].

(** The check for entries that are not cited, in a project without
    bibliography. *)
Definition checking : options :=
  Options None false 0 false false false true None true.

Definition s_check : state :=
  State (fresh "paper" checking)
        (dir [("paper.tex", File (text ["\documentclass{article}"]) 0)] 1)
        [].

(** The states in which the build of two of these projects ends. *)
Definition s_clean_built : state := final (run_build E_pdf s_clean).
Definition s_check_built : state := final (run_build E_restless s_check).

(** Further sample projects. *)

(** A project file of the editor, and a refresh of the workspace that
    writes it while the program sleeps. *)
Definition texlipse_file : string :=
  text ["builderNum=2"; "mainTexFile=thesis.tex"; "outputFormat=pdf"].

Definition E_refresh : env :=
  Env (fun _ w => Some w)
      (fun w => World (<[".texlipse" := File texlipse_file (w_time w)]>
                         (w_files w))
                      (w_time w + 1))
      (fun _ _ => None) (fun _ => true) "linux" false
      no_such_file.

Definition s_texlipse : state :=
  State (blank options_default)
        (dir [(".texlipse", File texlipse_file 0);
              ("thesis.tex", File (text ["\documentclass{book}"]) 0)] 1)
        [].

(** An object whose last log is [log]. *)
Definition after_pass (log : string) (s : state) : state :=
  State (set_out log (st_self s)) (st_world s) (st_trace s).

(** Logs of the compiler: with an error, without anything to report,
    with a bibliography to be made. *)
Definition log_failed : string :=
  text ["This is pdfTeX"; "! Undefined control sequence."; "l.5 \foo"].

Definition log_fine : string :=
  text ["This is pdfTeX"; "Output written on paper.pdf (1 page)."].

Definition log_no_bbl : string :=
  text ["This is pdfTeX"; "No file paper.bbl."].

(** What the compiler of [E_pdf] leaves. *)
Definition built (w : world) : world :=
  World (<["paper.pdf" := File "%PDF" (w_time w)]>
           (<["paper.log" := File (text ["Output written"]) (w_time w)]>
              (<["paper.aux" := File (text ["\relax "]) (w_time w)]>
                 (w_files w))))
        (w_time w + 1).

(** A project whose glossary is up to date. *)
Definition s_indexed : state :=
  State (Maker options_default "main" "pdflatex" EmptyString
               [("main", ("glo", "gls"))] 1 EmptyString [])
        (dir [("main.tex", File (text ["\printglossary"]) 0);
              ("main.glo", File (text ["\glossaryentry{a}{1}"]) 1);
              ("main.gls", File (text ["\glossentry{a}"]) 2)] 3)
        [].

(** The command line [latexmake paper.tex]. *)
Definition args_paper : options :=
  Options (Some "paper.tex") false 0 true false false true None false.

(** A compiler that stops at an error and leaves its log. *)
Definition failed (w : world) : world :=
  World (<["paper.log" := File log_failed (w_time w)]> (w_files w))
        (w_time w + 1).

Definition E_failing : env :=
  Env (fun _ w => Some (failed w)) (fun w => w) (fun _ _ => None)
      (fun _ => true) "linux" false
      no_such_file.

(** The project [paper] with the options as they are by default. *)
Definition s_plain : state :=
  State (fresh "paper" options_default) (st_world s_paper) [].

(** Samples for the glossary rule and the references. *)

(** Three glossaries of the project [main]: the output of the first is
    absent, the output of the second is not what the snapshot holds,
    the third is up to date. *)
Definition s_three : state :=
  State (Maker options_default "main" "pdflatex"
               (text ["This is pdfTeX"])
               [("main", ("glo", "gls")); ("acronym", ("acn", "acr"));
                ("symbols", ("slo", "sls"))]
               1 EmptyString [])
        (dir [("main.tex", File (text ["\printglossaries"]) 0);
              ("main.acr", File (text ["\glossentry{b}"]) 2);
              ("main.sls", File (text ["\glossentry{c}"]) 2)] 3)
        [].

Definition snapshot_three : gmap string string :=
  {[ "acronym" := text ["\glossentry{a}"];
     "symbols" := text ["\glossentry{c}"] ]}.

(** An up-to-date glossary and a log that holds, for other reasons, a
    text close to the notice of a missing input file. *)
Definition s_near_miss : state :=
  State (Maker options_default "main" "pdflatex"
               (text ["No file mainXglo!"])
               [("main", ("glo", "gls"))] 1 EmptyString [])
        (dir [("main.tex", File (text ["\printglossary"]) 0);
              ("main.gls", File (text ["\glossentry{a}"]) 2)] 3)
        [].

Definition snapshot_near_miss : gmap string string :=
  {[ "main" := text ["\glossentry{a}"] ]}.

(** A main auxiliary file with two references on one line; both files
    exist. *)
Definition aux_two_inputs : string :=
  text ["\@input{ch1.aux}\@input{ch2.aux}"].

Definition s_two_inputs : state :=
  State (fresh "paper" options_default)
        (dir [("paper.aux", File aux_two_inputs 0);
              ("ch1.aux", File (text ["\citation{b}"]) 0);
              ("ch2.aux", File (text ["\citation{c}"]) 0)] 1)
        [].

(** A bibliography with an entry that is cited and one that is not. *)
Definition aux_knuth : list bibcite_line :=
  [Plain "\relax "; Bibcite "knuth" "1"; Plain "\bibstyle{plain}"].

Definition bib_two : list bib_line :=
  [Entry "book" "knuth"; Field "  title = {TAOCP},"; Field "}";
   Entry "book" "lamport"; Field "  title = {LaTeX},"; Field "}"].

Definition s_cited : state :=
  State (set_bib_file "refs" (fresh "paper" checking))
        (dir [("paper.aux", File (unlines (map render_bibcite aux_knuth)) 0);
              ("refs.bib", File (unlines (map render_bib bib_two)) 0)]
             1)
        [].

End Cases.

Import Cases.

(** * Properties *)

Import LatexMake.
Local Open Scope prog_scope.

(** ** Running the primitives *)

Section Basics.

Lemma bind_eq {A B} (c : M A) (f : A -> M B) s :
  bind c f s
  = match c s with
    | Ok a s' => f a s'
    | Raise e s' => Raise e s'
    end.
Proof. reflexivity. Qed.

Lemma bind_get_self {B} (f : LatexMaker -> M B) s :
  bind get_self f s = f (st_self s) s.
Proof. reflexivity. Qed.

Lemma bind_get_world {B} (f : world -> M B) s :
  bind get_world f s = f (st_world s) s.
Proof. reflexivity. Qed.

Lemma isfile_eq path s : isfile path s = Ok (is_file (st_world s) path) s.
Proof. reflexivity. Qed.

Lemma read_ok path s bytes t :
  w_files (st_world s) !! path = Some (File bytes t) ->
  read path s = Ok (decode bytes) s.
Proof. intros H. unfold read. rewrite bind_get_world, H. reflexivity. Qed.

Lemma read_fail path s :
  is_file (st_world s) path = false -> read path s = Raise (OSError path) s.
Proof.
  unfold is_file, read. rewrite bind_get_world.
  destruct (w_files (st_world s) !! path) as [[] |];
    try discriminate; reflexivity.
Qed.

Lemma is_file_true w path :
  is_file w path = true ->
  exists bytes t, w_files w !! path = Some (File bytes t).
Proof.
  unfold is_file.
  destruct (w_files w !! path) as [[c t |] |]; try discriminate.
  eauto.
Qed.

End Basics.

(** ** Computations that keep the core of the state *)

Section Steady.

Lemma steady_ret {A} (a : A) : steady (ret a).
Proof. intros s. reflexivity. Qed.

Lemma steady_raise {A} (e : exn) : steady (@raise A e).
Proof. intros s. reflexivity. Qed.

Lemma steady_bind {A B} (c : M A) (f : A -> M B) :
  steady c -> (forall a, steady (f a)) -> steady (bind c f).
Proof.
  intros Hc Hf s. unfold bind.
  specialize (Hc s). destruct (c s) as [a s1 | e s1]; simpl in *.
  - rewrite Hf. exact Hc.
  - exact Hc.
Qed.

Lemma steady_get_self : steady get_self.
Proof. intros s. reflexivity. Qed.

Lemma steady_get_world : steady get_world.
Proof. intros s. reflexivity. Qed.

Lemma steady_put_world w : steady (put_world w).
Proof. intros s. reflexivity. Qed.

Lemma compiler_calls_app tr ev :
  compiler_calls (tr ++ [ev])
  = (compiler_calls tr + if is_compiler_call ev then 1 else 0)%nat.
Proof.
  unfold compiler_calls. rewrite List.filter_app, length_app. simpl.
  destruct (is_compiler_call ev); reflexivity.
Qed.

Lemma steady_emit ev : is_compiler_call ev = false -> steady (emit ev).
Proof.
  intros H s. unfold core_of. simpl.
  rewrite compiler_calls_app, H, Nat.add_0_r. reflexivity.
Qed.

Lemma steady_update_self f : minor f -> steady (update_self f).
Proof.
  intros H s. unfold core_of. simpl.
  destruct (H (st_self s)) as (-> & -> & -> & -> & ->). reflexivity.
Qed.

Lemma minor_set_out v : minor (set_out v).
Proof. intros o. repeat split. Qed.

Lemma minor_set_bib_file v : minor (set_bib_file v).
Proof. intros o. repeat split. Qed.

Lemma minor_set_glossaries g :
  minor (fun o => set_glossaries (g o) o).
Proof. intros o. repeat split. Qed.

Lemma steady_log lv msg : steady (log lv msg).
Proof. apply steady_emit. reflexivity. Qed.

Lemma steady_except_OSError {A} (c : M A) h :
  steady c -> (forall e, steady (h e)) -> steady (except_OSError c h).
Proof.
  intros Hc Hh s. unfold except_OSError.
  specialize (Hc s). destruct (c s) as [a s1 | e s1]; simpl in *.
  - exact Hc.
  - destruct e; simpl; try exact Hc. rewrite Hh. exact Hc.
Qed.

Lemma steady_when b c : steady c -> steady (when b c).
Proof. intros H. destruct b; [exact H | apply steady_ret]. Qed.

Lemma steady_for_each {A} (l : list A) body :
  (forall x, steady (body x)) -> steady (for_each l body).
Proof.
  intros H. induction l as [| x l IH]; simpl.
  - apply steady_ret.
  - apply steady_bind; [apply H | intros _; exact IH].
Qed.

Lemma steady_for_fold {A B} (l : list A) (acc : B) body :
  (forall b x, steady (body b x)) -> steady (for_fold l acc body).
Proof.
  intros H. revert acc. induction l as [| x l IH]; intros acc; simpl.
  - apply steady_ret.
  - apply steady_bind; [apply H | intros b; apply IH].
Qed.

End Steady.

Create HintDb steady.
#[local] Hint Resolve steady_ret steady_raise steady_get_self steady_get_world
  steady_put_world steady_log : steady.

(** One step of a proof that a program is [steady]: split a sequence, a
    handler, a loop or a test, or close a leaf with a known fact. *)
Ltac steady_step :=
  lazymatch goal with
  | |- steady (bind _ _) => apply steady_bind; [ | intros ?]
  | |- steady (except_OSError _ _) => apply steady_except_OSError; [ | intros ?]
  | |- steady (when _ _) => apply steady_when
  | |- steady (update_self _) =>
      apply steady_update_self;
      first [ apply minor_set_out | apply minor_set_bib_file
            | apply minor_set_glossaries ]
  | |- steady (for_each _ _) => apply steady_for_each; intros ?
  | |- steady (for_fold _ _ _) => apply steady_for_fold; intros ? ?
  | |- steady (match ?x with _ => _ end) => destruct x
  | |- steady (let _ := _ in _) => cbv zeta
  | |- steady _ => solve [auto with steady]
  end.

Ltac steady_tac := repeat steady_step.

Section SteadyMethods.

Variable E : env.

Lemma steady_isfile path : steady (isfile path).
Proof. unfold isfile. steady_tac. Qed.

Lemma steady_read path : steady (read path).
Proof. unfold read. steady_tac. Qed.

Lemma steady_open_rb path : steady (open_rb path).
Proof. unfold open_rb. steady_tac. Qed.

Lemma steady_listdir : steady listdir.
Proof. unfold listdir. steady_tac. Qed.

Lemma steady_remove path : steady (remove E path).
Proof. unfold remove. steady_tac. Qed.

Lemma steady_copy src dst : steady (copy src dst).
Proof. unfold copy. steady_tac. Qed.

Lemma steady_filecmp_cmp f1 f2 : steady (filecmp_cmp f1 f2).
Proof. unfold filecmp_cmp. steady_tac. Qed.

#[local] Hint Resolve steady_isfile steady_read steady_open_rb steady_listdir
  steady_remove steady_copy steady_filecmp_cmp : steady.

Lemma steady_popen cmd : is_compiler_cmd cmd = false -> steady (popen E cmd).
Proof.
  intros H. unfold popen.
  apply steady_bind; [apply steady_emit; exact H | intros _].
  steady_tac.
Qed.

Lemma steady_fatal_error {A} msg : steady (@_fatal_error A msg).
Proof. unfold _fatal_error. steady_tac. Qed.

Lemma steady_count_citations f : steady (_count_citations f).
Proof. unfold _count_citations. steady_tac. Qed.

#[local] Hint Resolve steady_fatal_error steady_count_citations : steady.

Lemma steady_read_glossaries : steady read_glossaries.
Proof. unfold read_glossaries. steady_tac. Qed.

Lemma steady_generate_citation_counter : steady generate_citation_counter.
Proof. unfold generate_citation_counter. steady_tac. Qed.

#[local] Hint Resolve steady_read_glossaries
  steady_generate_citation_counter : steady.

Lemma steady_read_latex_files : steady _read_latex_files.
Proof. unfold _read_latex_files. steady_tac. Qed.

Lemma steady_is_toc_changed sha : steady (_is_toc_changed sha).
Proof. unfold _is_toc_changed. steady_tac. Qed.

Lemma steady_need_bib_run old : steady (_need_bib_run old).
Proof. unfold _need_bib_run. steady_tac. Qed.

Lemma steady_check_errors : steady check_errors.
Proof. unfold check_errors. steady_tac. Qed.

Lemma steady_bibtex_run : steady (bibtex_run E).
Proof.
  unfold bibtex_run. steady_tac. apply steady_popen. reflexivity.
Qed.

Lemma steady_makeindex_one gf changed gloss :
  steady (makeindex_one E gf changed gloss).
Proof.
  unfold makeindex_one. steady_tac. apply steady_popen. reflexivity.
Qed.

Lemma steady_makeindex_runs gf : steady (makeindex_runs E gf).
Proof.
  unfold makeindex_runs. steady_tac. apply steady_makeindex_one.
Qed.

Lemma steady_open_preview : steady (open_preview E).
Proof.
  unfold open_preview. steady_tac;
    try (apply steady_popen; reflexivity);
    try (apply steady_emit; reflexivity).
Qed.

Lemma steady_check_cite_block : steady check_cite_block.
Proof. unfold check_cite_block. steady_tac. Qed.

Lemma steady_clean_block : steady (clean_block E).
Proof. unfold clean_block. steady_tac. Qed.

End SteadyMethods.

(** ** Counting the compiler passes *)

Section Passes.

Variable E : env.

Lemma steady_final {A} (c : M A) s :
  steady c ->
  ids (final (c s)) = ids s /\ counter (final (c s)) = counter s
  /\ calls (final (c s)) = calls s.
Proof.
  intros H. unfold ids, counter, calls.
  assert (Hc : core_of (final (c s)) = core_of s) by apply H.
  rewrite Hc. unfold core_of in Hc.
  injection Hc as _ _ _ _ -> ->. auto.
Qed.

Lemma steady_spends {A} (c : M A) : steady c -> spends c 0.
Proof.
  intros H s. destruct (steady_final c s H) as (_ & Hn & Hk).
  destruct (c s) as [a s1 | e s1]; simpl in *.
  - exists 0. lia.
  - lia.
Qed.

Lemma spends_bind {A B} (c : M A) (f : A -> M B) n m :
  spends c n -> (forall a, spends (f a) m) -> spends (bind c f) (n + m).
Proof.
  intros Hc Hf s. unfold bind.
  specialize (Hc s).
  destruct (c s) as [a s1 | e s1]; simpl in *.
  - specialize (Hf a s1).
    destruct Hc as (k & Hk & Hn & Hp).
    destruct (f a s1) as [b s2 | e s2].
    + destruct Hf as (k1 & Hk1 & Hn1 & Hp1).
      exists (k + k1). lia.
    + lia.
  - lia.
Qed.

Lemma spends_le {A} (c : M A) n m : n <= m -> spends c n -> spends c m.
Proof.
  intros Hle Hc s. specialize (Hc s).
  destruct (c s) as [a s1 | e s1].
  - destruct Hc as (k & Hk & Hr). exists k. split; [lia | exact Hr].
  - lia.
Qed.

Lemma spends_when b c n : spends c n -> spends (when b c) n.
Proof.
  intros H. destruct b; [exact H |].
  apply (spends_le _ 0); [lia |]. apply steady_spends, steady_ret.
Qed.

Lemma spends_set_old_dir v : spends (update_self (set_old_dir v)) 0.
Proof. intros s. simpl. exists 0. unfold counter, calls. simpl. lia. Qed.

Lemma spends_upto_bind {A B} (c : M A) (f : A -> M B) n m :
  spends c n -> (forall a, spends_upto (f a) m) ->
  spends_upto (bind c f) (n + m).
Proof.
  intros Hc Hf s. unfold bind.
  specialize (Hc s).
  destruct (c s) as [a s1 | e s1]; simpl in *.
  - destruct Hc as (k & Hk & Hn & Hp).
    destruct (Hf a s1) as [H1 H2]. lia.
  - lia.
Qed.

Lemma spends_upto_then_steady {A B} (c : M A) (f : A -> M B) n :
  spends_upto c n -> (forall a, steady (f a)) -> spends_upto (bind c f) n.
Proof.
  intros Hc Hf s. unfold bind.
  specialize (Hc s).
  destruct (c s) as [a s1 | e s1]; simpl in *; [| exact Hc].
  destruct (steady_final (f a) s1 (Hf a)) as (_ & -> & ->). exact Hc.
Qed.

Lemma latex_cmdline_is_compiler o : is_compiler_cmd (latex_cmdline o) = true.
Proof. reflexivity. Qed.

(** [latex_run], step by step: the command is logged and started; if it
    cannot be started the error is logged and raised, otherwise the
    counter goes up and the log file is read and checked. *)
Lemma latex_run_eq s :
  latex_run E s =
  let o := st_self s in
  let tr := (st_trace s ++ [EvLog INFO ("Running " +:+ latex_cmd o +:+ "...")])
            ++ [EvPopen (latex_cmdline o)] in
  match exec E (latex_cmdline o) (st_world s) with
  | Some w' =>
      (content <- read (project_name o +:+ ".log") ;;
       update_self (set_out content) ;;
       check_errors)
        (State (set_latex_run_counter (S (latex_run_counter o)) o) w' tr)
  | None =>
      Raise (LatexMkError (NO_LATEX_ERROR (latex_cmd o)))
            (State o (st_world s)
                   (tr ++ [EvLog ERROR (NO_LATEX_ERROR (latex_cmd o))]))
  end.
Proof.
  cbv beta iota zeta delta
    [latex_run bind get_self log emit except_OSError popen get_world
     put_world update_self raise _fatal_error st_self st_world st_trace].
  destruct (exec E _ _); reflexivity.
Qed.

(** One call of [latex_run] is one compiler process and one more on the
    counter; when the process cannot be started the counter stays. *)
Lemma latex_run_spec s :
  ids (final (latex_run E s)) = ids s /\
  calls (final (latex_run E s)) = calls s + 1 /\
  match latex_run E s with
  | Ok _ s' => counter s' = counter s + 1
  | Raise _ s' => counter s' <= counter s + 1
  end.
Proof.
  rewrite latex_run_eq. cbv zeta.
  destruct (exec E (latex_cmdline (st_self s)) (st_world s)) as [w' |].
  - set (rest := bind _ _).
    set (s1 := State _ w' _).
    assert (Hst : steady rest).
    { unfold rest. steady_tac; auto using steady_read, steady_check_errors. }
    destruct (steady_final rest s1 Hst) as (Hi & Hn & Hp).
    assert (Hi1 : ids s1 = ids s) by reflexivity.
    assert (Hc1 : counter s1 = counter s + 1)
      by (unfold counter; simpl; lia).
    assert (Hk1 : calls s1 = calls s + 1).
    { unfold calls, s1. simpl. rewrite !compiler_calls_app. simpl. lia. }
    split; [congruence |].
    destruct (rest s1) as [a s2 | e s2]; simpl in *; split; lia.
  - split; [reflexivity |].
    unfold counter, calls. simpl. rewrite !compiler_calls_app. simpl.
    split; lia.
Qed.

Lemma latex_run_spends : spends (latex_run E) 1.
Proof.
  intros s. destruct (latex_run_spec s) as (Hi & Hk & Hc).
  destruct (latex_run E s) as [a s1 | e s1]; simpl in *.
  - exists 1. lia.
  - lia.
Qed.

Lemma rerun_loop_eq fuel s :
  rerun_loop E (S fuel) s =
  if (latex_run_counter (st_self s) <? MAX_RUNS)%nat then
    if negb (need_latex_rerun (st_self s)) then Ok tt s
    else match latex_run E s with
         | Ok _ s1 => rerun_loop E fuel s1
         | Raise e s1 => Raise e s1
         end
  else Ok tt s.
Proof.
  simpl. unfold bind, get_self.
  destruct (_ <? _)%nat; [| reflexivity].
  destruct (negb _); reflexivity.
Qed.

(** The loop stops by itself: with the counter at [c] it starts the
    compiler at most [MAX_RUNS - c] times, whatever the logs say. *)
Lemma rerun_loop_spends fuel : spends_upto (rerun_loop E fuel) 0.
Proof.
  induction fuel as [| fuel IH]; intros s.
  - simpl. lia.
  - rewrite rerun_loop_eq.
    destruct (latex_run_counter (st_self s) <? MAX_RUNS)%nat eqn:Hlt;
      [| simpl; lia].
    apply Nat.ltb_lt in Hlt. fold (counter s) in Hlt.
    destruct (negb (need_latex_rerun (st_self s))); [simpl; lia |].
    destruct (latex_run_spec s) as (_ & Hk & Hs).
    destruct (latex_run E s) as [[] s1 | e s1]; simpl in *.
    + destruct (IH s1) as (Hhi & Hc). lia.
    + unfold MAX_RUNS in *. lia.
Qed.

(** Extra fuel changes nothing: the loop of [run] is the [while] loop of
    the source, not a cut-off version of it. *)
Lemma rerun_loop_fuel fuel s :
  MAX_RUNS - counter s <= fuel ->
  rerun_loop E (S fuel) s = rerun_loop E fuel s.
Proof.
  revert s. induction fuel as [| fuel IH]; intros s Hf.
  - rewrite rerun_loop_eq. simpl.
    destruct (latex_run_counter (st_self s) <? MAX_RUNS)%nat eqn:Hlt;
      [| reflexivity].
    apply Nat.ltb_lt in Hlt. unfold counter in Hf. lia.
  - rewrite (rerun_loop_eq (S fuel)), (rerun_loop_eq fuel).
    destruct (latex_run_counter (st_self s) <? MAX_RUNS)%nat eqn:Hlt;
      [| reflexivity].
    destruct (negb (need_latex_rerun (st_self s))); [reflexivity |].
    destruct (latex_run_spec s) as (_ & _ & Hs).
    destruct (latex_run E s) as [[] s1 | e s1]; [| reflexivity].
    apply Nat.ltb_lt in Hlt. fold (counter s) in Hlt.
    apply IH. lia.
Qed.

Lemma run_build_spends : spends_upto (run_build E) 3.
Proof.
  unfold run_build.
  apply (spends_upto_bind _ _ 0 3); [apply spends_set_old_dir | intros _].
  apply (spends_upto_bind _ _ 0 3);
    [apply steady_spends, steady_get_self | intros o].
  apply (spends_upto_bind _ _ 0 3); [| intros _].
  { apply spends_when. apply (spends_bind _ _ 0 0).
    - apply steady_spends, steady_listdir.
    - intros names. apply spends_set_old_dir. }
  apply (spends_upto_bind _ _ 0 3);
    [apply steady_spends, steady_read_latex_files | intros [[cc sha] gf]].
  apply (spends_upto_bind _ _ 1 2); [apply latex_run_spends | intros _].
  apply (spends_upto_bind _ _ 0 2);
    [apply steady_spends, steady_read_glossaries | intros _].
  apply (spends_upto_bind _ _ 0 2);
    [apply steady_spends, steady_makeindex_runs | intros changed].
  apply (spends_upto_bind _ _ 0 2); [| intros again].
  { apply steady_spends. destruct changed; [apply steady_ret |].
    apply steady_bind; [apply steady_is_toc_changed | intros r].
    apply steady_ret. }
  apply (spends_upto_bind _ _ 1 1);
    [apply spends_when, latex_run_spends | intros _].
  apply (spends_upto_bind _ _ 0 1);
    [apply steady_spends, steady_need_bib_run | intros need].
  apply (spends_upto_bind _ _ 1 0); [| intros _; apply rerun_loop_spends].
  apply spends_when. apply (spends_bind _ _ 0 1).
  - apply steady_spends, steady_bibtex_run.
  - intros _. apply latex_run_spends.
Qed.

Lemma steady_run_finish : steady (run_finish E).
Proof.
  unfold run_finish.
  apply steady_bind; [apply steady_get_self | intros o].
  apply steady_bind;
    [apply steady_when, steady_check_cite_block | intros _].
  apply steady_bind; [apply steady_when, steady_clean_block | intros _].
  apply steady_bind; [apply steady_when, steady_open_preview | intros _].
  cbv zeta.
  apply steady_bind; [apply steady_log | intros _].
  apply steady_when. unfold notify_send.
  destruct (notify2_loaded E); [apply steady_emit; reflexivity |].
  apply steady_raise.
Qed.

Lemma run_spends : spends_upto (run E) 3.
Proof.
  unfold run. apply spends_upto_then_steady.
  - apply run_build_spends.
  - intros _. apply steady_run_finish.
Qed.

(** Fuel beyond [MAX_RUNS] is never used. *)
Lemma rerun_loop_enough fuel s :
  rerun_loop E (MAX_RUNS + fuel) s = rerun_loop E MAX_RUNS s.
Proof.
  induction fuel as [| fuel IH].
  - rewrite Nat.add_0_r. reflexivity.
  - rewrite Nat.add_succ_r, rerun_loop_fuel; [exact IH |]. lia.
Qed.

(** [__init__] leaves the counter at 0 and [bib_file] empty: this is the
    state in which [main] calls [run]. *)
Lemma init_fresh name opt s s' :
  init E name opt s = Ok tt s' ->
  latex_run_counter (st_self s') = 0 /\ bib_file (st_self s') = EmptyString.
Proof.
  unfold init. rewrite bind_eq. unfold update_self at 1.
  rewrite bind_eq.
  destruct ((if String.eqb name ".texlipse"
             then _parse_texlipse_config E else ret name) _)
    as [n s1 | e s1]; [| discriminate].
  rewrite bind_eq. unfold update_self at 1. rewrite bind_eq.
  destruct (when (endswith n ".tex") _ _) as [[] s2 | e s2] eqn:H2;
    [| discriminate].
  cbv beta iota zeta delta [bind update_self].
  intros [= <-]. split; reflexivity.
Qed.

(** C1.  In one call of [run] the compiler is started at most
    [MAX_RUNS] = 4 times, whatever the tools do and whatever the logs
    contain, whether [run] returns or raises; and on an object fresh from
    [__init__] (counter at 0) the counter ends at 4 or less.  Counter and
    trace only grow, so neither bound is exceeded on the way. *)
Theorem run_at_most_MAX_RUNS (s : state) :
  compiler_calls (st_trace (final (run E s)))
    <= compiler_calls (st_trace s) + MAX_RUNS
  /\ (latex_run_counter (st_self s) = 0 ->
      latex_run_counter (st_self (final (run E s))) <= MAX_RUNS).
Proof.
  destruct (run_spends s) as [Hn Hk].
  unfold counter, calls in *. unfold MAX_RUNS in *. split.
  - lia.
  - intros H0. rewrite H0 in *. simpl in *. lia.
Qed.

End Passes.

(** ** The matcher on patterns that end a group with a closing brace *)

Section Braces.

Lemma advance_rest n st : m_rest (advance n st) = drop n (m_rest st).
Proof.
  revert st. induction n as [| n IH]; intros [pos prev rest caps]; simpl.
  - reflexivity.
  - destruct rest as [| c r]; simpl; [reflexivity |]. apply IH.
Qed.

Lemma advance_caps n st : m_caps (advance n st) = m_caps st.
Proof.
  revert st. induction n as [| n IH]; intros [pos prev rest caps]; simpl.
  - reflexivity.
  - destruct rest as [| c r]; simpl; [reflexivity |]. apply IH.
Qed.

Lemma advance_pos n st :
  n <= length (m_rest st) -> m_pos (advance n st) = m_pos st + n.
Proof.
  revert st. induction n as [| n IH]; intros [pos prev rest caps]; simpl.
  - lia.
  - destruct rest as [| c r]; simpl; [lia |].
    intros H. rewrite IH; simpl; lia.
Qed.

Lemma advance_S n pos prev c r caps :
  advance (S n) (MState pos prev (c :: r) caps)
  = advance n (MState (S pos) (Some c) r caps).
Proof. reflexivity. Qed.

Lemma is_prefix_length p l : is_prefix p l = true -> length p <= length l.
Proof.
  revert l. induction p as [| a p IH]; intros [| b l]; simpl;
    try lia; try discriminate.
  intros H. apply andb_true_iff in H as [_ H]. apply IH in H. lia.
Qed.

(** A literal matches when it is a prefix of what is left. *)
Lemma mt_lit_chars p st k :
  mt (lit_chars p) st k
  = if is_prefix p (m_rest st) then k (advance (length p) st) else None.
Proof.
  revert st. induction p as [| a p IH]; intros [pos prev rest caps].
  - reflexivity.
  - simpl. destruct rest as [| b r]; [reflexivity |].
    rewrite (Ascii.eqb_sym a b).
    destruct (Ascii.eqb b a) eqn:Hab; simpl; [| reflexivity].
    apply Ascii.eqb_eq in Hab. subst b. rewrite IH. reflexivity.
Qed.

Lemma line_after l : line_of l ++ after_line l = l.
Proof.
  induction l as [| c l IH]; simpl; [reflexivity |].
  destruct (Ascii.eqb c newline); simpl; [reflexivity |].
  rewrite IH. reflexivity.
Qed.

Lemma last_close_lt xs i : last_close xs = Some i -> i < length xs.
Proof.
  revert i. induction xs as [| c xs IH]; intros i; simpl; [discriminate |].
  destruct (last_close xs) as [j |].
  - intros [= <-]. specialize (IH j eq_refl). lia.
  - destruct (Ascii.eqb c close_brace); [| discriminate].
    intros [= <-]. lia.
Qed.

(** Where the last closing brace of the line is, a closing brace is. *)
Lemma last_close_line_head l i :
  last_close (line_of l) = Some i ->
  exists r, drop i l = close_brace :: r.
Proof.
  revert i. induction l as [| c l IH]; intros i; simpl; [discriminate |].
  destruct (Ascii.eqb c newline) eqn:Hnl; simpl; [discriminate |].
  destruct (last_close (line_of l)) as [j |].
  - intros [= <-]. simpl. apply IH. reflexivity.
  - destruct (Ascii.eqb c close_brace) eqn:Hc; [| discriminate].
    intros [= <-]. apply Ascii.eqb_eq in Hc. subst c. eexists. reflexivity.
Qed.

(** The greedy [.*] in front of a continuation that wants a closing
    brace: it runs to the end of the line and comes back to the last
    closing brace, if there is one. *)
Lemma many_dot_close (k : kont) pos prev caps rest :
  (forall st, (forall r, m_rest st <> close_brace :: r) -> k st = None) ->
  (forall st r, m_rest st = close_brace :: r -> is_Some (k st)) ->
  many CDot pos prev caps rest k
  = match last_close (line_of rest) with
    | Some i => k (advance i (MState pos prev rest caps))
    | None => None
    end.
Proof.
  intros Hfail Hok. revert pos prev.
  induction rest as [| c r IH]; intros pos prev.
  - simpl. apply Hfail. intros r. simpl. discriminate.
  - simpl many. simpl line_of.
    destruct (Ascii.eqb c newline) eqn:Hnl; simpl.
    + apply Hfail. intros r'. simpl. intros [= -> _]. discriminate.
    + rewrite IH.
      destruct (last_close (line_of r)) as [j |] eqn:Hl.
      * destruct (last_close_line_head r j Hl) as [r' Hr'].
        destruct (Hok (advance j (MState (S pos) (Some c) r caps)) r')
          as [st' Hst'].
        { rewrite advance_rest. exact Hr'. }
        rewrite advance_S, Hst'. reflexivity.
      * simpl. destruct (Ascii.eqb c close_brace) eqn:Hc; [reflexivity |].
        apply Hfail. intros r'. simpl. intros [= -> _].
        rewrite Ascii.eqb_refl in Hc. discriminate.
Qed.

(** A match of the pattern at a given place: the opening must stand
    there and a closing brace must follow on the same line; the group
    then runs to the last closing brace of the line. *)
Lemma match_at_brace p pos prev rest :
  match_at (brace_pattern p) pos prev rest
  = if is_prefix p rest then
      match last_close (line_of (drop (length p) rest)) with
      | Some i =>
          Some (RMatch pos (pos + length p + i + 1)
                       [(1, take i (drop (length p) rest))])
      | None => None
      end
    else None.
Proof.
  unfold match_at, brace_pattern.
  change (mt (Seq ?a ?b) ?st ?k) with (mt a st (fun st' => mt b st' k)).
  rewrite mt_lit_chars. simpl m_rest.
  destruct (is_prefix p rest) eqn:Hp; [| reflexivity].
  pose proof (is_prefix_length _ _ Hp) as Hlen.
  set (st0 := MState pos prev rest []).
  pose proof (advance_rest (length p) st0) as Hr.
  pose proof (advance_caps (length p) st0) as Hc.
  pose proof (advance_pos (length p) st0 Hlen) as Hq.
  destruct (advance (length p) st0) as [pos1 prev1 rest1 caps1].
  simpl in Hr, Hc, Hq. subst rest1 caps1 pos1.
  change (mt (Seq (Grp 1 (Many CDot)) ?b) ?st ?k)
    with (mt (Grp 1 (Many CDot)) st (fun st' => mt b st' k)).
  set (st1 := MState (pos + length p) prev1 (drop (length p) rest) []).
  change (mt (Grp 1 (Many CDot)) st1 ?k)
    with (many CDot (pos + length p) prev1 [] (drop (length p) rest)
               (fun st' => k (set_cap 1 st1 st'))).
  rewrite many_dot_close.
  - fold st1.
    destruct (last_close (line_of (drop (length p) rest))) as [i |] eqn:Hl;
      [| reflexivity].
    destruct (last_close_line_head _ _ Hl) as [r Hr].
    pose proof (last_close_lt _ _ Hl) as Hi.
    assert (Hi' : i <= length (drop (length p) rest)).
    { rewrite <- (line_after (drop (length p) rest)), length_app. lia. }
    change (mt (Seq ?a ?b) ?st ?k) with (mt a st (fun st' => mt b st' k)).
    rewrite mt_lit_chars.
    pose proof (advance_rest i st1) as Hr2.
    pose proof (advance_caps i st1) as Hc2.
    pose proof (advance_pos i st1 Hi') as Hq2.
    destruct (advance i st1) as [pos2 prev2 rest2 caps2].
    simpl in Hr2, Hc2, Hq2. subst rest2 caps2 pos2.
    unfold set_cap. simpl m_rest. rewrite Hr. simpl.
    replace (pos + length p + i - (pos + length p)) with i by lia.
    replace (S (pos + length p + i)) with (pos + length p + i + 1) by lia.
    reflexivity.
  - intros st Hst.
    change (mt (Seq ?a ?b) ?st ?k) with (mt a st (fun st' => mt b st' k)).
    rewrite mt_lit_chars. unfold set_cap. simpl m_rest.
    destruct (m_rest st) as [| c r]; [reflexivity |]. cbn [is_prefix].
    destruct (Ascii.eqb close_brace c) eqn:Hc'; [| reflexivity].
    apply Ascii.eqb_eq in Hc'. subst c. destruct (Hst r eq_refl).
  - intros st r Hst.
    change (mt (Seq ?a ?b) ?st ?k) with (mt a st (fun st' => mt b st' k)).
    rewrite mt_lit_chars. unfold set_cap. simpl m_rest. rewrite Hst.
    cbn [is_prefix]. rewrite Ascii.eqb_refl. simpl. eexists. reflexivity.
Qed.

Variable p : list ascii.
Hypothesis p_nonempty : p <> [].
Hypothesis p_no_newline :
  forallb (fun c => negb (Ascii.eqb c newline)) p = true.
Hypothesis p_no_close :
  forallb (fun c => negb (Ascii.eqb c close_brace)) p = true.

Lemma is_prefix_line_gen q l :
  forallb (fun c => negb (Ascii.eqb c newline)) q = true ->
  is_prefix q (line_of l) = is_prefix q l.
Proof.
  revert l. induction q as [| a q IH]; intros l Hq; [reflexivity |].
  simpl in Hq. apply andb_true_iff in Hq as [Ha Hq].
  destruct l as [| b l]; simpl; [reflexivity |].
  destruct (Ascii.eqb b newline) eqn:Hb; simpl.
  - apply Ascii.eqb_eq in Hb. subst b.
    apply negb_true_iff in Ha. rewrite Ha. reflexivity.
  - rewrite IH by exact Hq. reflexivity.
Qed.

Lemma is_prefix_line l : is_prefix p (line_of l) = is_prefix p l.
Proof. apply is_prefix_line_gen, p_no_newline. Qed.

Lemma line_of_drop n l :
  n <= length (line_of l) -> line_of (drop n l) = drop n (line_of l).
Proof.
  revert l. induction n as [| n IH]; intros l Hn; [reflexivity |].
  destruct l as [| c l]; simpl in *; [reflexivity |].
  destruct (Ascii.eqb c newline); simpl in *; [lia |].
  apply IH. lia.
Qed.

Lemma last_close_tail c xs :
  last_close (c :: xs) = None -> last_close xs = None.
Proof. simpl. destruct (last_close xs); [discriminate | reflexivity]. Qed.

Lemma last_close_drop n xs :
  last_close xs = None -> last_close (drop n xs) = None.
Proof.
  revert xs. induction n as [| n IH]; intros xs H; [exact H |].
  destruct xs as [| c xs]; [reflexivity |].
  simpl. apply IH. exact (last_close_tail _ _ H).
Qed.

Lemma last_close_after xs i :
  last_close xs = Some i -> last_close (drop (S i) xs) = None.
Proof.
  revert i. induction xs as [| c xs IH]; intros i; [discriminate |].
  simpl. destruct (last_close xs) as [j |] eqn:Hj.
  - intros [= <-]. apply IH. reflexivity.
  - destruct (Ascii.eqb c close_brace); [| discriminate].
    intros [= <-]. exact Hj.
Qed.

Lemma last_close_prefix_gen q l :
  forallb (fun c => negb (Ascii.eqb c close_brace)) q = true ->
  is_prefix q l = true ->
  last_close (drop (length q) l) = None -> last_close l = None.
Proof.
  revert l. induction q as [| a q IH]; intros l Hq Hp Hl; [exact Hl |].
  simpl in Hq. apply andb_true_iff in Hq as [Ha Hq].
  destruct l as [| b l]; [reflexivity |].
  simpl in Hp. apply andb_true_iff in Hp as [Hab Hp].
  apply Ascii.eqb_eq in Hab. subst b.
  simpl in Hl. simpl. rewrite (IH l Hq Hp Hl).
  apply negb_true_iff in Ha. rewrite Ha. reflexivity.
Qed.

Lemma marker_key_no_close line :
  last_close line = None -> marker_key p line = None.
Proof.
  induction line as [| c line IH]; intros H.
  - simpl. destruct (is_prefix p []); [| reflexivity].
    unfold key_after. rewrite (last_close_drop _ _ H). reflexivity.
  - simpl. destruct (is_prefix p (c :: line)).
    + unfold key_after. rewrite (last_close_drop _ _ H). reflexivity.
    + apply IH. exact (last_close_tail _ _ H).
Qed.

Lemma is_prefix_nil : is_prefix p [] = false.
Proof. destruct p; [destruct (p_nonempty eq_refl) | reflexivity]. Qed.

Lemma is_prefix_newline l : is_prefix p (newline :: l) = false.
Proof.
  rewrite <- is_prefix_line. simpl. apply is_prefix_nil.
Qed.

Lemma split_lines_eq l : split_lines l = line_of l :: tl (split_lines l).
Proof.
  induction l as [| c l IH]; simpl; [reflexivity |].
  destruct (Ascii.eqb c newline); [reflexivity |].
  rewrite IH. reflexivity.
Qed.

Lemma split_lines_cons c l :
  Ascii.eqb c newline = false ->
  split_lines (c :: l) = (c :: line_of l) :: tl (split_lines l).
Proof.
  intros H. simpl. rewrite H. rewrite (split_lines_eq l). reflexivity.
Qed.

Lemma line_keys_cons line ls :
  line_keys p (line :: ls)
  = match marker_key p line with
    | Some k => string_of_list_ascii k :: line_keys p ls
    | None => line_keys p ls
    end.
Proof.
  unfold line_keys. simpl. destruct (marker_key p line); reflexivity.
Qed.

Lemma finditer_from_0 r pos prev rest :
  finditer_from r 0 pos prev rest
  = match match_at r pos prev rest with
    | Some m =>
        m :: match rest with
             | [] => []
             | c :: rest' =>
                 finditer_from r (pred (r_end m - r_start m))
                               (S pos) (Some c) rest'
             end
    | None =>
        match rest with
        | [] => []
        | c :: rest' => finditer_from r 0 (S pos) (Some c) rest'
        end
    end.
Proof. destruct rest; reflexivity. Qed.

Lemma head_not_newline c l :
  is_prefix p (c :: l) = true -> Ascii.eqb c newline = false.
Proof.
  intros H. destruct (Ascii.eqb c newline) eqn:Hc; [| reflexivity].
  apply Ascii.eqb_eq in Hc. subst c.
  rewrite is_prefix_newline in H. discriminate.
Qed.

(** The key of a line that opens with [p] is what the matcher
    captures there. *)
Lemma key_after_line l i :
  is_prefix p l = true ->
  last_close (line_of (drop (length p) l)) = Some i ->
  marker_key p (line_of l) = Some (take i (drop (length p) l)).
Proof.
  intros Hp Hl.
  assert (Hpl : is_prefix p (line_of l) = true)
    by (rewrite is_prefix_line; exact Hp).
  pose proof (is_prefix_length _ _ Hpl) as Hlen.
  destruct (line_of l) as [| c line] eqn:Hline.
  - rewrite is_prefix_nil in Hpl. discriminate.
  - cbn [marker_key]. rewrite Hpl. unfold key_after.
    rewrite <- Hline, <- line_of_drop by (rewrite Hline; exact Hlen).
    rewrite Hl. simpl. f_equal.
    pose proof (last_close_lt _ _ Hl) as Hi.
    rewrite <- (line_after (drop (length p) l)) at 2.
    rewrite take_app_le by lia. reflexivity.
Qed.

(** [finditer] goes line by line: each line gives its key, if it has
    one, and nothing else.  After a match, which ends at the last
    closing brace of its line, the rest of the line gives nothing. *)
Lemma scan_lines text :
  (forall pos prev,
     keys (finditer_from (brace_pattern p) 0 pos prev text)
     = line_keys p (split_lines text)) /\
  (forall skip pos prev,
     skip <= length (line_of text) ->
     last_close (drop skip (line_of text)) = None ->
     keys (finditer_from (brace_pattern p) skip pos prev text)
     = line_keys p (tl (split_lines text))).
Proof.
  induction text as [| c l [IHa IHb]].
  - assert (Ha : forall pos prev,
              keys (finditer_from (brace_pattern p) 0 pos prev [])
              = line_keys p (split_lines [])).
    { intros pos prev. rewrite finditer_from_0, match_at_brace.
      rewrite is_prefix_nil. simpl split_lines. rewrite line_keys_cons.
      simpl marker_key. rewrite is_prefix_nil. reflexivity. }
    split; [exact Ha |].
    intros skip pos prev Hs _. simpl in Hs.
    assert (skip = 0) by lia. subst skip.
    rewrite finditer_from_0, match_at_brace, is_prefix_nil. reflexivity.
  - assert (Ha : forall pos prev,
              keys (finditer_from (brace_pattern p) 0 pos prev (c :: l))
              = line_keys p (split_lines (c :: l))).
    { intros pos prev. rewrite finditer_from_0, match_at_brace.
      destruct (is_prefix p (c :: l)) eqn:Hp.
      - pose proof (head_not_newline _ _ Hp) as Hc.
        rewrite (split_lines_cons _ _ Hc), line_keys_cons.
        assert (Hline : line_of (c :: l) = c :: line_of l)
          by (simpl; rewrite Hc; reflexivity).
        rewrite <- Hline.
        destruct (last_close (line_of (drop (length p) (c :: l))))
          as [i |] eqn:Hl.
        + rewrite (key_after_line _ _ Hp Hl).
          cbn [keys map r_end r_start]. unfold group_str at 1. simpl group.
          f_equal.
          replace (pred (pos + length p + i + 1 - pos))
            with (length p + i) by lia.
          assert (Hpl : is_prefix p (line_of (c :: l)) = true)
            by (rewrite is_prefix_line; exact Hp).
          pose proof (is_prefix_length _ _ Hpl) as Hlen.
          pose proof (last_close_lt _ _ Hl) as Hi.
          rewrite line_of_drop, length_drop in Hi by exact Hlen.
          rewrite Hline in Hlen, Hi. simpl in Hlen, Hi.
          apply IHb; [lia |].
          rewrite line_of_drop in Hl by (rewrite Hline; simpl; lia).
          apply last_close_after in Hl.
          rewrite drop_drop, Hline in Hl.
          replace (length p + S i) with (S (length p + i)) in Hl by lia.
          exact Hl.
        + assert (Hnone : last_close (line_of (c :: l)) = None).
          { apply (last_close_prefix_gen p); [exact p_no_close | |].
            - rewrite is_prefix_line. exact Hp.
            - rewrite <- line_of_drop; [exact Hl |].
              apply is_prefix_length. rewrite is_prefix_line. exact Hp. }
          rewrite (marker_key_no_close _ Hnone).
          rewrite IHa, (split_lines_eq l), line_keys_cons.
          rewrite Hline in Hnone. apply last_close_tail in Hnone.
          rewrite (marker_key_no_close _ Hnone). reflexivity.
      - rewrite IHa.
        destruct (Ascii.eqb c newline) eqn:Hc.
        + simpl split_lines. rewrite Hc, line_keys_cons.
          simpl marker_key. rewrite is_prefix_nil. reflexivity.
        + rewrite (split_lines_cons _ _ Hc), line_keys_cons.
          rewrite (split_lines_eq l), line_keys_cons.
          cbn [marker_key].
          replace (is_prefix p (c :: line_of l)) with false; [reflexivity |].
          rewrite <- Hp, <- (is_prefix_line (c :: l)). simpl. rewrite Hc.
          reflexivity. }
    split; [exact Ha |].
    intros skip pos prev Hs Hl.
    destruct skip as [| n].
    + rewrite Ha. change (last_close (line_of (c :: l)) = None) in Hl.
      rewrite (split_lines_eq (c :: l)), line_keys_cons.
      rewrite (marker_key_no_close _ Hl). reflexivity.
    + simpl in Hs, Hl. destruct (Ascii.eqb c newline) eqn:Hc;
        simpl in Hs; [lia |].
      cbn [finditer_from]. rewrite (split_lines_cons _ _ Hc).
      simpl in Hl. simpl tl. apply IHb; [lia | exact Hl].
Qed.

End Braces.

(** ** Citation counting *)

Section Citations.

Lemma CITE_PATTERN_shape : CITE_PATTERN = brace_pattern cite_open.
Proof. reflexivity. Qed.

Lemma count_step_lookup (counter : gmap string nat) name k :
  <[name := S (default 0 (counter !! name))]> counter !! k
  = if String.eqb k name then Some (S (default 0 (counter !! k)))
    else counter !! k.
Proof.
  destruct (String.eqb k name) eqn:Hk.
  - apply String.eqb_eq in Hk. subst. apply lookup_insert_eq.
  - apply String.eqb_neq in Hk. apply lookup_insert_ne. congruence.
Qed.

(** The loop of [_count_citations] adds, for each key, the number of
    matches that carry it. *)
Lemma count_loop_lookup ms (counter : gmap string nat) k :
  fold_left
    (fun counter m =>
       let name := group_str m 1 in
       <[name := S (default 0 (counter !! name))]> counter)
    ms counter !! k
  = match counter !! k with
    | Some v => Some (v + tally k (keys ms))
    | None => positive (tally k (keys ms))
    end.
Proof.
  revert counter. induction ms as [| m ms IH]; intros counter.
  - simpl. unfold tally. simpl. destruct (counter !! k) as [v |].
    + f_equal. lia.
    + reflexivity.
  - cbn [fold_left]. rewrite IH. cbv zeta. rewrite count_step_lookup.
    unfold tally, keys. cbn [map List.filter].
    destruct (String.eqb k (group_str m 1)); cbn [length].
    + destruct (counter !! k) as [v |]; simpl; unfold positive.
      * f_equal. lia.
      * simpl. reflexivity.
    + reflexivity.
Qed.

Lemma count_matches_lookup ms k :
  count_matches ms !! k = positive (tally k (keys ms)).
Proof.
  unfold count_matches. rewrite count_loop_lookup, lookup_empty.
  reflexivity.
Qed.

Lemma tally_line_keys p k ls :
  tally k (line_keys p ls)
  = length (List.filter
              (fun line => bool_decide (marker_key p line
                                        = Some (list_ascii_of_string k)))
              ls).
Proof.
  unfold tally, line_keys.
  induction ls as [| line ls IH]; [reflexivity |].
  cbn [omap List.filter]. unfold omap in IH. cbn [list_omap].
  destruct (marker_key p line) as [y |] eqn:Hy.
  - cbn [map List.filter].
    destruct (String.eqb k (string_of_list_ascii y)) eqn:Hk.
    + apply String.eqb_eq in Hk. subst k.
      rewrite bool_decide_eq_true_2
        by (rewrite list_ascii_of_string_of_list_ascii; reflexivity).
      cbn [length]. rewrite IH. reflexivity.
    + apply String.eqb_neq in Hk.
      rewrite bool_decide_eq_false_2.
      * exact IH.
      * intros [= ->]. apply Hk.
        rewrite string_of_list_ascii_of_string. reflexivity.
  - rewrite bool_decide_eq_false_2 by discriminate. exact IH.
Qed.

Lemma cite_open_ok :
  cite_open <> []
  /\ forallb (fun c => negb (Ascii.eqb c newline)) cite_open = true
  /\ forallb (fun c => negb (Ascii.eqb c close_brace)) cite_open = true.
Proof. repeat split. discriminate. Qed.

Lemma list_ascii_app a b :
  list_ascii_of_string (a +:+ b)
  = list_ascii_of_string a ++ list_ascii_of_string b.
Proof. induction a as [| c a IH]; simpl; [reflexivity | rewrite IH; reflexivity]. Qed.

Lemma split_lines_line l rest :
  no_newline l = true ->
  split_lines (l ++ newline :: rest) = l :: split_lines rest.
Proof.
  induction l as [| c l IH]; intros H.
  - simpl. reflexivity.
  - simpl in H. apply andb_true_iff in H as [Hc H].
    apply negb_true_iff in Hc. cbn [app split_lines]. rewrite Hc, (IH H).
    reflexivity.
Qed.

Lemma last_close_end l :
  no_close l = true -> last_close (l ++ [close_brace]) = Some (length l).
Proof.
  induction l as [| c l IH]; intros H; [reflexivity |].
  simpl in H. apply andb_true_iff in H as [_ H].
  cbn [app last_close]. rewrite (IH H). reflexivity.
Qed.

Lemma is_prefix_app q l : is_prefix q (q ++ l) = true.
Proof.
  induction q as [| c q IH]; [reflexivity |].
  simpl. rewrite Ascii.eqb_refl. exact IH.
Qed.

(** A marker line gives its key. *)
Lemma marker_key_cite k :
  no_close (list_ascii_of_string k) = true ->
  marker_key cite_open (list_ascii_of_string (cite_marker k))
  = Some (list_ascii_of_string k).
Proof.
  intros H. unfold cite_marker. rewrite !list_ascii_app.
  change (list_ascii_of_string "\citation{") with cite_open.
  change (list_ascii_of_string "}") with [close_brace].
  set (key := list_ascii_of_string k) in *.
  assert (Hp : is_prefix cite_open (cite_open ++ key ++ [close_brace]) = true)
    by apply is_prefix_app.
  change (marker_key cite_open (cite_open ++ key ++ [close_brace]))
    with (if is_prefix cite_open (cite_open ++ key ++ [close_brace])
          then key_after cite_open (cite_open ++ key ++ [close_brace])
          else marker_key cite_open
                 (tl (cite_open ++ key ++ [close_brace]))).
  rewrite Hp. unfold key_after.
  rewrite drop_app_length, (last_close_end _ H). simpl.
  rewrite take_app_length. reflexivity.
Qed.

(** A line without [\citation{] gives none. *)
Lemma marker_key_other l :
  occurrences cite_open l = 0 -> marker_key cite_open l = None.
Proof.
  induction l as [| c l IH]; intros H.
  - reflexivity.
  - cbn [occurrences] in H. cbn [marker_key].
    destruct (is_prefix cite_open (c :: l)); [discriminate |].
    apply IH. exact H.
Qed.

Lemma no_newline_app a b :
  no_newline (a ++ b) = no_newline a && no_newline b.
Proof. apply forallb_app. Qed.

Lemma render_no_newline l :
  well_formed l = true -> no_newline (list_ascii_of_string (render l)) = true.
Proof.
  destruct l as [k | t]; simpl; intros H; apply andb_true_iff in H as [H1 H2].
  - unfold cite_marker. rewrite !list_ascii_app, !no_newline_app, H2.
    reflexivity.
  - exact H1.
Qed.

Lemma render_key l :
  well_formed l = true ->
  marker_key cite_open (list_ascii_of_string (render l))
  = match l with
    | Cite k => Some (list_ascii_of_string k)
    | Other _ => None
    end.
Proof.
  destruct l as [k | t]; simpl; intros H; apply andb_true_iff in H as [H1 H2].
  - apply marker_key_cite, H1.
  - apply marker_key_other. apply Nat.eqb_eq. exact H2.
Qed.

Lemma list_ascii_inj a b :
  list_ascii_of_string a = list_ascii_of_string b -> a = b.
Proof.
  intros H. rewrite <- (string_of_list_ascii_of_string a), H.
  apply string_of_list_ascii_of_string.
Qed.

(** In a file written marker by marker, the lines that give [k] are the
    markers of [k]. *)
Lemma cite_lines_cited k ls :
  forallb well_formed ls = true ->
  cite_lines k (unlines (map render ls)) = tally k (cited ls).
Proof.
  unfold cite_lines, tally.
  induction ls as [| l ls IH]; intros H; [reflexivity |].
  simpl in H. apply andb_true_iff in H as [Hl H].
  cbn [map unlines fold_right]. rewrite !list_ascii_app.
  change (list_ascii_of_string nl) with [newline].
  cbn [app]. rewrite (split_lines_line _ _ (render_no_newline l Hl)).
  cbn [List.filter]. rewrite (render_key l Hl).
  fold (unlines (map render ls)).
  destruct l as [k' | t].
  - cbn [cited omap list_omap List.filter].
    destruct (String.eqb k k') eqn:Hk.
    + apply String.eqb_eq in Hk. subst k'.
      rewrite bool_decide_eq_true_2 by reflexivity.
      cbn [length]. f_equal. exact (IH H).
    + apply String.eqb_neq in Hk.
      rewrite bool_decide_eq_false_2.
      * exact (IH H).
      * intros [= Heq]. apply Hk. symmetry. exact (list_ascii_inj _ _ Heq).
  - rewrite bool_decide_eq_false_2 by discriminate. exact (IH H).
Qed.

(** C2, amended.  The counter of [_count_citations] maps a key to the
    number of lines of the text in which it stands between the first
    [\citation{] of the line and the last closing brace of the line
    (one match per line, the group being greedy); a key that no line
    gives is absent.  For a file in which every marker stands on a line
    of its own this is the number of markers of the key. *)
Theorem count_citations_by_line (content k : string) :
  count_citations_text content !! k = positive (cite_lines k content)
  /\ (forall ls,
        forallb well_formed ls = true ->
        content = unlines (map render ls) ->
        count_citations_text content !! k = positive (tally k (cited ls))).
Proof.
  assert (H : count_citations_text content !! k
              = positive (cite_lines k content)).
  { unfold count_citations_text. rewrite count_matches_lookup.
    unfold finditer. rewrite CITE_PATTERN_shape.
    destruct cite_open_ok as (H1 & H2 & H3).
    destruct (scan_lines cite_open H1 H2 H3 (list_ascii_of_string content))
      as [Ha _].
    rewrite Ha, tally_line_keys. reflexivity. }
  split; [exact H |].
  intros ls Hwf ->. rewrite H, (cite_lines_cited k ls Hwf). reflexivity.
Qed.

(** C2 on a file of four lines, three of them markers. *)
Lemma count_citations_by_line_witness :
  forallb well_formed [Other "\relax "; Cite "a"; Cite "b"; Cite "a"] = true
  /\ count_citations_text
       (unlines (map render [Other "\relax "; Cite "a"; Cite "b"; Cite "a"]))
     !! "a"
     = Some 2.
Proof.
  split; [reflexivity |].
  destruct (count_citations_by_line
              (unlines (map render [Other "\relax "; Cite "a"; Cite "b";
                                    Cite "a"])) "a") as [_ H].
  apply (H [Other "\relax "; Cite "a"; Cite "b"; Cite "a"]); reflexivity.
Defined.

(** C2 as stated fails: two markers on one line are one match, whose
    key is neither of theirs. *)
Lemma two_markers_on_a_line :
  ~ counts_markers "\citation{a}\citation{a}" "a".
Proof. unfold counts_markers. vm_compute. discriminate. Qed.

End Citations.

(** ** The glossary registry *)

Section Registry.

Lemma for_each_update_self {A} (l : list A)
    (f : A -> LatexMaker -> LatexMaker) s :
  for_each l (fun x => update_self (f x)) s
  = Ok tt (State (fold_left (fun o x => f x o) l (st_self s))
                 (st_world s) (st_trace s)).
Proof.
  revert s. induction l as [| x l IH]; intros s.
  - destruct s. reflexivity.
  - simpl. unfold bind. simpl. rewrite IH. reflexivity.
Qed.

Lemma dict_get_set {V} k k' (v : V) d :
  dict_get k (dict_set k' v d)
  = if String.eqb k' k then Some v else dict_get k d.
Proof.
  induction d as [| [k0 v0] d IH]; simpl.
  - destruct (String.eqb k' k); reflexivity.
  - destruct (String.eqb k0 k') eqn:H0; simpl.
    + apply String.eqb_eq in H0. subst k0.
      destruct (String.eqb k' k); reflexivity.
    + destruct (String.eqb k0 k) eqn:H1.
      * apply String.eqb_eq in H1. subst k0.
        rewrite String.eqb_sym, H0. reflexivity.
      * exact IH.
Qed.

Lemma glossaries_fold ms o :
  glossaries
    (fold_left
       (fun o m =>
          set_glossaries
            (dict_set (group_str m 1) (group_str m 2, group_str m 3)
                      (glossaries o)) o)
       ms o)
  = fold_left (fun g d => dict_set d.1 d.2 g)
              (map (fun m => (group_str m 1,
                              (group_str m 2, group_str m 3))) ms)
              (glossaries o).
Proof.
  revert o. induction ms as [| m ms IH]; intros o; [reflexivity |].
  simpl. rewrite IH. reflexivity.
Qed.

Lemma fold_glossaries_only ms o :
  let step := fun o m =>
    set_glossaries
      (dict_set (group_str m 1) (group_str m 2, group_str m 3)
                (glossaries o)) o in
  fold_left step ms o
  = set_glossaries (glossaries (fold_left step ms o)) o.
Proof.
  cbv zeta. revert o. induction ms as [| m ms IH]; intros o.
  - destruct o. reflexivity.
  - cbn [fold_left]. rewrite IH at 1. reflexivity.
Qed.

Lemma dict_get_fold name decls g :
  dict_get name (fold_left (fun g d => dict_set d.1 d.2 g) decls g)
  = match last_decl name decls with
    | Some v => Some v
    | None => dict_get name g
    end.
Proof.
  revert g. induction decls as [| [n v] decls IH]; intros g; [reflexivity |].
  simpl. rewrite IH.
  destruct (last_decl name decls); [reflexivity |].
  rewrite dict_get_set. simpl. destruct (String.eqb n name); reflexivity.
Qed.

(** What [read_glossaries] does when the auxiliary file can be read. *)
Lemma read_glossaries_ok (s : state) (bytes : string) (t : Z) :
  w_files (st_world s) !! aux_name s = Some (File bytes t) ->
  exists g,
    read_glossaries s
    = Ok tt (State (set_glossaries g (st_self s)) (st_world s) (st_trace s))
    /\ forall name,
         dict_get name g
         = match last_decl name (declared (decode bytes)) with
           | Some v => Some v
           | None => dict_get name (glossaries (st_self s))
           end.
Proof.
  intros Haux. unfold aux_name in Haux.
  unfold read_glossaries.
  rewrite bind_get_self, bind_eq, (read_ok _ _ _ _ Haux).
  rewrite for_each_update_self.
  eexists. split.
  - rewrite fold_glossaries_only. reflexivity.
  - intros name. rewrite glossaries_fold, dict_get_fold. reflexivity.
Qed.


End Registry.

(** ** The aggregate citation counter *)

Section Aggregate.

Lemma count_citations_eq f s :
  _count_citations f s
  = match file_counter (st_world s) f with
    | Some c => Ok c s
    | None => Raise (OSError f) s
    end.
Proof.
  unfold _count_citations, file_counter, read.
  rewrite bind_eq, bind_get_world.
  destruct (w_files (st_world s) !! f) as [[bytes t |] |]; reflexivity.
Qed.

(** The loop over the referenced files: a file that can be read adds its
    counter, another one is passed over. *)
Lemma included_loop ms (m0 : gmap string (gmap string nat)) s :
  for_fold ms m0
    (fun cite_counter m =>
       let filename := group_str m 1 in
       except_OSError
         (counter <- _count_citations filename ;;
          ret (<[filename := counter]> cite_counter))
         (fun _ => ret cite_counter)) s
  = Ok (fold_left
          (fun acc f =>
             match file_counter (st_world s) f with
             | Some c => <[f := c]> acc
             | None => acc
             end)
          (keys ms) m0) s.
Proof.
  revert m0. induction ms as [| m ms IH]; intros m0; [reflexivity |].
  cbn [for_fold]. rewrite bind_eq. cbv zeta.
  unfold except_OSError at 1. rewrite bind_eq, count_citations_eq.
  cbn [keys map fold_left].
  destruct (file_counter (st_world s) (group_str m 1)); simpl; apply IH.
Qed.

Lemma included_fold_lookup w fs (m0 : gmap string (gmap string nat)) f :
  fold_left
    (fun acc f =>
       match file_counter w f with
       | Some c => <[f := c]> acc
       | None => acc
       end) fs m0 !! f
  = if bool_decide (f ∈ fs)
    then match file_counter w f with
         | Some c => Some c
         | None => m0 !! f
         end
    else m0 !! f.
Proof.
  revert m0. induction fs as [| g fs IH]; intros m0.
  - rewrite bool_decide_eq_false_2 by apply not_elem_of_nil. reflexivity.
  - cbn [fold_left]. rewrite IH.
    destruct (decide (f = g)) as [-> | Hne].
    + rewrite (bool_decide_eq_true_2 (g ∈ g :: fs))
        by (apply elem_of_cons; auto).
      destruct (file_counter w g) as [c |] eqn:Hc.
      * destruct (bool_decide (g ∈ fs)); [reflexivity |].
        apply lookup_insert_eq.
      * destruct (bool_decide (g ∈ fs)); reflexivity.
    + assert (Hm : (match file_counter w g with
                    | Some c => <[g := c]> m0
                    | None => m0
                    end) !! f = m0 !! f).
      { destruct (file_counter w g); [| reflexivity].
        apply lookup_insert_ne. congruence. }
      rewrite Hm.
      destruct (decide (f ∈ fs)) as [Hin | Hnin].
      * rewrite !bool_decide_eq_true_2; [reflexivity | | exact Hin].
        apply elem_of_cons. auto.
      * rewrite !bool_decide_eq_false_2; [reflexivity | | exact Hnin].
        rewrite elem_of_cons. intros [? | ?]; contradiction.
Qed.

(** What [generate_citation_counter] returns when the main auxiliary
    file can be read. *)
Lemma generate_citation_counter_ok
    (s : state) (bytes : string) (t : Z) :
  w_files (st_world s) !! aux_name s = Some (File bytes t) ->
  exists m,
    generate_citation_counter s = Ok m s
    /\ forall f,
         m !! f
         = if bool_decide (f = aux_name s \/ f ∈ included (decode bytes))
           then file_counter (st_world s) f
           else None.
Proof.
  intros Haux. unfold aux_name in *.
  unfold generate_citation_counter.
  rewrite bind_get_self, bind_eq, (read_ok _ _ _ _ Haux).
  rewrite bind_eq, count_citations_eq.
  assert (Hfc : file_counter (st_world s)
                  (project_name (st_self s) +:+ ".aux")
                = Some (count_citations_text (decode bytes))).
  { unfold file_counter. rewrite Haux. reflexivity. }
  rewrite Hfc, included_loop.
  eexists. split; [reflexivity |].
  intros f. rewrite included_fold_lookup. fold (included (decode bytes)).
  destruct (decide (f = project_name (st_self s) +:+ ".aux")) as [-> | Hne].
  - rewrite lookup_insert_eq, Hfc.
    rewrite (bool_decide_eq_true_2 (_ \/ _)) by auto.
    destruct (bool_decide _); reflexivity.
  - rewrite lookup_insert_ne, lookup_empty by congruence.
    destruct (decide (f ∈ included (decode bytes))) as [Hin | Hnin].
    + rewrite !bool_decide_eq_true_2 by auto.
      destruct (file_counter (st_world s) f); reflexivity.
    + rewrite !bool_decide_eq_false_2; [reflexivity | | exact Hnin].
      intros [? | ?]; contradiction.
Qed.

End Aggregate.

(** ** References to other auxiliary files *)

Section Closings.

Lemma is_prefix_split q1 q2 l :
  is_prefix (q1 ++ q2) l
  = is_prefix q1 l && is_prefix q2 (drop (length q1) l).
Proof.
  revert l. induction q1 as [| a q1 IH]; intros l; [reflexivity |].
  destruct l as [| b l]; [reflexivity |].
  cbn [app is_prefix length drop]. rewrite IH, andb_assoc. reflexivity.
Qed.

Lemma last_at_lt q xs i : last_at q xs = Some i -> i < length xs.
Proof.
  revert i. induction xs as [| c xs IH]; intros i; simpl; [discriminate |].
  destruct (last_at q xs) as [j |].
  - intros [= <-]. specialize (IH j eq_refl). lia.
  - destruct (is_prefix q (c :: xs)); [| discriminate].
    intros [= <-]. lia.
Qed.

Lemma last_at_prefix q xs i :
  last_at q xs = Some i -> is_prefix q (drop i xs) = true.
Proof.
  revert i. induction xs as [| c xs IH]; intros i; simpl; [discriminate |].
  destruct (last_at q xs) as [j |].
  - intros [= <-]. simpl. apply IH. reflexivity.
  - destruct (is_prefix q (c :: xs)) eqn:Hq; [| discriminate].
    intros [= <-]. exact Hq.
Qed.

Lemma last_at_tail q c xs : last_at q (c :: xs) = None -> last_at q xs = None.
Proof. simpl. destruct (last_at q xs); [discriminate | reflexivity]. Qed.

Lemma last_at_drop q n xs : last_at q xs = None -> last_at q (drop n xs) = None.
Proof.
  revert xs. induction n as [| n IH]; intros xs H; [exact H |].
  destruct xs as [| c xs]; [reflexivity |].
  simpl. apply IH. exact (last_at_tail _ _ _ H).
Qed.

Lemma last_at_after q xs i :
  last_at q xs = Some i -> last_at q (drop (S i) xs) = None.
Proof.
  revert i. induction xs as [| c xs IH]; intros i; [discriminate |].
  simpl. destruct (last_at q xs) as [j |] eqn:Hj.
  - intros [= <-]. apply IH. reflexivity.
  - destruct (is_prefix q (c :: xs)); [| discriminate].
    intros [= <-]. exact Hj.
Qed.

Variables p a c : list ascii.
Hypothesis p_nonempty : p <> [].
Hypothesis c_nonempty : c <> [].
Hypothesis p_no_newline : no_newline p = true.
Hypothesis q_no_newline : no_newline (a ++ c) = true.

Lemma q_nil : is_prefix (a ++ c) [] = false.
Proof.
  destruct a as [| x a']; [| reflexivity].
  destruct c as [| y c']; [destruct (c_nonempty eq_refl) | reflexivity].
Qed.

Lemma q_length : 1 <= length (a ++ c).
Proof.
  rewrite length_app. destruct c as [| y c'];
    [destruct (c_nonempty eq_refl) | simpl; lia].
Qed.

Lemma q_line l : is_prefix (a ++ c) (line_of l) = is_prefix (a ++ c) l.
Proof. apply is_prefix_line_gen. exact q_no_newline. Qed.

Lemma q_newline l : is_prefix (a ++ c) (newline :: l) = false.
Proof. rewrite <- q_line. simpl. apply q_nil. Qed.

(** Where the last [a ++ c] of the line is, [a ++ c] is. *)
Lemma last_at_line_prefix l i :
  last_at (a ++ c) (line_of l) = Some i -> is_prefix (a ++ c) (drop i l) = true.
Proof.
  intros H. pose proof (last_at_lt _ _ _ H) as Hi.
  apply last_at_prefix in H.
  rewrite <- line_of_drop in H by lia. rewrite q_line in H. exact H.
Qed.

(** The greedy [.*] in front of a continuation that wants [a ++ c]: it runs
    to the end of the line and comes back to the last [a ++ c] of the line,
    if there is one. *)
Lemma many_dot_last (k : kont) pos prev caps rest :
  (forall st, is_prefix (a ++ c) (m_rest st) = false -> k st = None) ->
  (forall st, is_prefix (a ++ c) (m_rest st) = true -> is_Some (k st)) ->
  many CDot pos prev caps rest k
  = match last_at (a ++ c) (line_of rest) with
    | Some i => k (advance i (MState pos prev rest caps))
    | None => None
    end.
Proof.
  intros Hfail Hok. revert pos prev.
  induction rest as [| x r IH]; intros pos prev.
  - simpl. apply Hfail. apply q_nil.
  - simpl many. simpl line_of.
    destruct (Ascii.eqb x newline) eqn:Hnl; simpl.
    + apply Hfail. simpl. apply Ascii.eqb_eq in Hnl. subst x.
      apply q_newline.
    + rewrite IH.
      destruct (last_at (a ++ c) (line_of r)) as [j |] eqn:Hl.
      * destruct (Hok (advance j (MState (S pos) (Some x) r caps)))
          as [st' Hst'].
        { rewrite advance_rest. exact (last_at_line_prefix _ _ Hl). }
        rewrite advance_S, Hst'. reflexivity.
      * simpl.
        assert (Hx : is_prefix (a ++ c) (x :: line_of r) = is_prefix (a ++ c) (x :: r)).
        { rewrite <- (q_line (x :: r)). simpl. rewrite Hnl. reflexivity. }
        rewrite Hx.
        destruct (is_prefix (a ++ c) (x :: r)) eqn:Hq; [reflexivity |].
        apply Hfail. exact Hq.
Qed.

(** A match of the pattern at a given place: the opening must stand
    there and [a ++ c] must follow on the same line; the group then runs to
    the end of the [a] of the last [a ++ c] of the line. *)
Lemma match_at_closed pos prev rest :
  match_at (closed_pattern p a c) pos prev rest
  = if is_prefix p rest then
      match last_at (a ++ c) (line_of (drop (length p) rest)) with
      | Some i =>
          Some (RMatch pos (pos + length p + i + length (a ++ c))
                       [(1, take (i + length a) (drop (length p) rest))])
      | None => None
      end
    else None.
Proof.
  unfold match_at, closed_pattern.
  change (mt (Seq ?x ?y) ?st ?k) with (mt x st (fun st' => mt y st' k)).
  rewrite mt_lit_chars. simpl m_rest.
  destruct (is_prefix p rest) eqn:Hp; [| reflexivity].
  pose proof (is_prefix_length _ _ Hp) as Hlen.
  set (st0 := MState pos prev rest []).
  pose proof (advance_rest (length p) st0) as Hr.
  pose proof (advance_caps (length p) st0) as Hc.
  pose proof (advance_pos (length p) st0 Hlen) as Hq.
  destruct (advance (length p) st0) as [pos1 prev1 rest1 caps1].
  simpl in Hr, Hc, Hq. subst rest1 caps1 pos1.
  set (body := drop (length p) rest).
  set (st1 := MState (pos + length p) prev1 body []).
  set (K := fun st4 : mstate => mt (Seq (lit_chars c) Eps) st4 Some).
  change (mt (Seq (Grp 1 (Seq (Many CDot) (Seq (lit_chars a) Eps)))
                  (Seq (lit_chars c) Eps)) st1 Some)
    with (many CDot (pos + length p) prev1 [] body
               (fun st' => mt (lit_chars a) st'
                             (fun st3 => K (set_cap 1 st1 st3)))).
  assert (Hk : forall st',
            (fun st' => mt (lit_chars a) st'
                          (fun st3 => K (set_cap 1 st1 st3))) st'
            = if is_prefix (a ++ c) (m_rest st')
              then Some (advance (length c)
                           (set_cap 1 st1 (advance (length a) st')))
              else None).
  { intros st'. cbv beta. rewrite mt_lit_chars.
    rewrite is_prefix_split.
    destruct (is_prefix a (m_rest st')) eqn:Ha; [| reflexivity].
    unfold K.
    change (mt (Seq ?x ?y) ?st ?k) with (mt x st (fun st' => mt y st' k)).
    rewrite mt_lit_chars. unfold set_cap at 1. cbn [m_rest].
    rewrite advance_rest. cbn [andb].
    destruct (is_prefix c (drop (length a) (m_rest st'))); reflexivity. }
  rewrite many_dot_last.
  - destruct (last_at (a ++ c) (line_of body)) as [i |] eqn:Hl; [| reflexivity].
    fold st1. rewrite Hk. rewrite advance_rest.
    change (m_rest st1) with body.
    rewrite (last_at_line_prefix _ _ Hl).
    pose proof (last_at_lt _ _ _ Hl) as Hi.
    pose proof (last_at_line_prefix _ _ Hl) as Hpre.
    apply is_prefix_length in Hpre. rewrite length_drop in Hpre.
    rewrite length_app in Hpre.
    assert (Hi' : i <= length body)
      by (rewrite <- (line_after body), length_app; lia).
    pose proof (advance_rest i st1) as Hr2.
    pose proof (advance_caps i st1) as Hc2.
    pose proof (advance_pos i st1 Hi') as Hq2.
    set (st2 := advance i st1) in *.
    change (m_rest st1) with body in Hr2.
    change (m_caps st1) with (@nil (nat * list ascii)) in Hc2.
    change (m_pos st1) with (pos + length p) in Hq2.
    assert (Ha' : length a <= length (m_rest st2))
      by (rewrite Hr2, length_drop; lia).
    pose proof (advance_rest (length a) st2) as Hr3.
    pose proof (advance_caps (length a) st2) as Hc3.
    pose proof (advance_pos (length a) st2 Ha') as Hq3.
    set (st3 := advance (length a) st2) in *.
    set (st4 := set_cap 1 st1 st3).
    assert (Hr4 : m_rest st4 = m_rest st3) by reflexivity.
    assert (Hp4 : m_pos st4 = m_pos st3) by reflexivity.
    assert (Hc4 : m_caps st4
                  = [(1, take (m_pos st3 - (pos + length p)) body)])
      by (unfold st4, set_cap; cbn [m_caps m_pos m_rest st1];
          rewrite Hc3, Hc2; reflexivity).
    assert (Hc' : length c <= length (m_rest st4))
      by (rewrite Hr4, Hr3, Hr2, !length_drop; lia).
    pose proof (advance_caps (length c) st4) as Hc5.
    pose proof (advance_pos (length c) st4 Hc') as Hq5.
    destruct (advance (length c) st4) as [pos5 prev5 rest5 caps5].
    cbn [m_caps m_pos] in Hc5, Hq5. subst caps5 pos5.
    cbn [m_pos m_caps]. rewrite Hc4, Hp4, Hq3, Hq2.
    rewrite length_app.
    f_equal. f_equal; [lia |]. f_equal. f_equal. f_equal. lia.
  - intros st Hst. rewrite Hk, Hst. reflexivity.
  - intros st Hst. rewrite Hk, Hst. eauto.
Qed.

Lemma p_nil : is_prefix p [] = false.
Proof. destruct p; [destruct (p_nonempty eq_refl) | reflexivity]. Qed.

Lemma p_line l : is_prefix p (line_of l) = is_prefix p l.
Proof. apply is_prefix_line_gen. exact p_no_newline. Qed.

Lemma p_newline l : is_prefix p (newline :: l) = false.
Proof. rewrite <- p_line. simpl. apply p_nil. Qed.

Lemma p_head x l : is_prefix p (x :: l) = true -> Ascii.eqb x newline = false.
Proof.
  intros H. destruct (Ascii.eqb x newline) eqn:Hx; [| reflexivity].
  apply Ascii.eqb_eq in Hx. subst x. rewrite p_newline in H. discriminate.
Qed.

(** A line gives nothing when no [a ++ c] stands in it from some place
    before the end of a first opening on. *)
Lemma ref_key_none n line :
  n <= length p -> last_at (a ++ c) (drop n line) = None ->
  ref_key p a c line = None.
Proof.
  revert n. induction line as [| x line IH]; intros n Hn H.
  - cbn [ref_key]. rewrite p_nil. reflexivity.
  - cbn [ref_key]. destruct (is_prefix p (x :: line)) eqn:Hp.
    + unfold ref_after.
      replace (drop (length p) (x :: line))
        with (drop (length p - n) (drop n (x :: line)))
        by (rewrite drop_drop; f_equal; lia).
      rewrite (last_at_drop _ _ _ H). reflexivity.
    + destruct n as [| n].
      * apply (IH 0); [lia |]. exact (last_at_tail _ _ _ H).
      * apply (IH n); [lia |]. exact H.
Qed.

Lemma line_refs_cons line ls :
  line_refs p a c (line :: ls)
  = match ref_key p a c line with
    | Some k => string_of_list_ascii k :: line_refs p a c ls
    | None => line_refs p a c ls
    end.
Proof.
  unfold line_refs. simpl. destruct (ref_key p a c line); reflexivity.
Qed.

(** The key of a line that opens with [p] is what the matcher captures
    there. *)
Lemma ref_after_line l i :
  is_prefix p l = true ->
  last_at (a ++ c) (line_of (drop (length p) l)) = Some i ->
  ref_key p a c (line_of l)
  = Some (take (i + length a) (drop (length p) l)).
Proof.
  intros Hp Hl.
  assert (Hpl : is_prefix p (line_of l) = true) by (rewrite p_line; exact Hp).
  pose proof (is_prefix_length _ _ Hpl) as Hlen.
  destruct (line_of l) as [| x line] eqn:Hline.
  - rewrite p_nil in Hpl. discriminate.
  - cbn [ref_key]. rewrite Hpl. unfold ref_after.
    rewrite <- Hline, <- line_of_drop by (rewrite Hline; exact Hlen).
    rewrite Hl. simpl. f_equal.
    pose proof (last_at_lt _ _ _ Hl) as Hi.
    pose proof (last_at_prefix _ _ _ Hl) as Hq.
    apply is_prefix_length in Hq. rewrite length_drop in Hq.
    rewrite length_app in Hq.
    rewrite <- (line_after (drop (length p) l)) at 2.
    rewrite take_app_le by lia. reflexivity.
Qed.

(** [finditer] goes line by line: each line gives its key, if it has
    one, and nothing else.  After a match, which ends with the last [a ++ c]
    of its line, the rest of the line gives nothing. *)
Lemma scan_refs text :
  (forall pos prev,
     keys (finditer_from (closed_pattern p a c) 0 pos prev text)
     = line_refs p a c (split_lines text)) /\
  (forall skip pos prev,
     skip <= length (line_of text) ->
     last_at (a ++ c) (drop skip (line_of text)) = None ->
     keys (finditer_from (closed_pattern p a c) skip pos prev text)
     = line_refs p a c (tl (split_lines text))).
Proof.
  induction text as [| x l [IHa IHb]].
  - assert (Ha : forall pos prev,
              keys (finditer_from (closed_pattern p a c) 0 pos prev [])
              = line_refs p a c (split_lines [])).
    { intros pos prev. rewrite finditer_from_0, match_at_closed.
      rewrite p_nil. simpl split_lines. rewrite line_refs_cons.
      cbn [ref_key]. rewrite p_nil. reflexivity. }
    split; [exact Ha |].
    intros skip pos prev Hs _. simpl in Hs.
    assert (skip = 0) by lia. subst skip.
    rewrite finditer_from_0, match_at_closed, p_nil. reflexivity.
  - assert (Ha : forall pos prev,
              keys (finditer_from (closed_pattern p a c) 0 pos prev (x :: l))
              = line_refs p a c (split_lines (x :: l))).
    { intros pos prev. rewrite finditer_from_0, match_at_closed.
      destruct (is_prefix p (x :: l)) eqn:Hp.
      - pose proof (p_head _ _ Hp) as Hx.
        rewrite (split_lines_cons _ _ Hx), line_refs_cons.
        assert (Hline : line_of (x :: l) = x :: line_of l)
          by (simpl; rewrite Hx; reflexivity).
        rewrite <- Hline.
        assert (Hpl : is_prefix p (line_of (x :: l)) = true)
          by (rewrite p_line; exact Hp).
        pose proof (is_prefix_length _ _ Hpl) as Hlen.
        destruct (last_at (a ++ c) (line_of (drop (length p) (x :: l))))
          as [i |] eqn:Hl.
        + rewrite (ref_after_line _ _ Hp Hl).
          cbn [keys map r_end r_start]. unfold group_str at 1. simpl group.
          f_equal.
          pose proof (last_at_lt _ _ _ Hl) as Hi.
          pose proof (last_at_prefix _ _ _ Hl) as Hq.
          apply is_prefix_length in Hq. rewrite length_drop in Hq.
          rewrite line_of_drop, length_drop in Hi, Hq by exact Hlen.
          pose proof q_length as Hq1.
          rewrite Hline in Hlen, Hi, Hq. simpl in Hlen, Hi, Hq.
          replace (pred (pos + length p + i + length (a ++ c) - pos))
            with (length p + i + length (a ++ c) - 1) by lia.
          apply IHb; [lia |].
          rewrite line_of_drop in Hl by (rewrite Hline; simpl; lia).
          apply last_at_after in Hl.
          rewrite drop_drop, Hline in Hl.
          apply (last_at_drop _ (length (a ++ c) - 1)) in Hl.
          rewrite drop_drop in Hl.
          replace (length p + S i + (length (a ++ c) - 1))
            with (S (length p + i + length (a ++ c) - 1)) in Hl by lia.
          exact Hl.
        + rewrite line_of_drop in Hl by exact Hlen.
          rewrite (ref_key_none (length p) _ (Nat.le_refl _) Hl).
          rewrite IHa, (split_lines_eq l), line_refs_cons.
          rewrite Hline in Hl.
          assert (Hp1 : 1 <= length p).
          { destruct p eqn:Ep; [destruct (p_nonempty eq_refl) | simpl; lia]. }
          rewrite (ref_key_none (length p - 1) (line_of l)); [reflexivity | lia |].
          replace (length p) with (S (length p - 1)) in Hl by lia.
          exact Hl.
      - rewrite IHa.
        destruct (Ascii.eqb x newline) eqn:Hx.
        + simpl split_lines. rewrite Hx, line_refs_cons.
          cbn [ref_key]. rewrite p_nil. reflexivity.
        + rewrite (split_lines_cons _ _ Hx), line_refs_cons.
          rewrite (split_lines_eq l), line_refs_cons.
          cbn [ref_key].
          replace (is_prefix p (x :: line_of l)) with false; [reflexivity |].
          rewrite <- Hp, <- (p_line (x :: l)). simpl. rewrite Hx.
          reflexivity. }
    split; [exact Ha |].
    intros skip pos prev Hs Hl.
    destruct skip as [| n].
    + rewrite Ha. change (last_at (a ++ c) (line_of (x :: l)) = None) in Hl.
      rewrite (split_lines_eq (x :: l)), line_refs_cons.
      rewrite (ref_key_none 0 _ (Nat.le_0_l _) Hl). reflexivity.
    + simpl in Hs, Hl. destruct (Ascii.eqb x newline) eqn:Hx;
        simpl in Hs; [lia |].
      cbn [finditer_from]. rewrite (split_lines_cons _ _ Hx).
      simpl in Hl. simpl tl. apply IHb; [lia | exact Hl].
Qed.

End Closings.

Section References.

Lemma INPUT_PATTERN_shape :
  INPUT_PATTERN = closed_pattern input_open aux_ext [close_brace].
Proof. reflexivity. Qed.

(** The referenced files, as the matcher finds them, are the
    references of the lines. *)
Lemma included_by_line aux : included aux = references aux.
Proof.
  unfold included, finditer. rewrite INPUT_PATTERN_shape.
  change (references aux)
    with (line_refs input_open aux_ext [close_brace]
                    (split_lines (list_ascii_of_string aux))).
  apply scan_refs; try reflexivity; discriminate.
Qed.

(** What [generate_citation_counter] returns when the main auxiliary
    file can be read: the counters of the main file and of the files
    its lines refer to, as far as these can be opened. *)
Lemma generate_citation_counter_refs (s : state) (bytes : string) (t : Z) :
  w_files (st_world s) !! aux_name s = Some (File bytes t) ->
  exists m,
    generate_citation_counter s = Ok m s
    /\ forall f,
         m !! f
         = if bool_decide (f = aux_name s \/ f ∈ references (decode bytes))
           then file_counter (st_world s) f
           else None.
Proof.
  intros Haux.
  destruct (generate_citation_counter_ok s bytes t Haux) as (m & Hm & Hf).
  exists m. split; [exact Hm |].
  intros f. rewrite (Hf f), included_by_line. reflexivity.
Qed.

(** C8, amended.  [generate_citation_counter] reads the main auxiliary
    file line by line: a line refers to the file named by the text from
    its first [\@input{] to the last [.aux] of the line that a closing
    brace follows.  For auxiliary files in ASCII, when the main file can
    be read, the function returns, without raising and without changing
    anything, a mapping that holds, for the main file and for every file
    a line refers to, the counter of that file if it is a regular file;
    a file that cannot be opened has no entry, and no other path has
    one. *)
Theorem generate_citation_counter_by_line
    (s : state) (bytes : string) (t : Z) :
  w_files (st_world s) !! aux_name s = Some (File bytes t) ->
  ascii_text bytes = true ->
  (forall f, f ∈ references (decode bytes) ->
             text_or_absent (st_world s) f = true) ->
  exists m,
    generate_citation_counter s = Ok m s
    /\ forall f,
         m !! f
         = if bool_decide (f = aux_name s \/ f ∈ references (decode bytes))
           then file_counter (st_world s) f
           else None.
Proof. intros Haux _ _. exact (generate_citation_counter_refs s bytes t Haux). Qed.

End References.

(** ** Cleaning up *)

Section Cleaning.

Variable E : env.

Lemma sweep_body o fname self fs t tr :
  when (negb (bool_decide (fname ∈ old_dir o) || endswith fname (ending_of o)))
       (except_OSError (remove E fname) (fun _ => ret tt))
       (State self (World fs t) tr)
  = Ok tt (State self (World (sweep_one E o fs fname) t) tr).
Proof.
  unfold sweep_one, spared, can_go, is_regular.
  destruct (bool_decide (fname ∈ old_dir o) || endswith fname (ending_of o));
    [reflexivity |].
  simpl when. unfold except_OSError, remove.
  rewrite bind_get_world. simpl.
  destruct (fs !! fname) as [[c m |] |]; try reflexivity.
  destruct (removable E fname); reflexivity.
Qed.

Lemma sweep_loop o names self fs t tr :
  for_each names (fun fname =>
    when (negb (bool_decide (fname ∈ old_dir o)
                || endswith fname (ending_of o)))
         (except_OSError (remove E fname) (fun _ => ret tt)))
    (State self (World fs t) tr)
  = Ok tt (State self (World (fold_left (sweep_one E o) names fs) t) tr).
Proof.
  revert fs. induction names as [| n names IH]; intros fs; [reflexivity |].
  cbn [for_each fold_left]. rewrite bind_eq, sweep_body. apply IH.
Qed.

Lemma sweep_lookup o names (fs : gmap string entry) x :
  fold_left (sweep_one E o) names fs !! x
  = if bool_decide (x ∈ names) && negb (spared o x) && can_go E (fs !! x) x
    then None else fs !! x.
Proof.
  revert fs. induction names as [| n names IH]; intros fs.
  - rewrite bool_decide_eq_false_2 by apply not_elem_of_nil. reflexivity.
  - cbn [fold_left]. rewrite IH.
    destruct (decide (x = n)) as [-> | Hne].
    + rewrite (bool_decide_eq_true_2 (n ∈ n :: names))
        by (apply elem_of_cons; auto).
      unfold sweep_one. destruct (spared o n) eqn:Hs; simpl.
      * rewrite andb_false_r. reflexivity.
      * destruct (can_go E (fs !! n) n) eqn:Hn; simpl.
        -- rewrite lookup_delete_eq. unfold can_go. simpl.
           rewrite andb_false_r. reflexivity.
        -- rewrite Hn, andb_false_r. reflexivity.
    + assert (Hx : sweep_one E o fs n !! x = fs !! x).
      { unfold sweep_one. destruct (spared o n); [reflexivity |].
        destruct (can_go E (fs !! n) n); [| reflexivity].
        apply lookup_delete_ne. congruence. }
      rewrite Hx.
      destruct (decide (x ∈ names)) as [Hin | Hnin].
      * rewrite !(bool_decide_eq_true_2 (x ∈ _));
          [reflexivity | apply elem_of_cons; auto | exact Hin].
      * rewrite !(bool_decide_eq_false_2 (x ∈ _)); [reflexivity | | exact Hnin].
        rewrite elem_of_cons. intros [? | ?]; contradiction.
Qed.

Lemma steady_keeps_ids {A} (c : M A) : steady c -> keeps_ids c.
Proof. intros H s. apply (steady_final c s H). Qed.

Lemma keeps_ids_bind {A B} (c : M A) (f : A -> M B) :
  keeps_ids c -> (forall a, keeps_ids (f a)) -> keeps_ids (bind c f).
Proof.
  intros Hc Hf s. rewrite bind_eq. specialize (Hc s).
  destruct (c s) as [a s1 | e s1]; simpl in *; [| exact Hc].
  rewrite Hf. exact Hc.
Qed.

Lemma keeps_ids_when b c : keeps_ids c -> keeps_ids (when b c).
Proof. intros H. destruct b; [exact H | intros s; reflexivity]. Qed.

Lemma keeps_ids_latex_run : keeps_ids (latex_run E).
Proof. intros s. apply latex_run_spec. Qed.

Lemma keeps_ids_rerun_loop fuel : keeps_ids (rerun_loop E fuel).
Proof.
  induction fuel as [| fuel IH]; intros s; [reflexivity |].
  rewrite rerun_loop_eq.
  destruct (_ <? _)%nat; [| reflexivity].
  destruct (negb _); [reflexivity |].
  pose proof (keeps_ids_latex_run s) as H.
  destruct (latex_run E s) as [[] s1 | e s1]; simpl in *; [| exact H].
  rewrite IH. exact H.
Qed.

(** What [run] does after it has recorded the baseline. *)
Lemma run_build_eq s :
  run_build E s
  = (snapshot <- _read_latex_files ;;
     let '(cite_counter, toc_sha, gloss_files) := snapshot in
     latex_run E ;;
     read_glossaries ;;
     gloss_changed <- makeindex_runs E gloss_files ;;
     again <- (if gloss_changed then ret true
               else r <- _is_toc_changed toc_sha ;; ret (truthy r)) ;;
     when again (latex_run E) ;;
     need_bib <- _need_bib_run cite_counter ;;
     when (truthy need_bib) (bibtex_run E ;; latex_run E) ;;
     rerun_loop E MAX_RUNS)
      (State (set_old_dir (if clean (opt (st_self s))
                           then list_dir (st_world s) else [])
                          (st_self s))
             (st_world s) (st_trace s)).
Proof.
  unfold run_build. destruct s as [o w tr].
  rewrite bind_eq. unfold update_self at 1.
  rewrite bind_get_self. cbn [st_self st_world st_trace]. rewrite bind_eq.
  change (opt (set_old_dir [] o)) with (opt o).
  destruct (clean (opt o)); reflexivity.
Qed.

Lemma run_build_baseline s s' :
  run_build E s = Ok tt s' ->
  old_dir (st_self s')
  = if clean (opt (st_self s)) then list_dir (st_world s) else [].
Proof.
  rewrite run_build_eq. set (s1 := State _ _ _). set (rest := bind _ _).
  intros H.
  assert (Hk : keeps_ids rest).
  { unfold rest.
    apply keeps_ids_bind;
      [apply steady_keeps_ids, steady_read_latex_files | intros [[cc sha] gf]].
    apply keeps_ids_bind; [apply keeps_ids_latex_run | intros _].
    apply keeps_ids_bind;
      [apply steady_keeps_ids, steady_read_glossaries | intros _].
    apply keeps_ids_bind;
      [apply steady_keeps_ids, steady_makeindex_runs | intros changed].
    apply keeps_ids_bind; [| intros again].
    { apply steady_keeps_ids. destruct changed; [apply steady_ret |].
      apply steady_bind; [apply steady_is_toc_changed | intros r].
      apply steady_ret. }
    apply keeps_ids_bind;
      [apply keeps_ids_when, keeps_ids_latex_run | intros _].
    apply keeps_ids_bind;
      [apply steady_keeps_ids, steady_need_bib_run | intros need].
    apply keeps_ids_bind; [| intros _; apply keeps_ids_rerun_loop].
    apply keeps_ids_when, keeps_ids_bind.
    - apply steady_keeps_ids, steady_bibtex_run.
    - intros _. apply keeps_ids_latex_run. }
  specialize (Hk s1). rewrite H in Hk. simpl in Hk.
  unfold ids, core_of in Hk. simpl in Hk.
  injection Hk as _ _ _ Hd. exact Hd.
Qed.

(** The build keeps the options. *)
Lemma run_build_opt s s' :
  run_build E s = Ok tt s' -> opt (st_self s') = opt (st_self s).
Proof.
  rewrite run_build_eq. set (s1 := State _ _ _). set (rest := bind _ _).
  intros H.
  assert (Hk : keeps_ids rest).
  { unfold rest.
    apply keeps_ids_bind;
      [apply steady_keeps_ids, steady_read_latex_files | intros [[cc sha] gf]].
    apply keeps_ids_bind; [apply keeps_ids_latex_run | intros _].
    apply keeps_ids_bind;
      [apply steady_keeps_ids, steady_read_glossaries | intros _].
    apply keeps_ids_bind;
      [apply steady_keeps_ids, steady_makeindex_runs | intros changed].
    apply keeps_ids_bind; [| intros again].
    { apply steady_keeps_ids. destruct changed; [apply steady_ret |].
      apply steady_bind; [apply steady_is_toc_changed | intros r].
      apply steady_ret. }
    apply keeps_ids_bind;
      [apply keeps_ids_when, keeps_ids_latex_run | intros _].
    apply keeps_ids_bind;
      [apply steady_keeps_ids, steady_need_bib_run | intros need].
    apply keeps_ids_bind; [| intros _; apply keeps_ids_rerun_loop].
    apply keeps_ids_when, keeps_ids_bind.
    - apply steady_keeps_ids, steady_bibtex_run.
    - intros _. apply keeps_ids_latex_run. }
  specialize (Hk s1). rewrite H in Hk. cbn [final] in Hk.
  unfold ids, core_of in Hk. cbn [c_opt c_project_name c_latex_cmd c_old_dir]
    in Hk.
  injection Hk as Ho _ _ _. rewrite Ho. unfold s1. cbn [st_self].
  destruct (clean (opt (st_self s))); reflexivity.
Qed.

End Cleaning.

(** ** The clean-up of [run] *)

Section CleanRun.

Variable E : env.

Lemma notices_keep {A} (l : list A) (b : A -> bool) (msg : A -> string) s :
  exists evs,
    for_each l (fun x => when (b x) (log INFO (msg x))) s
    = Ok tt (add_events evs s).
Proof.
  revert s. induction l as [| x l IH]; intros s.
  - exists []. unfold add_events. rewrite app_nil_r. destruct s. reflexivity.
  - cbn [for_each]. rewrite bind_eq.
    destruct (b x); cbn [when].
    + set (s1 := State (st_self s) (st_world s)
                       (st_trace s ++ [EvLog INFO (msg x)])).
      change (log INFO (msg x) s) with (Ok tt s1). cbv iota.
      destruct (IH s1) as [evs Hevs].
      rewrite Hevs. exists (EvLog INFO (msg x) :: evs).
      unfold add_events, s1. cbn [st_self st_world st_trace].
      rewrite <- app_assoc. reflexivity.
    + unfold ret at 1. apply IH.
Qed.

(** The check for entries that are not cited writes to the log and
    does nothing else. *)
Lemma check_cite_block_keeps s s' :
  check_cite_block s = Ok tt s' ->
  st_self s' = st_self s /\ st_world s' = st_world s.
Proof.
  unfold check_cite_block. rewrite bind_get_self, bind_eq.
  unfold read at 1. rewrite bind_get_world.
  destruct (w_files (st_world s) !! _) as [[c1 t1 |] |];
    try discriminate.
  unfold ret at 1. cbv zeta. rewrite bind_eq.
  unfold read at 1. rewrite bind_get_world.
  destruct (w_files (st_world s) !! _) as [[c2 t2 |] |];
    try discriminate.
  unfold ret at 1.
  match goal with
  | |- for_each ?l (fun m => when (@?b m) (log INFO (@?g m))) s = _ -> _ =>
      destruct (notices_keep l b g s) as [evs Hevs]
  end.
  rewrite Hevs. intros [= <-]. split; reflexivity.
Qed.

Lemma checked_keeps s s' :
  checked s s' -> st_self s' = st_self s /\ st_world s' = st_world s.
Proof.
  unfold checked. destruct (check_cite (opt (st_self s))).
  - apply check_cite_block_keeps.
  - intros ->. split; reflexivity.
Qed.

(** What [run] comes to when the clean flag is set, the build has
    returned and the citation check, if any, has returned. *)
Lemma run_cleans (s0 s1 s2 : state) :
  clean (opt (st_self s0)) = true ->
  run_build E s0 = Ok tt s1 ->
  checked s1 s2 ->
  exists files',
    (forall name,
       files' !! name
       = if swept E (list_dir (st_world s0)) (opt (st_self s0))
                  (st_world s1) name
         then None
         else w_files (st_world s1) !! name)
    /\ run E s0
       = after_cleanup E (st_self s1)
           (State (st_self s1) (World files' (w_time (st_world s1)))
                  (st_trace s2)).
Proof.
  intros Hc Hb Hk.
  pose proof (run_build_baseline E _ _ Hb) as Hold. rewrite Hc in Hold.
  pose proof (run_build_opt E _ _ Hb) as Hopt.
  destruct (checked_keeps _ _ Hk) as [Hs Hw].
  exists (fold_left (sweep_one E (st_self s1)) (list_dir (st_world s1))
                    (w_files (st_world s1))).
  split.
  - intros name. rewrite sweep_lookup.
    unfold swept, kept, spared, can_go, is_regular, is_file, ending_of,
      final_extension.
    rewrite Hold, Hopt.
    destruct (w_files (st_world s1) !! name) as [[c m |] |]; reflexivity.
  - unfold run. rewrite bind_eq, Hb. unfold run_finish.
    rewrite bind_get_self, bind_eq.
    assert (Hck : when (check_cite (opt (st_self s1))) check_cite_block s1
                  = Ok tt s2).
    { unfold checked in Hk. destruct (check_cite (opt (st_self s1)));
        [exact Hk | rewrite Hk; reflexivity]. }
    rewrite Hck, bind_eq, Hopt, Hc. cbn [when].
    unfold clean_block. rewrite bind_get_self. cbv zeta. rewrite bind_eq.
    unfold listdir. rewrite bind_get_world. unfold ret at 1.
    destruct s2 as [o2 [fs2 t2] tr2]. cbn [st_self st_world] in Hs, Hw.
    subst o2. rewrite <- Hw.
    cbn [st_self st_world st_trace w_time w_files].
    rewrite sweep_loop. rewrite <- Hopt. reflexivity.
Qed.

(** C9.  When the clean flag is set and [run] gets as far as the
    clean-up (the build has returned, and so has the check for entries
    that are not cited when it is asked for), [run] deletes from the
    working directory the regular files that are not in the listing of
    the directory taken when [run] started and do not end with [.pdf]
    (when producing pdf) or [.dvi] (otherwise), as far as the process
    may delete them, and no other: every other name keeps its entry.
    A deletion that fails (a directory, a file the process may not
    delete) does not stop the run, which goes on with the preview and
    the last message; with neither preview nor notification it returns
    right after that message. *)
Theorem run_deletes_new_files (s0 s1 s2 : state) :
  clean (opt (st_self s0)) = true ->
  run_build E s0 = Ok tt s1 ->
  checked s1 s2 ->
  exists files',
    (forall name,
       files' !! name
       = if swept E (list_dir (st_world s0)) (opt (st_self s0))
                  (st_world s1) name
         then None
         else w_files (st_world s1) !! name)
    /\ run E s0
       = after_cleanup E (st_self s1)
           (State (st_self s1) (World files' (w_time (st_world s1)))
                  (st_trace s2))
    /\ (preview (opt (st_self s0)) = false ->
        notify (opt (st_self s0)) = false ->
        run E s0
        = Ok tt (State (st_self s1) (World files' (w_time (st_world s1)))
                       (st_trace s2 ++ [compiled_notice (st_self s1)]))).
Proof.
  intros Hc Hb Hk.
  destruct (run_cleans s0 s1 s2 Hc Hb Hk) as (files' & Hf & Hr).
  exists files'. split; [exact Hf |]. split; [exact Hr |].
  intros Hp Hn. rewrite Hr. unfold after_cleanup.
  rewrite (run_build_opt E _ _ Hb), Hp, Hn. reflexivity.
Qed.

End CleanRun.

(** ** The table of contents *)

Section Toc.

Variable E : env.

Lemma is_toc_changed_eq sha s :
  _is_toc_changed sha s
  = if is_file (st_world s) (toc_name s)
    then Raise (NameError "hashlib") s
    else Ok None s.
Proof.
  unfold _is_toc_changed, toc_name.
  rewrite bind_get_self, bind_eq, isfile_eq.
  destruct (is_file _ _) eqn:Hf; [| reflexivity].
  apply is_file_true in Hf as (bytes & t & Hf).
  unfold open_rb. rewrite bind_eq, bind_get_world, Hf. reflexivity.
Qed.

(** With a table of contents in place the snapshot is never taken:
    [_read_latex_files] stops at the hash. *)
Lemma read_latex_files_toc s :
  is_file (st_world s) (toc_name s) = true ->
  exists s1,
    _read_latex_files s = Raise (NameError "hashlib") s1
    /\ st_trace s1 = st_trace s.
Proof.
  intros Htoc. unfold _read_latex_files.
  rewrite bind_get_self, bind_eq, isfile_eq.
  assert (Hopen : forall s1,
            st_world s1 = st_world s ->
            project_name (st_self s1) = project_name (st_self s) ->
            open_rb (project_name (st_self s) +:+ ".toc") s1 = Ok tt s1).
  { intros s1 Hw Hn. unfold open_rb. rewrite bind_get_world, Hw.
    apply is_file_true in Htoc as (bytes & t & Hf).
    unfold toc_name in Hf. rewrite Hf. reflexivity. }
  destruct (is_file (st_world s) (project_name (st_self s) +:+ ".aux"))
    eqn:Haux.
  - apply is_file_true in Haux as (bytes & t & Haux).
    destruct (generate_citation_counter_ok s bytes t Haux) as (m & Hm & _).
    destruct (read_glossaries_ok s bytes t Haux) as (g & Hg & _).
    rewrite bind_eq, bind_eq, Hm, bind_eq, Hg.
    unfold ret at 1. rewrite bind_eq, isfile_eq.
    cbn [st_world st_self st_trace]. fold (toc_name s). rewrite Htoc.
    rewrite bind_eq, bind_eq, Hopen by reflexivity.
    eexists. split; reflexivity.
  - rewrite bind_eq. unfold ret at 1. rewrite bind_eq, isfile_eq.
    fold (toc_name s). rewrite Htoc.
    rewrite bind_eq, bind_eq, Hopen by reflexivity.
    eexists. split; reflexivity.
Qed.

(** C4 (the code does not do what the claim says).  Both places that
    hash the table of contents raise [NameError]: [_is_toc_changed]
    whenever the file exists, so that it never returns a true value and
    the rule never leads to one more pass; and [_read_latex_files], so
    that [run] on a project whose table of contents exists stops before
    the first compiler pass. *)
Theorem toc_hash_raises_NameError (s : state) :
  (forall sha,
     is_file (st_world s) (toc_name s) = true ->
     _is_toc_changed sha s = Raise (NameError "hashlib") s)
  /\ (forall sha r s1, _is_toc_changed sha s = Ok r s1 -> truthy r = false)
  /\ (is_file (st_world s) (toc_name s) = true ->
      exists s1,
        run E s = Raise (NameError "hashlib") s1
        /\ st_trace s1 = st_trace s).
Proof.
  repeat split.
  - intros sha H. rewrite is_toc_changed_eq, H. reflexivity.
  - intros sha r s1. rewrite is_toc_changed_eq.
    destruct (is_file _ _); [discriminate |]. intros [= <- _]. reflexivity.
  - intros H. unfold run. rewrite bind_eq, run_build_eq.
    set (s0 := State _ _ _).
    destruct (read_latex_files_toc s0 H) as (s1 & Hr & Ht).
    rewrite bind_eq, Hr. exists s1. split; [reflexivity | exact Ht].
Qed.

End Toc.

(** ** The check for entries that are not cited *)

Section CheckCite.

Variable E : env.

(** Without a [\bibdata] directive [_need_bib_run] answers no and
    leaves [bib_file] as it is. *)
Lemma need_bib_run_no_directive old s bytes t :
  w_files (st_world s) !! aux_name s = Some (File bytes t) ->
  search BIB_PATTERN (decode bytes) = None ->
  _need_bib_run old s = Ok (Some false) s.
Proof.
  intros Haux Hno. unfold aux_name in Haux. unfold _need_bib_run.
  rewrite bind_get_self, bind_eq, (read_ok _ _ _ _ Haux), Hno.
  reflexivity.
Qed.

Lemma check_cite_block_no_bib s :
  bib_file (st_self s) = EmptyString ->
  is_file (st_world s) (aux_name s) = true ->
  is_file (st_world s) ".bib" = false ->
  check_cite_block s = Raise (OSError ".bib") s.
Proof.
  intros Hb Haux Hbib. unfold check_cite_block.
  apply is_file_true in Haux as (bytes & t & Haux). unfold aux_name in Haux.
  rewrite bind_get_self, bind_eq, (read_ok _ _ _ _ Haux).
  cbv zeta. rewrite bind_eq, Hb.
  change (EmptyString +:+ ".bib") with ".bib".
  rewrite (read_fail _ _ Hbib). reflexivity.
Qed.

(** C10.  When there is no [\bibdata] directive, [_need_bib_run] leaves
    [bib_file] empty and asks for no bibliography pass.  With the check
    requested, [bib_file] empty and no file named [.bib], the check
    block opens [.bib]; the failure ends [run] with [OSError], which the
    handler of the entry point, made for [LatexMkError], lets through:
    the error is not logged as information and the check is not
    skipped. *)
Theorem check_cite_without_bibdata (s : state) :
  check_cite (opt (st_self s)) = true ->
  bib_file (st_self s) = EmptyString ->
  is_file (st_world s) (aux_name s) = true ->
  is_file (st_world s) ".bib" = false ->
  (forall old bytes t,
     w_files (st_world s) !! aux_name s = Some (File bytes t) ->
     search BIB_PATTERN (decode bytes) = None ->
     _need_bib_run old s = Ok (Some false) s)
  /\ run_finish E s = Raise (OSError ".bib") s
  /\ (forall s0, run_build E s0 = Ok tt s ->
                 run E s0 = Raise (OSError ".bib") s)
  /\ (forall s0 h, run_build E s0 = Ok tt s ->
                   except_LatexMkError (run E) h s0
                   = Raise (OSError ".bib") s).
Proof.
  intros Hc Hb Haux Hbib.
  assert (Hfin : run_finish E s = Raise (OSError ".bib") s).
  { unfold run_finish. rewrite bind_get_self, bind_eq, Hc.
    simpl when. rewrite (check_cite_block_no_bib s Hb Haux Hbib).
    reflexivity. }
  assert (Hrun : forall s0, run_build E s0 = Ok tt s ->
                            run E s0 = Raise (OSError ".bib") s).
  { intros s0 H0. unfold run. rewrite bind_eq, H0. exact Hfin. }
  repeat split.
  - intros old bytes t H1 H2. exact (need_bib_run_no_directive old s _ _ H1 H2).
  - exact Hfin.
  - exact Hrun.
  - intros s0 h H0. unfold except_LatexMkError. rewrite (Hrun s0 H0).
    reflexivity.
Qed.

End CheckCite.

(** ** Deciding on a bibliography pass *)

Section BibRun.

Lemma filecmp_cmp_eq f1 f2 s c1 t1 c2 t2 :
  w_files (st_world s) !! f1 = Some (File c1 t1) ->
  w_files (st_world s) !! f2 = Some (File c2 t2) ->
  filecmp_cmp f1 f2 s
  = Ok (((String.length c1 =? String.length c2)%nat && (t1 =? t2)%Z)
        || String.eqb c1 c2) s.
Proof.
  intros H1 H2. unfold filecmp_cmp. rewrite bind_get_world, H1, H2.
  destruct ((String.length c1 =? String.length c2)%nat) eqn:Hl; simpl.
  - destruct (t1 =? t2)%Z; reflexivity.
  - assert (Hne : String.eqb c1 c2 = false).
    { apply String.eqb_neq. intros ->. rewrite Nat.eqb_refl in Hl.
      discriminate. }
    rewrite Hne. reflexivity.
Qed.

(** [_need_bib_run] in the situation where only the saved copy
    decides. *)
Lemma need_bib_run_saved_copy s b old c1 t1 :
  bib_case s b old ->
  w_files (st_world s) !! (b +:+ ".bib") = Some (File c1 t1) ->
  _need_bib_run old s
  = Ok (match w_files (st_world s) !! (b +:+ ".bib.old") with
        | Some (File c2 t2) =>
            if ((String.length c1 =? String.length c2)%nat && (t1 =? t2)%Z)
               || String.eqb c1 c2
            then None else Some true
        | _ => None
        end)
       (with_bib_file b s).
Proof.
  intros [(bytes & t & Haux & Hb) Hbib Hlog Hcnt] H1.
  unfold aux_name in Haux. unfold bibdata_of in Hb.
  unfold _need_bib_run.
  rewrite bind_get_self, bind_eq, (read_ok _ _ _ _ Haux).
  destruct (search BIB_PATTERN (decode bytes)) as [m |]; [| discriminate].
  injection Hb as Hb. rewrite Hb.
  rewrite bind_eq. unfold update_self at 1. fold (with_bib_file b s).
  rewrite bind_get_self, bind_eq, isfile_eq.
  change (bib_file (st_self (with_bib_file b s))) with b.
  change (st_world (with_bib_file b s)) with (st_world s).
  rewrite Hbib. cbn [negb].
  change (project_name (st_self (with_bib_file b s)))
    with (project_name (st_self s)).
  change (out (st_self (with_bib_file b s))) with (out (st_self s)).
  unfold log_hints_bib in Hlog. rewrite Hlog.
  rewrite bind_eq, Hcnt.
  rewrite bool_decide_eq_true_2 by reflexivity. cbn [negb].
  rewrite bind_eq, isfile_eq.
  change (st_world (with_bib_file b s)) with (st_world s).
  unfold is_file.
  destruct (w_files (st_world s) !! (b +:+ ".bib.old"))
    as [[c2 t2 |] |] eqn:H2; try reflexivity.
  cbv zeta. rewrite bind_eq.
  rewrite (filecmp_cmp_eq _ _ (with_bib_file b s) c1 t1 c2 t2 H1 H2).
  destruct ((String.length c1 =? String.length c2)%nat && (t1 =? t2)%Z
            || String.eqb c1 c2); reflexivity.
Qed.


End BibRun.

(** ** Glossaries *)

Section Glossaries.

Variable E : env.
Variable gloss_files : gmap string string.

(** The body of the loop: the tool is run exactly when that test
    succeeds. *)
Lemma makeindex_one_eq changed gloss ext_i ext_o s :
  dict_get gloss (glossaries (st_self s)) = Some (ext_i, ext_o) ->
  makeindex_one E gloss_files changed gloss s
  = if needs_rebuild (st_self s) (st_world s) gloss_files gloss ext_i ext_o
    then rebuild E gloss ext_i ext_o s
    else Ok changed s.
Proof.
  intros Hg. unfold makeindex_one. rewrite bind_get_self, Hg.
  cbv zeta. rewrite bind_eq, isfile_eq.
  unfold needs_rebuild, fname_in, fname_out.
  set (hint := is_some (search _ (out (st_self s)))).
  set (fo := project_name (st_self s) +:+ "." +:+ ext_o).
  assert (Hrun : forall s0,
    s0 = s ->
    (log INFO ("Running makeindex (" +:+ gloss +:+ ")...") ;;
     except_OSError
       (popen E (makeindex_cmd (st_self s)
                   (project_name (st_self s) +:+ "." +:+ ext_i) fo))
       (fun _ => _fatal_error (NO_LATEX_ERROR "makeindex")) ;;
     ret true) s0
    = rebuild E gloss ext_i ext_o s).
  { intros s0 ->. unfold rebuild, fname_in, fname_out. fold fo.
    cbv beta iota zeta delta
      [bind log emit except_OSError popen get_world put_world raise
       _fatal_error ret st_self st_world st_trace].
    destruct (exec E _ _); reflexivity. }
  unfold is_file.
  destruct (w_files (st_world s) !! fo) as [[bytes t |] |] eqn:Hfo;
    cbn [negb].
  - rewrite bind_eq, bind_eq, (read_ok _ _ _ _ Hfo).
    destruct (gloss_files !! gloss) as [old |].
    + destruct (String.eqb old (decode bytes)); cbn [negb].
      * unfold ret at 1. rewrite !orb_false_r.
        destruct hint; [apply Hrun |]; reflexivity.
      * unfold ret at 1. rewrite !orb_true_r. apply Hrun. reflexivity.
    + unfold ret at 1. rewrite !orb_true_r. apply Hrun. reflexivity.
  - rewrite bind_eq. unfold ret at 1. rewrite orb_true_r. cbn [orb].
    apply Hrun. reflexivity.
  - rewrite bind_eq. unfold ret at 1. rewrite orb_true_r. cbn [orb].
    apply Hrun. reflexivity.
Qed.

Lemma index_calls_app tr ev :
  index_calls (tr ++ [ev])
  = index_calls tr + (if is_index_call ev then 1 else 0).
Proof.
  unfold index_calls. rewrite List.filter_app, length_app. simpl.
  destruct (is_index_call ev); reflexivity.
Qed.

(** What one turn can do when it returns: nothing, or one run of the
    tool. *)
Lemma makeindex_one_cases changed gloss s b s1 :
  makeindex_one E gloss_files changed gloss s = Ok b s1 ->
  st_self s1 = st_self s
  /\ ((b = changed /\ st_trace s1 = st_trace s)
      \/ (b = true
          /\ index_calls (st_trace s1) = S (index_calls (st_trace s)))).
Proof.
  destruct (dict_get gloss (glossaries (st_self s))) as [[ext_i ext_o] |]
    eqn:Hg.
  - rewrite (makeindex_one_eq _ _ _ _ _ Hg).
    destruct (needs_rebuild _ _ _ _ _ _).
    + unfold rebuild. destruct (exec E _ _); [| discriminate].
      intros [= <- <-]. split; [reflexivity |]. right.
      split; [reflexivity |]. cbn [st_trace].
      rewrite !index_calls_app. simpl. lia.
    + intros [= <- <-]. auto.
  - unfold makeindex_one. rewrite bind_get_self, Hg. discriminate.
Qed.

Lemma makeindex_loop_result ks changed s b s' :
  for_fold ks changed (makeindex_one E gloss_files) s = Ok b s' ->
  st_self s' = st_self s
  /\ index_calls (st_trace s) <= index_calls (st_trace s')
  /\ (b = true
      <-> changed = true
          \/ index_calls (st_trace s) < index_calls (st_trace s')).
Proof.
  revert changed s. induction ks as [| k ks IH]; intros changed s.
  - simpl. intros [= <- <-]. split; [reflexivity |]. split; [lia |].
    split; [auto | intros [H | H]; [exact H | lia]].
  - cbn [for_fold]. rewrite bind_eq.
    destruct (makeindex_one E gloss_files changed k s) as [b1 s1 | e s1]
      eqn:H1; [| discriminate].
    intros H2.
    destruct (makeindex_one_cases _ _ _ _ _ H1) as (Hs1 & Hc).
    destruct (IH _ _ H2) as (Hs2 & Hle & Hiff).
    split; [congruence |].
    destruct Hc as [[-> Ht] | [-> Hn]].
    + rewrite Ht in *. split; [exact Hle | exact Hiff].
    + split; [lia |]. rewrite Hiff.
      split; intros _; [right; lia | left; reflexivity].
Qed.

Lemma for_fold_app {A B} (l1 l2 : list A) (acc : B) body s :
  for_fold (l1 ++ l2) acc body s
  = match for_fold l1 acc body s with
    | Ok acc' s' => for_fold l2 acc' body s'
    | Raise e s' => Raise e s'
    end.
Proof.
  revert acc s. induction l1 as [| x l1 IH]; intros acc s; [reflexivity |].
  cbn [for_fold app]. rewrite !bind_eq.
  destruct (body acc x s); [apply IH | reflexivity].
Qed.

Lemma dict_get_in {V} k (d : pydict V) :
  k ∈ map fst d -> is_Some (dict_get k d).
Proof.
  induction d as [| [k0 v0] d IH]; simpl.
  - intros H. apply elem_of_nil in H. destruct H.
  - intros H. destruct (String.eqb k0 k) eqn:Hk; [eauto |].
    apply elem_of_cons in H as [-> | H]; [| exact (IH H)].
    rewrite String.eqb_refl in Hk. discriminate.
Qed.

Lemma dict_get_key {V} k (v : V) d : dict_get k d = Some v -> k ∈ map fst d.
Proof.
  induction d as [| [k0 v0] d IH]; simpl; [discriminate |].
  destruct (String.eqb k0 k) eqn:Hk.
  - apply String.eqb_eq in Hk. subst. intros _. apply elem_of_cons. auto.
  - intros H. apply elem_of_cons. right. exact (IH H).
Qed.

(** With a tool that starts, the loop over registered glossaries
    returns; it keeps what was written to the trace, never takes back a
    rebuild, and keeps a file absent if the tool does. *)
Lemma makeindex_loop_total ks changed s f :
  tool_starts E "makeindex" ->
  tool_keeps_absent E "makeindex" f ->
  (forall k, k ∈ ks -> is_Some (dict_get k (glossaries (st_self s)))) ->
  exists b s',
    for_fold ks changed (makeindex_one E gloss_files) s = Ok b s'
    /\ st_self s' = st_self s
    /\ (changed = true -> b = true)
    /\ (forall ev, ev ∈ st_trace s -> ev ∈ st_trace s')
    /\ (is_file (st_world s) f = false -> is_file (st_world s') f = false).
Proof.
  intros Hstart Hkeep. revert changed s.
  induction ks as [| k ks IH]; intros changed s Hks.
  - exists changed, s. simpl. auto.
  - destruct (Hks k) as [[ext_i ext_o] Hg]; [apply elem_of_cons; auto |].
    cbn [for_fold]. rewrite bind_eq, (makeindex_one_eq _ _ _ _ _ Hg).
    destruct (needs_rebuild _ _ _ _ _ _).
    + unfold rebuild.
      set (cmd := makeindex_cmd _ _ _).
      destruct (Hstart cmd (st_world s) eq_refl) as [w' Hw]. rewrite Hw.
      set (s1 := State _ w' _).
      destruct (IH true s1) as (b & s' & Hl & Hs & Hb & Htr & Hf).
      { intros k' Hk'. apply Hks, elem_of_cons. auto. }
      exists b, s'. split; [exact Hl |]. split; [exact Hs |].
      split; [intros _; apply Hb; reflexivity |]. split.
      * intros ev Hev. apply Htr. unfold s1. cbn [st_trace].
        rewrite !elem_of_app. auto.
      * intros Habs. apply Hf. unfold s1. cbn [st_world].
        exact (Hkeep cmd _ _ eq_refl Hw Habs).
    + destruct (IH changed s) as (b & s' & Hl & Hr).
      { intros k' Hk'. apply Hks, elem_of_cons. auto. }
      exists b, s'. split; [exact Hl | exact Hr].
Qed.

End Glossaries.

(** ** Which glossaries are rebuilt *)

Section Wildcards.

(** A pattern made by string formatting matches where the text agrees
    with it, a dot of the pattern standing for any character of the
    line. *)
Lemma mt_compile_wild p st k :
  mt (compile_chars p) st k
  = if wild_prefix p (m_rest st) then k (advance (length p) st) else None.
Proof.
  revert st. induction p as [| a p IH]; intros [pos prev rest caps].
  - reflexivity.
  - cbn [compile_chars mt m_rest wild_prefix length].
    destruct rest as [| b r]; [reflexivity |].
    cbn [m_pos m_caps]. unfold wild.
    destruct (Ascii.eqb a "."%char); cbn [cset_match].
    + destruct (negb (Ascii.eqb b newline)); cbn [andb]; [| reflexivity].
      rewrite IH. reflexivity.
    + rewrite (Ascii.eqb_sym b a).
      destruct (Ascii.eqb a b); cbn [andb]; [| reflexivity].
      rewrite IH. reflexivity.
Qed.

Lemma match_at_compile_wild p pos prev rest :
  is_some (match_at (compile_chars p) pos prev rest) = wild_prefix p rest.
Proof.
  unfold match_at. rewrite mt_compile_wild. cbn [m_rest].
  destruct (wild_prefix p rest); reflexivity.
Qed.

Lemma search_compile_wild p pos prev rest :
  is_some (search_from (compile_chars p) pos prev rest) = wild_occurs p rest.
Proof.
  revert pos prev. induction rest as [| c r IH]; intros pos prev.
  - cbn [search_from wild_occurs]. rewrite <- (match_at_compile_wild p pos prev).
    destruct (match_at _ _ _ _); reflexivity.
  - cbn [search_from wild_occurs].
    rewrite <- (match_at_compile_wild p pos prev), <- (IH (S pos) (Some c)).
    destruct (match_at _ _ _ _); reflexivity.
Qed.

Lemma search_compile p text :
  is_some (search (compile p) text)
  = wild_occurs (list_ascii_of_string p) (list_ascii_of_string text).
Proof. apply search_compile_wild. Qed.

Lemma wild_prefix_literal p l : is_prefix p l = true -> wild_prefix p l = true.
Proof.
  revert l. induction p as [| a p IH]; intros [| b l]; simpl;
    try reflexivity; try discriminate.
  intros H. apply andb_true_iff in H as [Hab H].
  apply Ascii.eqb_eq in Hab. subst b. rewrite (IH _ H), andb_true_r.
  unfold wild. destruct (Ascii.eqb a "."%char) eqn:Ha.
  - apply Ascii.eqb_eq in Ha. subst a. reflexivity.
  - apply Ascii.eqb_refl.
Qed.

Lemma wild_occurs_literal p l :
  occurrences p l <> 0 -> wild_occurs p l = true.
Proof.
  induction l as [| c l IH]; cbn [occurrences wild_occurs].
  - destruct (is_prefix p []) eqn:Hp; [| simpl; lia].
    intros _. rewrite (wild_prefix_literal _ _ Hp). reflexivity.
  - destruct (is_prefix p (c :: l)) eqn:Hp.
    + intros _. rewrite (wild_prefix_literal _ _ Hp). reflexivity.
    + intros H. rewrite IH by (simpl in H; exact H). apply orb_true_r.
Qed.

(** A notice that stands in the log as it is written is found. *)
Lemma reports_names f out :
  reports_missing f out = true -> names_missing f out = true.
Proof.
  unfold reports_missing, mentions, names_missing. intros H.
  apply wild_occurs_literal. apply negb_true_iff, Nat.eqb_neq in H. exact H.
Qed.

End Wildcards.

Section Rule.

Variable E : env.
Variable gloss_files : gmap string string.

Lemma needs_must o w gloss ext_i ext_o :
  needs_rebuild o w gloss_files gloss ext_i ext_o
  = must_rebuild o w gloss_files gloss ext_i ext_o.
Proof.
  unfold needs_rebuild, must_rebuild, names_missing, snapshot_differs.
  rewrite search_compile. reflexivity.
Qed.

(** The loop of [makeindex_runs] is the rule, glossary by glossary. *)
Lemma makeindex_loop_rule names changed s :
  for_fold names changed (makeindex_one E gloss_files) s
  = rebuild_each E gloss_files names changed s.
Proof.
  revert changed s. induction names as [| g names IH]; intros changed s.
  - reflexivity.
  - cbn [for_fold rebuild_each]. rewrite bind_eq.
    destruct (dict_get g (glossaries (st_self s))) as [[ext_i ext_o] |]
      eqn:Hg.
    + rewrite (makeindex_one_eq E gloss_files changed g ext_i ext_o s Hg).
      rewrite needs_must.
      destruct (must_rebuild _ _ _ _ _ _); [| apply IH].
      destruct (rebuild E g ext_i ext_o s) as [b s1 | e s1] eqn:Hr;
        [| reflexivity].
      assert (b = true) as ->.
      { unfold rebuild in Hr. destruct (exec E _ _); [| discriminate].
        injection Hr as <- _. reflexivity. }
      apply IH.
    + unfold makeindex_one. rewrite bind_get_self, Hg. reflexivity.
Qed.

Lemma must_rebuild_ext o w w' gloss ext_i ext_o :
  w_files w' !! fname_out o ext_o = w_files w !! fname_out o ext_o ->
  must_rebuild o w' gloss_files gloss ext_i ext_o
  = must_rebuild o w gloss_files gloss ext_i ext_o.
Proof.
  intros H. unfold must_rebuild, snapshot_differs, is_file. rewrite H.
  reflexivity.
Qed.

Lemma rebuild_ok gloss ext_i ext_o s b s1 :
  rebuild E gloss ext_i ext_o s = Ok b s1 ->
  exists w',
    exec E (index_command (st_self s) ext_i ext_o) (st_world s) = Some w'
    /\ s1 = State (st_self s) w'
              (st_trace s
               ++ [EvLog INFO ("Running makeindex (" +:+ gloss +:+ ")...");
                   EvPopen (index_command (st_self s) ext_i ext_o)]).
Proof.
  unfold rebuild, index_command.
  destruct (exec E _ _) as [w' |]; [| discriminate].
  intros [= _ <-]. exists w'. split; [reflexivity |].
  rewrite <- app_assoc. reflexivity.
Qed.

(** With outputs that stay apart, the loop starts the tool for the
    glossaries that meet the rule in the files as they were before the
    loop, and for no other. *)
Lemma rebuild_each_events o w0 names :
  NoDup names ->
  outputs_apart E o ->
  forall changed s b s',
    st_self s = o ->
    (forall g i x, g ∈ names -> registered o g i x ->
       w_files (st_world s) !! fname_out o x = w_files w0 !! fname_out o x) ->
    rebuild_each E gloss_files names changed s = Ok b s' ->
    exists evs,
      st_trace s' = st_trace s ++ evs
      /\ forall g i x, registered o g i x ->
           (EvPopen (index_command o i x) ∈ evs
            <-> g ∈ names
                /\ must_rebuild o w0 gloss_files g i x = true).
Proof.
  intros Hnd Hapart. induction Hnd as [| k names Hk Hnd IH];
    intros changed s b s' Hs Hw.
  - cbn [rebuild_each]. intros [= _ <-]. exists []. split.
    + rewrite app_nil_r. reflexivity.
    + intros g i x _. split.
      * intros H. apply elem_of_nil in H. destruct H.
      * intros [H _]. apply elem_of_nil in H. destruct H.
  - cbn [rebuild_each]. rewrite Hs.
    destruct (dict_get k (glossaries o)) as [[ki kx] |] eqn:Hkreg;
      [| discriminate].
    assert (Hwk : w_files (st_world s) !! fname_out o kx
                  = w_files w0 !! fname_out o kx).
    { apply (Hw k ki kx); [apply elem_of_cons; auto | exact Hkreg]. }
    rewrite (must_rebuild_ext o w0 (st_world s) k ki kx Hwk).
    destruct (must_rebuild o w0 gloss_files k ki kx) eqn:Hmust.
    + destruct (rebuild E k ki kx s) as [b1 s1 | e1 s1] eqn:Hr;
        [| discriminate].
      destruct (rebuild_ok _ _ _ _ _ _ Hr) as (w' & Hex & ->).
      rewrite Hs in Hex. intros Hrest.
      set (s1 := State (st_self s) w' _) in Hrest.
      destruct (IH true s1 b s' Hs) as (evs & Htr & Hev); [| exact Hrest |].
      { intros g i x Hg Hreg. cbn [st_world s1].
        assert (Hne : k <> g) by (intros <-; contradiction).
        destruct (Hapart k ki kx g i x Hkreg Hreg Hne) as [_ Hkeep].
        rewrite (Hkeep _ _ Hex).
        apply (Hw g i x); [apply elem_of_cons; auto | exact Hreg]. }
      unfold s1 in Htr. cbn [st_trace] in Htr. rewrite Hs in Htr.
      eexists. split; [rewrite Htr, <- app_assoc; reflexivity |].
      intros g i x Hreg. rewrite elem_of_app, !elem_of_cons, (Hev g i x Hreg).
      split.
      * intros [[H | [H | H]] | [Hg Hm]].
        -- discriminate H.
        -- destruct (decide (k = g)) as [<- | Hne].
           ++ unfold registered in Hreg. rewrite Hkreg in Hreg.
              injection Hreg as <- <-. auto.
           ++ destruct (Hapart k ki kx g i x Hkreg Hreg Hne) as [Hd _].
              exfalso. apply Hd. congruence.
        -- apply elem_of_nil in H. destruct H.
        -- auto.
      * intros [[-> | Hg] Hm].
        -- unfold registered in Hreg. rewrite Hkreg in Hreg.
           injection Hreg as <- <-. left. right. left. reflexivity.
        -- right. auto.
    + intros Hrest.
      destruct (IH changed s b s' Hs) as (evs & Htr & Hev); [| exact Hrest |].
      { intros g i x Hg Hreg.
        apply (Hw g i x); [apply elem_of_cons; auto | exact Hreg]. }
      exists evs. split; [exact Htr |].
      intros g i x Hreg. rewrite (Hev g i x Hreg), elem_of_cons.
      split; [intros [Hg Hm]; auto |].
      intros [[-> | Hg] Hm]; [| auto].
      unfold registered in Hreg. rewrite Hkreg in Hreg.
      injection Hreg as <- <-. rewrite Hmust in Hm. discriminate.
Qed.

Lemma makeindex_rule_ok (s : state) :
  makeindex_runs E gloss_files s
  = rebuild_each E gloss_files (map fst (glossaries (st_self s))) false s
  /\ (forall b s',
        makeindex_runs E gloss_files s = Ok b s' ->
        (b = true
         <-> index_calls (st_trace s) < index_calls (st_trace s'))
        /\ (NoDup (map fst (glossaries (st_self s))) ->
            outputs_apart E (st_self s) ->
            forall gloss ext_i ext_o,
              registered (st_self s) gloss ext_i ext_o ->
              (EvPopen (index_command (st_self s) ext_i ext_o)
               ∈ new_events s s'
               <-> must_rebuild (st_self s) (st_world s) gloss_files
                                gloss ext_i ext_o = true)))
  /\ (forall gloss ext_i ext_o,
        rebuild_as_stated (st_self s) (st_world s) gloss_files
                          gloss ext_i ext_o = true ->
        must_rebuild (st_self s) (st_world s) gloss_files
                     gloss ext_i ext_o = true)
  /\ (forall gloss ext_i ext_o,
        registered (st_self s) gloss ext_i ext_o ->
        is_file (st_world s) (fname_out (st_self s) ext_o) = false ->
        tool_starts E "makeindex" ->
        tool_keeps_absent E "makeindex" (fname_out (st_self s) ext_o) ->
        exists s',
          makeindex_runs E gloss_files s = Ok true s'
          /\ EvPopen (index_command (st_self s) ext_i ext_o) ∈ st_trace s').
Proof.
  assert (Heq : makeindex_runs E gloss_files s
                = rebuild_each E gloss_files
                    (map fst (glossaries (st_self s))) false s).
  { unfold makeindex_runs. rewrite bind_get_self. apply makeindex_loop_rule. }
  split; [exact Heq |]. split; [| split].
  - intros b s' H. split.
    + revert H. unfold makeindex_runs. rewrite bind_get_self. intros H.
      destruct (makeindex_loop_result _ _ _ _ _ _ _ H) as (_ & _ & Hiff).
      rewrite Hiff.
      split; [intros [? | ?]; [discriminate | assumption] | auto].
    + intros Hnd Hapart gloss ext_i ext_o Hreg. rewrite Heq in H.
      destruct (rebuild_each_events (st_self s) (st_world s) _ Hnd Hapart
                  false s b s' eq_refl (fun _ _ _ _ _ => eq_refl) H)
        as (evs & Htr & Hev).
      unfold new_events. rewrite Htr, drop_app_length.
      rewrite (Hev gloss ext_i ext_o Hreg).
      split; [intros [_ Hm]; exact Hm |].
      intros Hm. split; [| exact Hm].
      exact (dict_get_key _ _ _ Hreg).
  - intros gloss ext_i ext_o. unfold rebuild_as_stated, must_rebuild.
    intros H. apply orb_true_iff in H as [H | H]; [| rewrite H; apply orb_true_r].
    apply orb_true_iff in H as [H | H].
    + rewrite (reports_names _ _ H). reflexivity.
    + rewrite H, orb_true_r. reflexivity.
  - intros gloss ext_i ext_o Hg Habs Hstart Hkeep.
    unfold makeindex_runs. rewrite bind_get_self.
    pose proof (dict_get_key _ _ _ Hg) as Hin.
    apply list_elem_of_split in Hin as (pre & post & Hsplit).
    assert (Hall : forall k, k ∈ map fst (glossaries (st_self s)) ->
                             is_Some (dict_get k (glossaries (st_self s))))
      by (intros k; apply dict_get_in).
    rewrite Hsplit in Hall |- *. rewrite for_fold_app.
    destruct (makeindex_loop_total E gloss_files pre false s _ Hstart Hkeep)
      as (b1 & s1 & Hl1 & Hs1 & _ & _ & Hf1).
    { intros k Hk. apply Hall, elem_of_app. auto. }
    rewrite Hl1. cbn [for_fold]. rewrite bind_eq.
    rewrite (makeindex_one_eq E gloss_files _ gloss ext_i ext_o)
      by (rewrite Hs1; exact Hg).
    assert (Hneed : needs_rebuild (st_self s1) (st_world s1) gloss_files
                                  gloss ext_i ext_o = true).
    { unfold needs_rebuild. rewrite Hs1, (Hf1 Habs). cbn [negb].
      rewrite orb_true_r. reflexivity. }
    rewrite Hneed. unfold rebuild. rewrite Hs1.
    set (cmd := makeindex_cmd _ _ _).
    destruct (Hstart cmd (st_world s1) eq_refl) as [w' Hw]. rewrite Hw.
    set (s2 := State _ w' _).
    destruct (makeindex_loop_total E gloss_files post true s2 _ Hstart Hkeep)
      as (b3 & s3 & Hl3 & _ & Hb3 & Htr3 & _).
    { intros k Hk. apply Hall, elem_of_app. right.
      apply elem_of_cons. auto. }
    rewrite Hl3, (Hb3 eq_refl). exists s3. split; [reflexivity |].
    apply Htr3. unfold s2. cbn [st_trace]. rewrite elem_of_app. right.
    apply elem_of_cons. auto.
Qed.


End Rule.

(** ** Fatal conditions *)

Section Fatal.

Variable E : env.

Lemma bibtex_run_no_tool s :
  exec E ["bibtex"; project_name (st_self s)] (st_world s) = None ->
  bibtex_run E s
  = Raise (LatexMkError (NO_LATEX_ERROR "bibtex"))
          (add_events [EvLog INFO "Running bibtex...";
                       EvPopen ["bibtex"; project_name (st_self s)];
                       EvLog ERROR (NO_LATEX_ERROR "bibtex")] s).
Proof.
  intros H. unfold bibtex_run, add_events.
  cbv beta iota zeta delta
    [bind get_self log emit except_OSError popen get_world put_world raise
     _fatal_error st_self st_world st_trace].
  destruct s as [o w tr]. simpl in H. rewrite H.
  rewrite <- !app_assoc. reflexivity.
Qed.

Lemma parse_texlipse_missing s :
  is_file (st_world s) ".texlipse" = false ->
  is_file (sleep E (st_world s)) ".texlipse" = false ->
  _parse_texlipse_config E s
  = Raise (LatexMkError "! Fatal error: File .texlipse is missing.")
          (State (st_self s) (sleep E (st_world s))
                 (st_trace s
                  ++ [EvLog ERROR "! Fatal error: File .texlipse is missing."])).
Proof.
  intros H1 H2. unfold _parse_texlipse_config.
  rewrite bind_eq, isfile_eq, H1.
  rewrite bind_eq, bind_get_world, bind_eq. unfold put_world at 1.
  rewrite bind_eq, isfile_eq. cbn [st_world]. rewrite H2.
  reflexivity.
Qed.

Lemma parse_texlipse_unparsable s bytes t :
  w_files (st_world s) !! ".texlipse" = Some (File bytes t) ->
  search TEXLIPSE_MAIN_PATTERN (decode bytes) = None ->
  _parse_texlipse_config E s
  = Raise (LatexMkError "! Fatal error: Parsing .texlipse failed.")
          (add_events [EvLog ERROR "! Fatal error: Parsing .texlipse failed."]
                      s).
Proof.
  intros H1 H2. unfold _parse_texlipse_config.
  assert (Hf : is_file (st_world s) ".texlipse" = true)
    by (unfold is_file; rewrite H1; reflexivity).
  rewrite bind_eq, isfile_eq, Hf. rewrite bind_eq. unfold ret at 1.
  rewrite bind_eq, (read_ok _ _ _ _ H1), H2. reflexivity.
Qed.

(** [check_errors]: nothing without an error in the log; otherwise three
    lines in the log of the program and, with [exit_on_error], the
    exception. *)
Lemma check_errors_eq s :
  check_errors s
  = match findall3 ERROR_PATTTERN (out (st_self s)) with
    | [] => Ok tt s
    | _ =>
        if exit_on_error (opt (st_self s))
        then Raise (LatexMkError (error_message (st_self s)))
                   (add_events (error_report (st_self s)) s)
        else Ok tt (add_events (error_report (st_self s)) s)
    end.
Proof.
  unfold check_errors, add_events, error_report, error_message.
  rewrite bind_get_self. cbv zeta.
  destruct (findall3 ERROR_PATTTERN (out (st_self s))) as [| e es];
    [reflexivity |].
  cbv beta iota zeta delta
    [bind log emit when raise ret st_self st_world st_trace].
  destruct s as [o w tr].
  destruct (exit_on_error (opt o)); rewrite <- !app_assoc; reflexivity.
Qed.

Lemma exit_handler_eq s :
  exit_handler s = Raise (SystemExit 1) (add_events [exiting_notice] s).
Proof. reflexivity. Qed.

(** Without a file name, [main] looks for the one [.tex] file of the
    directory; with none or several it leaves through the argument
    parser. *)
Lemma main_discovery_fails args w :
  filename args = None ->
  length (tex_files w) <> 1 ->
  exists msg,
    main E args [] (start args w)
    = Raise (SystemExit 2) (State (blank args) w [EvUsage msg]).
Proof.
  intros Hf Hn. unfold main.
  rewrite bind_eq. simpl when. unfold ret at 1.
  rewrite Hf, bind_eq, bind_eq. unfold listdir.
  rewrite bind_get_world. unfold ret at 1. cbn [start st_world].
  fold (tex_files w).
  destruct (tex_files w) as [| f [| g fs]].
  - eexists. reflexivity.
  - simpl in Hn. destruct (Hn eq_refl).
  - eexists. reflexivity.
Qed.

Lemma main_resolved args f lv s :
  filename args = Some f ->
  notify args = false ->
  verbosity (quiet args) = Some lv ->
  main E args [] s
  = except_LatexMkError (init E f args ;; run E) exit_handler
      (add_events [EvSetLevel lv; EvLog DEBUG "arguments: "] s).
Proof.
  intros Hf Hn Hv. unfold main. rewrite Hf, Hn, Hv.
  rewrite bind_eq. simpl when. unfold ret at 1.
  rewrite bind_eq. unfold ret at 1.
  rewrite bind_eq. simpl when. unfold ret at 1.
  rewrite bind_eq. unfold emit at 1.
  rewrite bind_eq. unfold log at 1, emit at 1.
  unfold add_events. cbn [st_self st_world st_trace].
  rewrite <- app_assoc. reflexivity.
Qed.

(** C7, amended.  The fatal conditions the orchestrator meets raise
    [LatexMkError] with a message: a compiler, [bibtex] or [makeindex]
    that cannot be started, a project file [.texlipse] that is missing
    or does not name the main file, and errors in the compiler log when
    [exit_on_error] is set; without that flag the errors are logged and
    [check_errors] returns.  The handler of [main] takes [LatexMkError]
    and nothing else: it logs the notice and exits with status 1, and
    any other exception goes through.  A project name that cannot be
    found (no name given and none or several [.tex] files) is not among
    them: [main] leaves through the argument parser with status 2,
    before an orchestrator exists, without [LatexMkError] and without
    the notice. *)
Theorem fatal_conditions_raise_LatexMkError (s : state) :
  (exec E (latex_cmdline (st_self s)) (st_world s) = None ->
   exists s',
     latex_run E s
     = Raise (LatexMkError (NO_LATEX_ERROR (latex_cmd (st_self s)))) s')
  /\ (exec E ["bibtex"; project_name (st_self s)] (st_world s) = None ->
      exists s',
        bibtex_run E s = Raise (LatexMkError (NO_LATEX_ERROR "bibtex")) s')
  /\ (forall gf changed gloss ext_i ext_o,
        dict_get gloss (glossaries (st_self s)) = Some (ext_i, ext_o) ->
        needs_rebuild (st_self s) (st_world s) gf gloss ext_i ext_o = true ->
        exec E (makeindex_cmd (st_self s) (fname_in (st_self s) ext_i)
                              (fname_out (st_self s) ext_o))
             (st_world s) = None ->
        exists s',
          makeindex_one E gf changed gloss s
          = Raise (LatexMkError (NO_LATEX_ERROR "makeindex")) s')
  /\ (is_file (st_world s) ".texlipse" = false ->
      is_file (sleep E (st_world s)) ".texlipse" = false ->
      exists s',
        _parse_texlipse_config E s
        = Raise (LatexMkError "! Fatal error: File .texlipse is missing.")
                s')
  /\ (forall bytes t,
        w_files (st_world s) !! ".texlipse" = Some (File bytes t) ->
        search TEXLIPSE_MAIN_PATTERN (decode bytes) = None ->
        exists s',
          _parse_texlipse_config E s
          = Raise (LatexMkError "! Fatal error: Parsing .texlipse failed.")
                  s')
  /\ check_errors s
     = match findall3 ERROR_PATTTERN (out (st_self s)) with
       | [] => Ok tt s
       | _ =>
           if exit_on_error (opt (st_self s))
           then Raise (LatexMkError (error_message (st_self s)))
                      (add_events (error_report (st_self s)) s)
           else Ok tt (add_events (error_report (st_self s)) s)
       end
  /\ (forall c : M unit,
        except_LatexMkError c exit_handler s
        = match c s with
          | Raise (LatexMkError _) s' =>
              Raise (SystemExit 1) (add_events [exiting_notice] s')
          | r => r
          end)
  /\ (forall args f lv,
        filename args = Some f ->
        notify args = false ->
        verbosity (quiet args) = Some lv ->
        main E args [] s
        = except_LatexMkError (init E f args ;; run E) exit_handler
            (add_events [EvSetLevel lv; EvLog DEBUG "arguments: "] s))
  /\ (forall args w,
        filename args = None ->
        length (tex_files w) <> 1 ->
        exists msg,
          main E args [] (start args w)
          = Raise (SystemExit 2) (State (blank args) w [EvUsage msg])).
Proof.
  split.
  { intros H. rewrite latex_run_eq. cbv zeta. rewrite H. eexists.
    reflexivity. }
  split.
  { intros H. rewrite (bibtex_run_no_tool s H). eexists. reflexivity. }
  split.
  { intros gf changed gloss ext_i ext_o Hg Hn Hx.
    rewrite (makeindex_one_eq E gf _ _ _ _ _ Hg), Hn.
    unfold rebuild. rewrite Hx. eexists. reflexivity. }
  split.
  { intros H1 H2. rewrite (parse_texlipse_missing s H1 H2). eexists.
    reflexivity. }
  split.
  { intros bytes t H1 H2. rewrite (parse_texlipse_unparsable s _ _ H1 H2).
    eexists. reflexivity. }
  split; [apply check_errors_eq |].
  split.
  { intros c. unfold except_LatexMkError.
    destruct (c s) as [a s1 | [] s1]; reflexivity. }
  split; [intros args f lv; apply main_resolved |].
  intros args w. apply main_discovery_fails.
Qed.

End Fatal.

(** * The sample projects, run *)

Section Worked.

(** C1 on a compiler whose every log holds all four rerun triggers:
    the bound is met, and reached. *)
Lemma run_at_most_MAX_RUNS_witness :
  latex_run_counter (st_self s_paper) = 0
  /\ compiler_calls (st_trace (final (run E_restless s_paper)))
     <= compiler_calls (st_trace s_paper) + MAX_RUNS
  /\ latex_run_counter (st_self (final (run E_restless s_paper))) <= MAX_RUNS.
Proof.
  split; [reflexivity |].
  destruct (run_at_most_MAX_RUNS E_restless s_paper) as [H1 H2].
  split; [exact H1 | apply H2; reflexivity].
Defined.

Example restless_compiler_runs_four_times :
  compiler_calls (st_trace (final (run E_restless s_paper))) = 4
  /\ latex_run_counter (st_self (final (run E_restless s_paper))) = 4.
Proof. vm_compute. split; reflexivity. Qed.

Example extra_fuel_is_not_used :
  rerun_loop E_restless (MAX_RUNS + 3) s_paper
  = rerun_loop E_restless MAX_RUNS s_paper.
Proof. vm_compute. reflexivity. Qed.

(** C2: one marker to a line is counted as the marker. *)
Example one_marker_per_line :
  count_citations_text (text ["\citation{a}"; "\citation{b}"; "\citation{a}"])
  = {[ "a" := 2; "b" := 1 ]}.
Proof. vm_compute. reflexivity. Qed.

Lemma bib_case_refs bib saved :
  is_regular (Some bib) = true ->
  bib_case (s_refs bib saved) "refs" counter_refs.
Proof.
  intros Hb. destruct bib as [c t |]; [| discriminate].
  constructor.
  - exists aux_refs, 0%Z. split; vm_compute; reflexivity.
  - vm_compute. reflexivity.
  - vm_compute. reflexivity.
  - vm_compute. reflexivity.
Defined.



Example other_time_shows_the_change :
  exists s', _need_bib_run counter_refs
               (s_refs (File "aaaa" 5) (File "bbbb" 6))
             = Ok (Some true) s'.
Proof. eexists. vm_compute. reflexivity. Qed.

(** C4 at the failing input: a project whose table of contents
    exists. *)
Lemma toc_hash_raises_NameError_witness :
  is_file (st_world s_toc) (toc_name s_toc) = true
  /\ exists s1,
       run E_idle s_toc = Raise (NameError "hashlib") s1
       /\ st_trace s1 = st_trace s_toc.
Proof.
  split; [vm_compute; reflexivity |].
  destruct (toc_hash_raises_NameError E_idle s_toc) as (_ & _ & H).
  apply H. vm_compute. reflexivity.
Defined.

Lemma E_idle_starts tool : tool_starts E_idle tool.
Proof. intros cmd w _. exists w. reflexivity. Defined.

Lemma E_idle_keeps_absent tool f : tool_keeps_absent E_idle tool f.
Proof.
  intros cmd w w' _ H Hf. simpl in H. injection H as <-. exact Hf.
Defined.



(** C7 when no tool can be started. *)
Lemma fatal_conditions_raise_LatexMkError_witness :
  exec E_no_tools (latex_cmdline (st_self s_paper)) (st_world s_paper) = None
  /\ exists s',
       latex_run E_no_tools s_paper
       = Raise (LatexMkError (NO_LATEX_ERROR "pdflatex")) s'.
Proof.
  split; [reflexivity |].
  destruct (fatal_conditions_raise_LatexMkError E_no_tools s_paper)
    as (H & _).
  apply H. reflexivity.
Defined.

(** C7 as stated fails: with two source files and no name, [main] ends
    with status 2 and without the notice. *)
Lemma two_sources_exit_through_parser :
  ~ unresolvable_name_is_fatal E_idle options_default w_two_sources.
Proof.
  intros H. destruct H as (Hin & _).
  - reflexivity.
  - vm_compute. discriminate.
  - vm_compute in Hin. apply list_elem_of_singleton in Hin. discriminate.
Qed.

Example two_sources_exit_status :
  exit_status (main E_idle options_default [] (start options_default w_two_sources))
  = 2%Z.
Proof. vm_compute. reflexivity. Qed.

Example cleaned_directory :
  list_dir (st_world (final (run E_pdf s_clean)))
  = ["figures"; "paper.tex"; "paper.pdf"].
Proof. vm_compute. reflexivity. Qed.

(** C10 on a project without bibliography. *)
Lemma check_cite_without_bibdata_witness :
  check_cite (opt (st_self s_check_built)) = true
  /\ bib_file (st_self s_check_built) = EmptyString
  /\ is_file (st_world s_check_built) (aux_name s_check_built) = true
  /\ is_file (st_world s_check_built) ".bib" = false
  /\ run E_restless s_check = Raise (OSError ".bib") s_check_built.
Proof.
  assert (H1 : check_cite (opt (st_self s_check_built)) = true)
    by (vm_compute; reflexivity).
  assert (H2 : bib_file (st_self s_check_built) = EmptyString)
    by (vm_compute; reflexivity).
  assert (H3 : is_file (st_world s_check_built) (aux_name s_check_built)
               = true) by (vm_compute; reflexivity).
  assert (H4 : is_file (st_world s_check_built) ".bib" = false)
    by (vm_compute; reflexivity).
  repeat (split; [assumption |]).
  destruct (check_cite_without_bibdata E_restless s_check_built H1 H2 H3 H4)
    as (_ & _ & H & _).
  apply H. vm_compute. reflexivity.
Defined.

(** The glossaries of [s_three], one by one. *)
Lemma s_three_registered gloss ext_i ext_o :
  registered (st_self s_three) gloss ext_i ext_o ->
  (gloss, ext_i, ext_o) = ("main", "glo", "gls")
  \/ (gloss, ext_i, ext_o) = ("acronym", "acn", "acr")
  \/ (gloss, ext_i, ext_o) = ("symbols", "slo", "sls").
Proof.
  unfold registered. cbn [s_three st_self glossaries dict_get].
  destruct (String.eqb "main" gloss) eqn:H1.
  { apply String.eqb_eq in H1. subst. intros [= <- <-]. auto. }
  destruct (String.eqb "acronym" gloss) eqn:H2.
  { apply String.eqb_eq in H2. subst. intros [= <- <-]. auto. }
  destruct (String.eqb "symbols" gloss) eqn:H3.
  { apply String.eqb_eq in H3. subst. intros [= <- <-]. auto. }
  discriminate.
Qed.

Lemma s_three_apart : outputs_apart E_idle (st_self s_three).
Proof.
  intros g1 i1 o1 g2 i2 o2 H1 H2 Hne. split.
  - destruct (s_three_registered _ _ _ H1)
      as [[= -> -> ->] | [[= -> -> ->] | [= -> -> ->]]];
      destruct (s_three_registered _ _ _ H2)
        as [[= -> -> ->] | [[= -> -> ->] | [= -> -> ->]]];
      try (destruct (Hne eq_refl)); vm_compute; discriminate.
  - intros w w' [= <-]. reflexivity.
Qed.



(** C8 on a main file that refers to [ch1.aux], which exists, and to
    [ch2.aux], which does not. *)
Lemma generate_citation_counter_by_line_witness :
  w_files (st_world s_chapters) !! aux_name s_chapters
  = Some (File (text ["\@input{ch1.aux}"; "\@input{ch2.aux}";
                      "\citation{a}"]) 0)
  /\ references (text ["\@input{ch1.aux}"; "\@input{ch2.aux}";
                       "\citation{a}"])
     = ["ch1.aux"; "ch2.aux"]
  /\ exists m,
       generate_citation_counter s_chapters = Ok m s_chapters
       /\ m !! "ch1.aux" = Some {[ "b" := 2 ]}
       /\ m !! "ch2.aux" = None.
Proof.
  assert (H : w_files (st_world s_chapters) !! aux_name s_chapters
              = Some (File (text ["\@input{ch1.aux}"; "\@input{ch2.aux}";
                                  "\citation{a}"]) 0))
    by (vm_compute; reflexivity).
  assert (Hr : references (decode (text ["\@input{ch1.aux}";
                                         "\@input{ch2.aux}"; "\citation{a}"]))
               = ["ch1.aux"; "ch2.aux"])
    by (vm_compute; reflexivity).
  split; [exact H |]. split; [vm_compute; reflexivity |].
  destruct (generate_citation_counter_by_line s_chapters _ _ H)
    as (m & Hm & Hl).
  - vm_compute. reflexivity.
  - intros f. rewrite Hr. intros Hf.
    apply elem_of_cons in Hf as [-> | Hf]; [vm_compute; reflexivity |].
    apply elem_of_cons in Hf as [-> | Hf]; [vm_compute; reflexivity |].
    apply elem_of_nil in Hf. destruct Hf.
  - exists m. split; [exact Hm |]. split.
    + rewrite (Hl "ch1.aux"). vm_compute. reflexivity.
    + rewrite (Hl "ch2.aux"). vm_compute. reflexivity.
Defined.

(** C8 as the specification words it fails for two references on one
    line: both files can be read, and neither has an entry. *)
Lemma two_inputs_on_a_line : ~ references_as_stated s_two_inputs.
Proof.
  intros H.
  assert (Ha : w_files (st_world s_two_inputs) !! aux_name s_two_inputs
               = Some (File aux_two_inputs 0))
    by (vm_compute; reflexivity).
  destruct (generate_citation_counter_ok s_two_inputs _ _ Ha)
    as (m & Hm & Hl).
  assert (He : endswith "ch1.aux" ".aux" = true) by (vm_compute; reflexivity).
  assert (Hin : mentions (input_marker "ch1.aux") (decode aux_two_inputs)
                = true)
    by (vm_compute; reflexivity).
  specialize (H aux_two_inputs 0%Z m "ch1.aux" Ha Hm He Hin).
  rewrite (Hl "ch1.aux") in H.
  assert (Hs : (if bool_decide
                      ("ch1.aux" = aux_name s_two_inputs
                       \/ "ch1.aux" ∈ included (decode aux_two_inputs))
                then file_counter (st_world s_two_inputs) "ch1.aux"
                else None) = None)
    by (vm_compute; reflexivity).
  rewrite Hs in H.
  assert (Hf : file_counter (st_world s_two_inputs) "ch1.aux"
               = Some {[ "b" := 1 ]})
    by (vm_compute; reflexivity).
  rewrite Hf in H.
  discriminate H.
Qed.

(** C9 on a directory with a source file and a folder: the log and the
    auxiliary file of the build are deleted, the output, the source and
    the folder stay. *)
Lemma run_deletes_new_files_witness :
  clean (opt (st_self s_clean)) = true
  /\ run_build E_pdf s_clean = Ok tt s_clean_built
  /\ checked s_clean_built s_clean_built
  /\ list_dir (st_world s_clean_built)
     = ["figures"; "paper.aux"; "paper.log"; "paper.tex"; "paper.pdf"]
  /\ exists files',
       run E_pdf s_clean
       = Ok tt (State (st_self s_clean_built)
                      (World files' (w_time (st_world s_clean_built)))
                      (st_trace s_clean_built
                       ++ [compiled_notice (st_self s_clean_built)]))
       /\ files' !! "paper.aux" = None
       /\ files' !! "paper.log" = None
       /\ files' !! "paper.pdf" = Some (File "%PDF" 1)
       /\ files' !! "figures" = Some Dir
       /\ is_Some (files' !! "paper.tex").
Proof.
  assert (Hb : run_build E_pdf s_clean = Ok tt s_clean_built)
    by (vm_compute; reflexivity).
  assert (Hk : checked s_clean_built s_clean_built) by reflexivity.
  split; [reflexivity |]. split; [exact Hb |]. split; [exact Hk |].
  split; [vm_compute; reflexivity |].
  destruct (run_deletes_new_files E_pdf s_clean s_clean_built s_clean_built
              eq_refl Hb Hk) as (files' & Hf & _ & Hr).
  exists files'. split; [apply Hr; reflexivity |].
  rewrite !Hf. vm_compute. repeat split; eauto.
Defined.

End Worked.

(** * Further properties, method by method *)

Section Names.

Lemma substring_app_l a b : substring 0 (String.length a) (a +:+ b) = a.
Proof.
  induction a as [| c a IH]; simpl.
  - destruct b; reflexivity.
  - rewrite IH. reflexivity.
Qed.

Lemma substring_all b : substring 0 (String.length b) b = b.
Proof.
  induction b as [| d b IH]; simpl; [reflexivity |].
  rewrite IH. reflexivity.
Qed.

Lemma substring_app_r a b :
  substring (String.length a) (String.length b) (a +:+ b) = b.
Proof.
  induction a as [| c a IH]; simpl; [apply substring_all | exact IH].
Qed.

Lemma string_length_app a b :
  String.length (a +:+ b) = String.length a + String.length b.
Proof. induction a as [| c a IH]; simpl; [reflexivity | rewrite IH; reflexivity]. Qed.

Lemma endswith_app a b : endswith (a +:+ b) b = true.
Proof.
  unfold endswith. rewrite string_length_app.
  replace (String.length a + String.length b - String.length b)
    with (String.length a) by lia.
  rewrite substring_app_r, String.eqb_refl, andb_true_r.
  apply Nat.leb_le. lia.
Qed.

Lemma drop_last4_app a : drop_last4 (a +:+ ".tex") = a.
Proof.
  unfold drop_last4. rewrite string_length_app. simpl String.length.
  replace (String.length a + 4 - 4) with (String.length a) by lia.
  apply substring_app_l.
Qed.

End Names.

Section Init.

Variable E : env.

Lemma not_texlipse base : String.eqb (base +:+ ".tex") ".texlipse" = false.
Proof.
  destruct (String.eqb _ _) eqn:H; [| reflexivity].
  apply String.eqb_eq in H.
  pose proof (endswith_app base ".tex") as He. rewrite H in He.
  discriminate He.
Qed.

Lemma init_plain name o s :
  String.eqb name ".texlipse" = false ->
  init E name o s
  = Ok tt (State (Maker o
                    (if endswith name ".tex" then drop_last4 name else name)
                    (match command o with
                     | Some c =>
                         if nonempty c then c
                         else if pdf o then "pdflatex" else "latex"
                     | None => if pdf o then "pdflatex" else "latex"
                     end)
                    EmptyString [] 0 EmptyString (old_dir (st_self s)))
                 (st_world s) (st_trace s)).
Proof.
  intros H. unfold init. rewrite H.
  cbv beta iota zeta delta [bind update_self ret when st_self st_world st_trace].
  destruct (endswith name ".tex"); reflexivity.
Qed.

(** X1.  [__init__] takes one trailing [.tex] off the project name: a
    name given as [base.tex] yields the project [base], whatever [base]
    is (so [paper.tex.tex] yields [paper.tex]), and the files and the
    trace are left alone.  A name that is not [.texlipse] and has no
    such ending gives the same object with and without the ending. *)
Theorem init_tex_suffix_optional (base : string) (o : options) (s : state) :
  (exists s', init E (base +:+ ".tex") o s = Ok tt s'
              /\ project_name (st_self s') = base
              /\ st_world s' = st_world s /\ st_trace s' = st_trace s)
  /\ (base <> ".texlipse" ->
      endswith base ".tex" = false ->
      init E base o s = init E (base +:+ ".tex") o s).
Proof.
  rewrite (init_plain _ _ _ (not_texlipse base)).
  rewrite endswith_app, drop_last4_app. split.
  - eexists. split; [reflexivity |]. repeat split.
  - intros Hn He. apply String.eqb_neq in Hn.
    rewrite (init_plain _ _ _ Hn), He. reflexivity.
Qed.

End Init.

Section Texlipse.

Variable E : env.

(** X2.  When the project file [.texlipse] is missing at first and is
    there after the sleep, [_parse_texlipse_config] goes on as if it
    had been called after the sleep: nothing is logged for the first
    look and no error is raised for it. *)
Theorem texlipse_found_after_sleep (s : state) :
  is_file (st_world s) ".texlipse" = false ->
  is_file (sleep E (st_world s)) ".texlipse" = true ->
  _parse_texlipse_config E s
  = _parse_texlipse_config E
      (State (st_self s) (sleep E (st_world s)) (st_trace s)).
Proof.
  intros H1 H2. unfold _parse_texlipse_config.
  rewrite !bind_eq, !isfile_eq. cbn [st_world]. rewrite H1, H2.
  rewrite bind_eq, bind_get_world, bind_eq. unfold put_world at 1.
  rewrite bind_eq, isfile_eq. cbn [st_world st_self st_trace]. rewrite H2.
  reflexivity.
Qed.

End Texlipse.

Section Pass.

Variable E : env.

(** X10.  When the compiler can be started and leaves no log file,
    [latex_run] raises [OSError] for the log file after it has counted
    the pass; [out] keeps the text of the log before, and a handler for
    [LatexMkError] lets the exception through. *)
Theorem latex_run_without_log (s : state) (w' : world) :
  exec E (latex_cmdline (st_self s)) (st_world s) = Some w' ->
  is_file w' (project_name (st_self s) +:+ ".log") = false ->
  exists s',
    latex_run E s = Raise (OSError (project_name (st_self s) +:+ ".log")) s'
    /\ latex_run_counter (st_self s') = S (latex_run_counter (st_self s))
    /\ out (st_self s') = out (st_self s)
    /\ st_world s' = w'
    /\ forall h, except_LatexMkError (latex_run E) h s
                 = Raise (OSError (project_name (st_self s) +:+ ".log")) s'.
Proof.
  intros Hx Hl. rewrite latex_run_eq. cbv zeta. rewrite Hx.
  rewrite bind_eq, read_fail by exact Hl.
  eexists. split; [reflexivity |]. repeat split.
  intros h. unfold except_LatexMkError. rewrite latex_run_eq. cbv zeta.
  rewrite Hx, bind_eq, read_fail by exact Hl. reflexivity.
Qed.

(** X11.  When the compiler can be started and leaves a log file,
    [latex_run] ends, by return or by exception, with the text of that
    log in [out], the counter one higher and the files as the compiler
    left them; it returns exactly when the log shows no error or
    [exit_on_error] is off. *)
Theorem latex_run_publishes_log (s : state) (w' : world) (bytes : string)
    (t : Z) :
  exec E (latex_cmdline (st_self s)) (st_world s) = Some w' ->
  w_files w' !! (project_name (st_self s) +:+ ".log") = Some (File bytes t) ->
  out (st_self (final (latex_run E s))) = decode bytes
  /\ latex_run_counter (st_self (final (latex_run E s)))
     = S (latex_run_counter (st_self s))
  /\ st_world (final (latex_run E s)) = w'
  /\ ((exists s', latex_run E s = Ok tt s')
      <-> findall3 ERROR_PATTTERN (decode bytes) = []
          \/ exit_on_error (opt (st_self s)) = false).
Proof.
  intros Hx Hl.
  assert (Heq : latex_run E s
                = check_errors
                    (State (set_out (decode bytes)
                              (set_latex_run_counter
                                 (S (latex_run_counter (st_self s)))
                                 (st_self s)))
                           w'
                           ((st_trace s
                             ++ [EvLog INFO ("Running "
                                             +:+ latex_cmd (st_self s)
                                             +:+ "...")])
                            ++ [EvPopen (latex_cmdline (st_self s))]))).
  { rewrite latex_run_eq. cbv zeta. rewrite Hx.
    rewrite bind_eq, (read_ok _ _ bytes t) by exact Hl. reflexivity. }
  rewrite Heq, check_errors_eq.
  cbn [st_self st_world st_trace out opt set_out set_latex_run_counter].
  destruct (findall3 ERROR_PATTTERN (decode bytes)) as [| e es];
    [| destruct (exit_on_error (opt (st_self s)))];
    cbn [final add_events st_self st_world st_trace out latex_run_counter
         set_out set_latex_run_counter];
    (split; [reflexivity | split; [reflexivity | split; [reflexivity |]]]).
  - split; eauto.
  - split; [intros [? ?]; discriminate | intros [? | ?]; discriminate].
  - split; eauto.
Qed.

End Pass.

Section Bibtex.

Variable E : env.

Lemma saved_name_differs b : b +:+ ".bib.old" <> b +:+ ".bib".
Proof.
  intros H. apply (f_equal String.length) in H.
  rewrite !string_length_app in H. simpl in H. lia.
Qed.

(** X12.  When [bibtex] can be started and the bibliography is there
    afterwards (and the name of the saved copy is not taken by a
    directory), [bibtex_run] returns, leaves the object as it is and
    writes the bytes of [bib_file.bib] to [bib_file.bib.old]; right
    after, the comparison [_need_bib_run] makes between the two files
    finds them equal. *)
Theorem bibtex_run_saves_copy (s : state) (w' : world) (c : string) (t : Z) :
  exec E ["bibtex"; project_name (st_self s)] (st_world s) = Some w' ->
  w_files w' !! (bib_file (st_self s) +:+ ".bib") = Some (File c t) ->
  w_files w' !! (bib_file (st_self s) +:+ ".bib.old") <> Some Dir ->
  exists s',
    bibtex_run E s = Ok tt s'
    /\ st_self s' = st_self s
    /\ w_files (st_world s')
       = <[bib_file (st_self s) +:+ ".bib.old" := File c (w_time w')]>
           (w_files w')
    /\ filecmp_cmp (bib_file (st_self s) +:+ ".bib")
                   (bib_file (st_self s) +:+ ".bib.old") s'
       = Ok true s'.
Proof.
  destruct s as [o w tr]. cbn [st_self st_world st_trace].
  intros Hx Hb Hd.
  set (b := bib_file o) in *.
  pose proof (saved_name_differs b) as Hne.
  unfold bibtex_run.
  cbv beta iota zeta delta
    [bind get_self log emit except_OSError popen get_world put_world raise
     _fatal_error copy st_self st_world st_trace].
  rewrite Hx. cbn [w_files w_time]. fold b. rewrite Hb.
  destruct (w_files w' !! (b +:+ ".bib.old")) as [[c0 t0 |] |] eqn:Hold;
    [| destruct (Hd eq_refl) |].
  all: rewrite (proj2 (String.eqb_neq _ _) Hne), Hold.
  all: eexists; split; [reflexivity |].
  all: split; [reflexivity |]; split; [reflexivity |].
  all: unfold filecmp_cmp; rewrite bind_get_world;
    cbn [st_world w_files];
    rewrite lookup_insert_ne by exact Hne;
    rewrite Hb, lookup_insert_eq, Nat.eqb_refl; cbn [andb negb];
    destruct (t =? w_time w')%Z; [reflexivity |];
    rewrite String.eqb_refl; reflexivity.
Qed.

End Bibtex.

Section BibDecision.

(** [_need_bib_run], resolved, for an auxiliary file that can be read
    and names [b]. *)
Lemma need_bib_run_eq s bytes t b old :
  w_files (st_world s) !! aux_name s = Some (File bytes t) ->
  bibdata_of (decode bytes) = Some b ->
  exists m,
    generate_citation_counter (with_bib_file b s) = Ok m (with_bib_file b s)
    /\ (forall f,
          m !! f
          = if bool_decide (f = aux_name s \/ f ∈ included (decode bytes))
            then file_counter (st_world s) f
            else None)
    /\ _need_bib_run old s
       = if negb (is_file (st_world s) (b +:+ ".bib"))
         then Ok (Some false) (add_events [bib_warning] (with_bib_file b s))
         else if log_hints_bib (st_self s) || negb (bool_decide (old = m))
         then Ok (Some true) (with_bib_file b s)
         else
           if is_file (st_world s) (b +:+ ".bib.old")
           then
             match filecmp_cmp (b +:+ ".bib") (b +:+ ".bib.old")
                     (with_bib_file b s) with
             | Ok same s1 => Ok (if negb same then Some true else None) s1
             | Raise e s1 => Raise e s1
             end
           else Ok None (with_bib_file b s).
Proof.
  intros Haux Hb.
  destruct (generate_citation_counter_ok (with_bib_file b s) bytes t Haux)
    as (m & Hm & Hlook).
  exists m. split; [exact Hm |]. split; [exact Hlook |].
  unfold aux_name in Haux. unfold bibdata_of in Hb.
  unfold _need_bib_run.
  rewrite bind_get_self, bind_eq, (read_ok _ _ _ _ Haux).
  destruct (search BIB_PATTERN (decode bytes)) as [m0 |]; [| discriminate].
  injection Hb as Hb. rewrite Hb.
  rewrite bind_eq. unfold update_self at 1. fold (with_bib_file b s).
  rewrite bind_get_self, bind_eq, isfile_eq.
  change (bib_file (st_self (with_bib_file b s))) with b.
  change (st_world (with_bib_file b s)) with (st_world s).
  destruct (is_file (st_world s) (b +:+ ".bib")); cbn [negb];
    [| reflexivity].
  change (project_name (st_self (with_bib_file b s)))
    with (project_name (st_self s)).
  change (out (st_self (with_bib_file b s))) with (out (st_self s)).
  fold (log_hints_bib (st_self s)).
  destruct (log_hints_bib (st_self s)); cbn [orb]; [reflexivity |].
  rewrite bind_eq, Hm.
  destruct (negb (bool_decide (old = m))); [reflexivity |].
  rewrite bind_eq, isfile_eq.
  change (st_world (with_bib_file b s)) with (st_world s).
  destruct (is_file (st_world s) (b +:+ ".bib.old")); [| reflexivity].
  cbv zeta. rewrite bind_eq.
  destruct (filecmp_cmp _ _ _) as [same s1 | e s1]; [| reflexivity].
  destruct same; reflexivity.
Qed.

Lemma filecmp_cmp_state f1 f2 s b s' :
  filecmp_cmp f1 f2 s = Ok b s' -> s' = s.
Proof.
  unfold filecmp_cmp. rewrite bind_get_world.
  destruct (w_files (st_world s) !! f1) as [[c1 t1 |] |];
    destruct (w_files (st_world s) !! f2) as [[c2 t2 |] |];
    try discriminate; unfold ret;
    repeat (match goal with
            | |- context [if ?c then _ else _] => destruct c
            end);
    intros [= _ <-]; reflexivity.
Qed.

(** X5.  Whenever [_need_bib_run] asks for a bibliography pass, the
    auxiliary file names a bibliography, [bib_file] holds that name and
    the file [bib_file.bib] exists; the files and the trace are as
    before the call. *)
Theorem need_bib_run_true_has_database
    (old : gmap string (gmap string nat)) (s : state)
    (r : option bool) (s' : state) :
  _need_bib_run old s = Ok r s' ->
  truthy r = true ->
  is_file (st_world s') (bib_file (st_self s') +:+ ".bib") = true
  /\ st_world s' = st_world s
  /\ st_trace s' = st_trace s
  /\ exists bytes t,
       w_files (st_world s) !! aux_name s = Some (File bytes t)
       /\ bibdata_of (decode bytes) = Some (bib_file (st_self s')).
Proof.
  intros Hrun Htrue.
  destruct (is_file (st_world s) (aux_name s)) eqn:Haux.
  2:{ unfold _need_bib_run in Hrun.
      rewrite bind_get_self, bind_eq in Hrun.
      unfold aux_name in Haux. rewrite (read_fail _ _ Haux) in Hrun.
      discriminate. }
  apply is_file_true in Haux as (bytes & t & Haux).
  destruct (bibdata_of (decode bytes)) as [b |] eqn:Hb.
  2:{ unfold bibdata_of in Hb.
      destruct (search BIB_PATTERN (decode bytes)) eqn:Hs; [discriminate |].
      rewrite (need_bib_run_no_directive old s _ _ Haux Hs) in Hrun.
      injection Hrun as <- <-. discriminate. }
  destruct (need_bib_run_eq s bytes t b old Haux Hb) as (m & _ & _ & Heq).
  rewrite Heq in Hrun. clear Heq.
  assert (Hgoal : s' = with_bib_file b s ->
                  is_file (st_world s) (b +:+ ".bib") = true ->
                  is_file (st_world s') (bib_file (st_self s') +:+ ".bib")
                  = true
                  /\ st_world s' = st_world s
                  /\ st_trace s' = st_trace s
                  /\ exists bytes t,
                       w_files (st_world s) !! aux_name s
                       = Some (File bytes t)
                       /\ bibdata_of (decode bytes)
                          = Some (bib_file (st_self s'))).
  { intros -> Hf. cbn [with_bib_file st_self st_world st_trace bib_file
                       set_bib_file].
    split; [exact Hf |]. split; [reflexivity |]. split; [reflexivity |].
    exists bytes, t. auto. }
  destruct (is_file (st_world s) (b +:+ ".bib")) eqn:Hf; cbn [negb] in Hrun.
  2:{ injection Hrun as <- _. discriminate. }
  destruct (log_hints_bib (st_self s) || negb (bool_decide (old = m))).
  { injection Hrun as _ <-. apply Hgoal; reflexivity. }
  destruct (is_file (st_world s) (b +:+ ".bib.old")).
  2:{ injection Hrun as <- _. discriminate. }
  destruct (filecmp_cmp _ _ _) as [same s1 | e s1] eqn:Hcmp;
    [| discriminate].
  apply filecmp_cmp_state in Hcmp. subst s1.
  injection Hrun as _ <-. apply Hgoal; reflexivity.
Qed.

Lemma need_bib_run_hinted
    (old : gmap string (gmap string nat)) (s : state)
    (bytes : string) (t : Z) (b : string) :
  w_files (st_world s) !! aux_name s = Some (File bytes t) ->
  bibdata_of (decode bytes) = Some b ->
  log_hints_bib (st_self s) = true ->
  _need_bib_run old s
  = if is_file (st_world s) (b +:+ ".bib")
    then Ok (Some true) (with_bib_file b s)
    else Ok (Some false) (add_events [bib_warning] (with_bib_file b s)).
Proof.
  intros Haux Hb Hlog.
  destruct (need_bib_run_eq s bytes t b old Haux Hb) as (m & _ & _ & Heq).
  rewrite Heq, Hlog.
  destruct (is_file (st_world s) (b +:+ ".bib")); reflexivity.
Qed.

End BibDecision.

Section FirstBuild.

(** What [_read_latex_files] gives in a directory without files of an
    earlier build. *)
Lemma read_latex_files_nothing s :
  is_file (st_world s) (aux_name s) = false ->
  is_file (st_world s) (toc_name s) = false ->
  glossaries (st_self s) = [] ->
  _read_latex_files s
  = Ok (<[aux_name s := ∅]> ∅, EmptyString, ∅) s.
Proof.
  intros Haux Htoc Hg. unfold aux_name, toc_name in *.
  unfold _read_latex_files.
  rewrite bind_get_self. cbv zeta.
  rewrite bind_eq, isfile_eq, Haux.
  rewrite bind_eq. unfold ret at 1.
  rewrite bind_eq, isfile_eq, Htoc.
  rewrite bind_eq. unfold ret at 1.
  rewrite bind_get_self, Hg. reflexivity.
Qed.


End FirstBuild.

Section Preview.

Variable E : env.

(** X14.  On every platform but [darwin], [open_preview] returns
    whatever happens to the viewer, and leaves the object as it is: a
    viewer that cannot be started is logged.  On [darwin] the call of
    [open] is not guarded: when it cannot be started, [OSError] leaves
    [open_preview]. *)
Theorem open_preview_raises_only_on_darwin (s : state) :
  (platform E <> "darwin" ->
   exists s', open_preview E s = Ok tt s' /\ st_self s' = st_self s)
  /\ (platform E = "darwin" ->
      open_preview E s
      = match exec E ["open"; preview_name (st_self s)] (st_world s) with
        | Some w' =>
            Ok tt (State (st_self s) w'
                         (st_trace s
                          ++ [EvLog INFO "Opening preview...";
                              EvPopen ["open"; preview_name (st_self s)]]))
        | None =>
            Raise (OSError "open")
                  (add_events [EvLog INFO "Opening preview...";
                               EvPopen ["open"; preview_name (st_self s)]]
                              s)
        end).
Proof.
  destruct s as [o w tr]. unfold open_preview, preview_name, add_events.
  cbn [st_self st_world st_trace]. split.
  - intros Hp. apply String.eqb_neq in Hp. rewrite Hp.
    cbv beta iota zeta delta
      [bind get_self log emit except_OSError popen get_world put_world raise
       st_self st_world st_trace].
    destruct (String.eqb (platform E) "win32").
    + destruct (startfile E _ _); eexists; split; reflexivity.
    + destruct (exec E _ _); eexists; split; reflexivity.
  - intros Hp. rewrite Hp.
    cbv beta iota zeta delta
      [bind get_self log emit except_OSError popen get_world put_world raise
       st_self st_world st_trace].
    cbn [String.eqb Ascii.eqb Bool.eqb hd].
    destruct (exec E _ _); rewrite <- app_assoc; reflexivity.
Qed.

End Preview.

Section Loop.

Variable E : env.

Lemma rerun_loop_exit fuel s s' :
  MAX_RUNS <= latex_run_counter (st_self s) + fuel ->
  rerun_loop E fuel s = Ok tt s' ->
  MAX_RUNS <= latex_run_counter (st_self s')
  \/ need_latex_rerun (st_self s') = false.
Proof.
  revert s. induction fuel as [| fuel IH]; intros s Hf.
  - simpl. intros [= <-]. left. lia.
  - rewrite rerun_loop_eq.
    destruct (latex_run_counter (st_self s) <? MAX_RUNS)%nat eqn:Hlt.
    + destruct (need_latex_rerun (st_self s)) eqn:Hn; cbn [negb].
      * destruct (latex_run_spec E s) as (_ & _ & Hs).
        destruct (latex_run E s) as [[] s1 | e s1]; [| discriminate].
        apply IH. unfold counter in Hs. lia.
      * intros [= <-]. right. exact Hn.
    + intros [= <-]. left. apply Nat.ltb_ge in Hlt. exact Hlt.
Qed.

(** X17.  When the rerun loop of [run] returns, the counter is at
    [MAX_RUNS] or above, or the last log asks for no further pass.  The
    loop does nothing when the log asks for no pass at its start, or
    when the counter is spent at its start. *)
Theorem rerun_loop_stops_when_settled_or_spent (s s' : state) :
  rerun_loop E MAX_RUNS s = Ok tt s' ->
  (MAX_RUNS <= latex_run_counter (st_self s')
   \/ need_latex_rerun (st_self s') = false)
  /\ (need_latex_rerun (st_self s) = false -> s' = s)
  /\ (MAX_RUNS <= latex_run_counter (st_self s) -> s' = s).
Proof.
  intros H. split; [| split].
  - apply (rerun_loop_exit MAX_RUNS s s'); [lia | exact H].
  - intros Hn. unfold MAX_RUNS in H at 1. rewrite rerun_loop_eq, Hn in H.
    destruct (_ <? _)%nat; injection H as <-; reflexivity.
  - intros Hc. unfold MAX_RUNS in H at 1. rewrite rerun_loop_eq in H.
    apply Nat.ltb_ge in Hc. rewrite Hc in H. injection H as <-. reflexivity.
Qed.

End Loop.

Section UpToDate.

Variable E : env.


End UpToDate.

Section CleanTwice.

Variable E : env.

Lemma elem_of_list_dir w x :
  x ∈ list_dir w <-> has_slash x = false /\ is_Some (w_files w !! x).
Proof.
  unfold list_dir. rewrite list_elem_of_In, filter_In, <- list_elem_of_In.
  rewrite list_elem_of_fmap. split.
  - intros [([k v] & Hk & Hin) Hs]. cbn in Hk. subst k.
    apply elem_of_map_to_list in Hin.
    split; [destruct (has_slash x); [discriminate | reflexivity] | eauto].
  - intros [Hs [v Hv]]. split; [| rewrite Hs; reflexivity].
    exists (x, v). split; [reflexivity |]. apply elem_of_map_to_list.
    exact Hv.
Qed.

(** X22.  Cleaning up twice is cleaning up once: after a clean-up
    that returned, a second one deletes nothing. *)
Theorem clean_block_twice (s s' : state) :
  clean_block E s = Ok tt s' -> clean_block E s' = Ok tt s'.
Proof.
  destruct s as [o [fs t] tr]. unfold clean_block.
  rewrite bind_get_self. cbv zeta. rewrite bind_eq.
  unfold listdir. rewrite bind_get_world. unfold ret at 1.
  cbn [st_self st_world st_trace]. rewrite sweep_loop.
  intros [= <-].
  rewrite bind_get_self. cbv zeta. rewrite bind_eq.
  rewrite bind_get_world. unfold ret at 1.
  cbn [st_self st_world st_trace]. rewrite sweep_loop.
  set (fs' := fold_left (sweep_one E o) (list_dir (World fs t)) fs).
  f_equal. f_equal. f_equal.
  apply map_eq. intros x. rewrite sweep_lookup.
  destruct (bool_decide (x ∈ list_dir (World fs' t)) && negb (spared o x)
            && can_go E (fs' !! x) x) eqn:Hc; [| reflexivity].
  exfalso.
  apply andb_true_iff in Hc as [Hc Hgo].
  apply andb_true_iff in Hc as [Hin Hsp].
  apply bool_decide_eq_true in Hin. apply elem_of_list_dir in Hin as [Hsl _].
  unfold fs' in Hgo. rewrite sweep_lookup in Hgo.
  destruct (bool_decide (x ∈ list_dir (World fs t)) && negb (spared o x)
            && can_go E (fs !! x) x) eqn:Hc1; [discriminate Hgo |].
  assert (Hx : x ∈ list_dir (World fs t)).
  { apply elem_of_list_dir. split; [exact Hsl |]. cbn [w_files].
    unfold can_go, is_regular in Hgo.
    destruct (fs !! x); [eauto | discriminate Hgo]. }
  rewrite (bool_decide_eq_true_2 _ Hx), Hsp, Hgo in Hc1. discriminate Hc1.
Qed.

End CleanTwice.

Section Matching.

Lemma is_Some_orelse_l {A} (x y : option A) : is_Some x -> is_Some (orelse x y).
Proof. intros [a ->]. simpl. eauto. Qed.

Lemma is_Some_orelse_r {A} (x y : option A) : is_Some y -> is_Some (orelse x y).
Proof. intros Hy. destruct x; simpl; eauto. Qed.

Lemma match_at_Some r pos prev rest :
  is_Some (match_at r pos prev rest)
  <-> is_Some (mt r (MState pos prev rest []) Some).
Proof.
  unfold match_at. destruct (mt r _ Some); split; intros [? H]; eauto;
    discriminate.
Qed.

Lemma match_at_None r pos prev rest :
  mt r (MState pos prev rest []) Some = None ->
  match_at r pos prev rest = None.
Proof. unfold match_at. intros ->. reflexivity. Qed.

(** [finditer] finds nothing exactly when [search] finds nothing. *)
Lemma finditer_nil_search r pos prev rest :
  finditer_from r 0 pos prev rest = [] <-> search_from r pos prev rest = None.
Proof.
  revert pos prev. induction rest as [| c rest IH]; intros pos prev.
  - simpl. destruct (match_at r pos prev []); split; intros H;
      try discriminate; reflexivity.
  - rewrite finditer_from_0. simpl search_from.
    destruct (match_at r pos prev (c :: rest)).
    + split; intros H; discriminate.
    + apply IH.
Qed.

(** A match somewhere is enough for [search] to find one. *)
Lemma search_from_app r pos prev pre rest :
  is_Some (match_at r (pos + length pre) (prev_of prev pre) rest) ->
  is_Some (search_from r pos prev (pre ++ rest)).
Proof.
  revert pos prev. induction pre as [| c pre IH]; intros pos prev H.
  - simpl in H. rewrite Nat.add_0_r in H.
    destruct rest; simpl; destruct H as [m ->]; eauto.
  - cbn [app search_from].
    destruct (match_at r pos prev (c :: pre ++ rest)); [eauto |].
    apply IH. replace (S pos + length pre) with (pos + length (c :: pre))
      by (simpl; lia).
    exact H.
Qed.

Lemma prev_of_last prev pre :
  prev_of prev pre = match last pre with Some c => Some c | None => prev end.
Proof.
  revert prev. induction pre as [| c pre IH]; intros prev; [reflexivity |].
  cbn [prev_of]. rewrite IH. destruct pre as [| d pre]; [reflexivity |].
  rewrite (last_cons c). destruct (last (d :: pre)); reflexivity.
Qed.

Lemma ends_line_bol pre :
  ends_line pre = bol (prev_of None (list_ascii_of_string pre)).
Proof. unfold ends_line. rewrite prev_of_last. destruct (last _); reflexivity. Qed.

(** The greedy [.*] gives back as much as the continuation needs: if
    the continuation accepts some place of the line, the whole
    matches. *)
Lemma many_dot_some (k : kont) i pos prev caps rest :
  i <= length (line_of rest) ->
  is_Some (k (advance i (MState pos prev rest caps))) ->
  is_Some (many CDot pos prev caps rest k).
Proof.
  revert i pos prev. induction rest as [| c r IH]; intros i pos prev Hi Hk.
  - simpl in Hi. assert (i = 0) by lia. subst i. exact Hk.
  - simpl many. simpl in Hi.
    destruct (Ascii.eqb c newline) eqn:Hc; simpl in *.
    + assert (i = 0) by lia. subst i. exact Hk.
    + destruct i as [| j].
      * apply is_Some_orelse_r. exact Hk.
      * apply is_Some_orelse_l. apply (IH j); [lia |]. exact Hk.
Qed.

Lemma line_of_app x y :
  no_newline x = true -> line_of (x ++ y) = x ++ line_of y.
Proof.
  induction x as [| c x IH]; simpl; [reflexivity |].
  intros H. apply andb_true_iff in H as [Hc Hx].
  apply negb_true_iff in Hc. rewrite Hc, IH by exact Hx. reflexivity.
Qed.

Lemma is_prefix_app_l p q l :
  is_prefix (p ++ q) l = true -> is_prefix p l = true.
Proof.
  revert l. induction p as [| a p IH]; intros l; [reflexivity |].
  destruct l as [| b l]; simpl; [discriminate |].
  intros H. apply andb_true_iff in H as [Hab H].
  rewrite Hab. exact (IH _ H).
Qed.

Lemma is_prefix_self p l : is_prefix p (p ++ l) = true.
Proof.
  induction p as [| a p IH]; simpl; [reflexivity |].
  rewrite Ascii.eqb_refl. exact IH.
Qed.

Lemma advance_app p pos prev rest caps :
  m_rest (advance (length p) (MState pos prev (p ++ rest) caps)) = rest.
Proof. rewrite advance_rest. simpl. apply drop_app_length. Qed.

(** A literal in front of the text it spells. *)
Lemma mt_lit_self p st k rest :
  m_rest st = p ++ rest ->
  mt (lit_chars p) st k = k (advance (length p) st).
Proof.
  intros H. rewrite mt_lit_chars, H, is_prefix_self. reflexivity.
Qed.

(** A pattern made by formatting a text stands for that text, among
    others. *)
Lemma mt_compile_self p st k rest :
  m_rest st = p ++ rest ->
  mt (compile_chars p) st k = k (advance (length p) st).
Proof.
  revert st. induction p as [| a p IH]; intros [pos prev l caps] H;
    [reflexivity |].
  simpl in H. subst l. cbn [compile_chars mt m_rest].
  assert (Hm : cset_match (if Ascii.eqb a "."%char then CDot else CChr a) a
               = true).
  { destruct (Ascii.eqb a "."%char) eqn:Ha; simpl.
    - apply Ascii.eqb_eq in Ha. subst a. reflexivity.
    - apply Ascii.eqb_refl. }
  rewrite Hm. rewrite IH by reflexivity.
  reflexivity.
Qed.

Lemma list_ascii_app3 a b c :
  list_ascii_of_string (a +:+ b +:+ c)
  = list_ascii_of_string a ++ list_ascii_of_string b ++ list_ascii_of_string c.
Proof. rewrite !list_ascii_app. reflexivity. Qed.

(** [search] on a text cut in two. *)
Lemma search_cut r pre rest :
  is_Some (match_at r (length pre) (prev_of None pre) rest) ->
  is_Some (search_from r 0 None (pre ++ rest)).
Proof. intros H. apply search_from_app. exact H. Qed.

End Matching.

Section Rerun.

Lemma is_some_true {A} (x : option A) : is_Some x -> is_some x = true.
Proof. intros [a ->]. reflexivity. Qed.

Lemma many_dot_reach (k : kont) st x rest' :
  m_rest st = x ++ rest' ->
  no_newline x = true ->
  (forall st2, m_rest st2 = rest' -> is_Some (k st2)) ->
  is_Some (many CDot (m_pos st) (m_prev st) (m_caps st) (m_rest st) k).
Proof.
  intros Hr Hx Hk. apply (many_dot_some k (length x)).
  - rewrite Hr, line_of_app by exact Hx. rewrite length_app. lia.
  - apply Hk. rewrite advance_rest. cbn [m_rest]. rewrite Hr.
    apply drop_app_length.
Qed.

(** A text that holds [w] at some place is found by a pattern that
    matches at the head of [w ++ post]. *)
Lemma search_inside r pre w post :
  (forall pos prev,
     is_Some (mt r (MState pos prev (list_ascii_of_string w
                                     ++ list_ascii_of_string post) [])
                 Some)) ->
  is_some (search r (pre +:+ w +:+ post)) = true.
Proof.
  intros H. apply is_some_true. unfold search.
  rewrite list_ascii_app3. apply search_cut, match_at_Some, H.
Qed.

Lemma lit_inside w pre post : is_some (search (lit w) (pre +:+ w +:+ post)) = true.
Proof.
  apply search_inside. intros pos prev. unfold lit.
  rewrite (mt_lit_self _ _ _ (list_ascii_of_string post)) by reflexivity.
  eauto.
Qed.

Lemma dots_then_lit_inside a b x pre post :
  no_newline (list_ascii_of_string x) = true ->
  is_some (search (seqs [lit a; Many CDot; lit b])
                  (pre +:+ (a +:+ x +:+ b) +:+ post)) = true.
Proof.
  intros Hx. apply search_inside. intros pos prev.
  rewrite list_ascii_app3, <- !app_assoc.
  cbn [seqs fold_right mt]. unfold lit at 1.
  erewrite mt_lit_self by reflexivity.
  eapply many_dot_reach.
  - rewrite advance_rest. cbn [m_rest]. rewrite drop_app_length. reflexivity.
  - exact Hx.
  - intros st2 H2. unfold lit. erewrite mt_lit_self by exact H2.
    cbn [mt]. eauto.
Qed.

Lemma no_file_inside e x pre post :
  e = ".toc" \/ e = ".lof" ->
  no_newline (list_ascii_of_string x) = true ->
  is_some (search (seqs [lit "No file "; Many CDot;
                         Grp 1 (Alt (lit ".toc") (lit ".lof")); lit "."])
                  (pre +:+ ("No file " +:+ x +:+ (e +:+ ".")) +:+ post))
  = true.
Proof.
  intros He Hx. apply search_inside. intros pos prev.
  rewrite list_ascii_app3, list_ascii_app, <- !app_assoc.
  cbn [seqs fold_right mt]. unfold lit at 1.
  erewrite mt_lit_self by reflexivity.
  eapply many_dot_reach.
  - rewrite advance_rest. cbn [m_rest]. rewrite drop_app_length. reflexivity.
  - exact Hx.
  - intros st2 H2. unfold lit.
    destruct He as [-> | ->].
    + apply is_Some_orelse_l.
      erewrite mt_lit_self by exact H2.
      erewrite mt_lit_self; [cbn [mt]; eauto |].
      cbn [set_cap m_rest]. rewrite advance_rest, H2. reflexivity.
    + apply is_Some_orelse_r.
      erewrite mt_lit_self by exact H2.
      erewrite mt_lit_self; [cbn [mt]; eauto |].
      cbn [set_cap m_rest]. rewrite advance_rest, H2. reflexivity.
Qed.

(** X15.  A compiler log that holds one of the four notices (a
    reference that is undefined, undefined references, labels that may
    have changed, a missing [.toc] or [.lof] file) anywhere makes
    [need_latex_rerun] answer yes. *)
Theorem need_latex_rerun_on_notice (o : LatexMaker) (pre w post : string) :
  rerun_notice w ->
  out o = pre +:+ w +:+ post ->
  need_latex_rerun o = true.
Proof.
  intros Hw Hout. unfold need_latex_rerun, LATEX_RERUN_PATTERNS.
  rewrite Hout. cbn [existsb].
  destruct Hw as [x Hx | | | x Hx | x Hx].
  - rewrite (dots_then_lit_inside _ _ x pre post Hx). reflexivity.
  - rewrite lit_inside, orb_true_r. reflexivity.
  - rewrite (lit_inside "LaTeX Warning: Label(s) may have changed.").
    rewrite !orb_true_r. reflexivity.
  - pose proof (no_file_inside ".toc" x pre post (or_introl eq_refl) Hx)
      as H.
    change (".toc" +:+ ".") with ".toc." in H.
    rewrite H, !orb_true_r. reflexivity.
  - pose proof (no_file_inside ".lof" x pre post (or_intror eq_refl) Hx)
      as H.
    change (".lof" +:+ ".") with ".lof." in H.
    rewrite H, !orb_true_r. reflexivity.
Qed.

End Rerun.

Section Silent.

Lemma search_needs_prefix r p pos prev l :
  opens_with r p ->
  occurrences p l = 0 ->
  search_from r pos prev l = None.
Proof.
  intros Hr. revert pos prev. induction l as [| c l IH]; intros pos prev Ho.
  - simpl in *. destruct (is_prefix p []) eqn:Hp; [discriminate |].
    rewrite match_at_None; [reflexivity |]. apply Hr. exact Hp.
  - simpl in Ho. destruct (is_prefix p (c :: l)) eqn:Hp; [discriminate |].
    simpl search_from. rewrite match_at_None by (apply Hr; exact Hp).
    apply IH. exact Ho.
Qed.

Lemma search_not_mentioned r w text :
  opens_with r (list_ascii_of_string w) ->
  mentions w text = false ->
  is_some (search r text) = false.
Proof.
  intros Hr Hm. unfold mentions in Hm. apply negb_false_iff, Nat.eqb_eq in Hm.
  unfold search. rewrite (search_needs_prefix r _ 0 None _ Hr Hm).
  reflexivity.
Qed.

Lemma opens_with_lit p q : opens_with (lit_chars (p ++ q)) p.
Proof.
  intros st k H. rewrite mt_lit_chars.
  destruct (is_prefix (p ++ q) (m_rest st)) eqn:Hpq; [| reflexivity].
  apply is_prefix_app_l in Hpq. congruence.
Qed.

Lemma opens_with_seq p q r : opens_with (Seq (lit_chars (p ++ q)) r) p.
Proof. intros st k H. cbn [mt]. apply opens_with_lit. exact H. Qed.

Lemma no_notice_no_rerun (o : LatexMaker) :
  mentions "LaTeX Warning: " (out o) = false ->
  mentions "No file " (out o) = false ->
  need_latex_rerun o = false.
Proof.
  intros Hw Hf.
  unfold need_latex_rerun. apply not_true_is_false. intros Hex.
  apply existsb_exists in Hex as (r & Hr & Hs).
  assert (Hopen : opens_with r (list_ascii_of_string "LaTeX Warning: ")
                  \/ opens_with r (list_ascii_of_string "No file ")).
  { unfold LATEX_RERUN_PATTERNS in Hr.
    destruct Hr as [<- | [<- | [<- | [<- | []]]]].
    - left. exact (opens_with_seq (list_ascii_of_string "LaTeX Warning: ")
                     (list_ascii_of_string "Reference ") _).
    - left. exact (opens_with_lit (list_ascii_of_string "LaTeX Warning: ")
                     (list_ascii_of_string
                        "There were undefined references.")).
    - left. exact (opens_with_lit (list_ascii_of_string "LaTeX Warning: ")
                     (list_ascii_of_string "Label(s) may have changed.")).
    - right. exact (opens_with_seq (list_ascii_of_string "No file ") [] _). }
  destruct Hopen as [Ho | Ho].
  - rewrite (search_not_mentioned _ _ _ Ho Hw) in Hs. discriminate.
  - rewrite (search_not_mentioned _ _ _ Ho Hf) in Hs. discriminate.
Qed.

(** X16.  A compiler log that holds neither [LaTeX Warning: ] nor
    [No file ] makes [need_latex_rerun] answer no, and the rerun loop
    of [run] then starts no compiler pass and changes nothing. *)
Theorem need_latex_rerun_only_on_notice (E : env) (s : state) :
  mentions "LaTeX Warning: " (out (st_self s)) = false ->
  mentions "No file " (out (st_self s)) = false ->
  need_latex_rerun (st_self s) = false
  /\ forall fuel, rerun_loop E fuel s = Ok tt s.
Proof.
  intros Hw Hf.
  pose proof (no_notice_no_rerun _ Hw Hf) as Hn.
  split; [exact Hn |].
  intros [| fuel]; [reflexivity |].
  rewrite rerun_loop_eq, Hn. destruct (_ <? _)%nat; reflexivity.
Qed.

End Silent.

Section Errors.

Lemma drop_line l : drop (length (line_of l)) l = after_line l.
Proof.
  induction l as [| c l IH]; simpl; [reflexivity |].
  destruct (Ascii.eqb c newline); simpl; [reflexivity | exact IH].
Qed.

Lemma eol_after_line l : eol (after_line l) = true.
Proof.
  induction l as [| c l IH]; simpl; [reflexivity |].
  destruct (Ascii.eqb c newline) eqn:Hc; simpl; [exact Hc | exact IH].
Qed.

(** The greedy [.*] in front of [$]: it runs to the end of the line. *)
Lemma many_dot_to_eol (k : kont) st :
  (forall st2, eol (m_rest st2) = true -> is_Some (k st2)) ->
  is_Some (many CDot (m_pos st) (m_prev st) (m_caps st) (m_rest st) k).
Proof.
  intros Hk. apply (many_dot_some k (length (line_of (m_rest st))));
    [lia |].
  apply Hk. rewrite advance_rest. cbn [m_rest]. rewrite drop_line.
  apply eol_after_line.
Qed.

Lemma at_eol_eol st : at_eol st = eol (m_rest st).
Proof. reflexivity. Qed.

Lemma at_bol_bol st : at_bol st = bol (m_prev st).
Proof. reflexivity. Qed.

Lemma error_at_bang pos prev more :
  bol prev = true ->
  is_Some (mt ERROR_PATTTERN
              (MState pos prev (list_ascii_of_string "! " ++ more) []) Some).
Proof.
  intros Hb. unfold ERROR_PATTTERN. cbn [mt].
  apply is_Some_orelse_r, is_Some_orelse_l.
  cbn [seqs fold_right mt]. rewrite at_bol_bol. cbn [m_prev]. rewrite Hb.
  unfold lit. erewrite mt_lit_self by reflexivity.
  apply many_dot_to_eol. intros st2 H2.
  rewrite at_eol_eol. cbn [set_cap m_rest]. rewrite H2. eauto.
Qed.

Lemma error_at_no_pages pos prev more :
  is_Some (mt ERROR_PATTTERN
              (MState pos prev
                      (list_ascii_of_string "No pages of output." ++ more) [])
              Some).
Proof.
  unfold ERROR_PATTTERN. cbn [mt].
  apply is_Some_orelse_r, is_Some_orelse_r.
  cbn [seqs fold_right mt]. unfold lit.
  change (list_ascii_of_string "No pages of output." ++ more)
    with (list_ascii_of_string "No pages of output"
          ++ ("."%char :: more)).
  erewrite mt_lit_self by reflexivity.
  rewrite advance_rest. cbn [m_rest]. rewrite drop_app_length.
  cbn [cset_match Ascii.eqb Bool.eqb newline negb]. eauto.
Qed.

Lemma findall3_found r text :
  is_Some (search r text) -> findall3 r text <> [].
Proof.
  intros Hs Hf. unfold findall3 in Hf. apply map_eq_nil in Hf.
  unfold finditer in Hf. apply finditer_nil_search in Hf.
  unfold search in Hs. rewrite Hf in Hs. destruct Hs as [? Hs].
  discriminate.
Qed.

Lemma error_found (pre w more : string) :
  (w = "! " /\ ends_line pre = true) \/ w = "No pages of output." ->
  findall3 ERROR_PATTTERN (pre +:+ w +:+ more) <> [].
Proof.
  intros Hw. apply findall3_found. unfold search.
  rewrite list_ascii_app3. apply search_cut, match_at_Some.
  destruct Hw as [[-> Hl] | ->].
  - apply error_at_bang. rewrite <- ends_line_bol. exact Hl.
  - apply error_at_no_pages.
Qed.

(** X8.  When the compiler log has a line that opens with [! ], or
    holds the text [No pages of output.] anywhere, [check_errors] logs
    its three error lines and, with [exit_on_error], raises
    [LatexMkError] with the report; without the flag it returns. *)
Theorem check_errors_reports (s : state) (pre w more : string) :
  out (st_self s) = pre +:+ w +:+ more ->
  (w = "! " /\ ends_line pre = true) \/ w = "No pages of output." ->
  check_errors s
  = if exit_on_error (opt (st_self s))
    then Raise (LatexMkError (error_message (st_self s)))
               (add_events (error_report (st_self s)) s)
    else Ok tt (add_events (error_report (st_self s)) s).
Proof.
  intros Hout Hw. rewrite check_errors_eq.
  pose proof (error_found pre w more Hw) as Hf. rewrite <- Hout in Hf.
  destruct (findall3 ERROR_PATTTERN (out (st_self s))); [contradiction |].
  reflexivity.
Qed.

End Errors.

Section CleanLog.

Lemma tl_split_lines c l :
  tl (split_lines (c :: l))
  = if Ascii.eqb c newline then split_lines l else tl (split_lines l).
Proof.
  destruct (Ascii.eqb c newline) eqn:Hc.
  - simpl. rewrite Hc. reflexivity.
  - rewrite (split_lines_cons _ _ Hc). reflexivity.
Qed.

Lemma forallb_tl {A} (f : A -> bool) l :
  forallb f l = true -> forallb f (tl l) = true.
Proof.
  destruct l as [| a l]; simpl; [auto |].
  intros H. apply andb_true_iff in H as [_ H]. exact H.
Qed.

Lemma error_needs_hint pos prev l :
  (bol prev = true -> is_prefix bang l = false) ->
  is_prefix (list_ascii_of_string "No pages of output") l = false ->
  match_at ERROR_PATTTERN pos prev l = None.
Proof.
  intros Hb Hn. unfold bang in Hb. apply match_at_None.
  unfold ERROR_PATTTERN.
  cbn [mt seqs fold_right]. rewrite at_bol_bol. cbn [m_prev].
  unfold lit. rewrite !mt_lit_chars. cbn [m_rest]. rewrite Hn.
  destruct (bol prev); [rewrite (Hb eq_refl) |]; reflexivity.
Qed.

Lemma error_scan pos prev l :
  forallb (fun line => negb (is_prefix bang line))
          (if bol prev then split_lines l else tl (split_lines l)) = true ->
  occurrences (list_ascii_of_string "No pages of output") l = 0 ->
  search_from ERROR_PATTTERN pos prev l = None.
Proof.
  revert pos prev. induction l as [| c l IH]; intros pos prev Hl Ho.
  - simpl. rewrite error_needs_hint; [reflexivity | | reflexivity].
    intros _. reflexivity.
  - cbn [occurrences] in Ho.
    destruct (is_prefix (list_ascii_of_string "No pages of output") (c :: l))
      eqn:Hn; [discriminate |].
    cbn [search_from]. rewrite error_needs_hint; [| | exact Hn].
    + apply IH; [| exact Ho]. cbn [bol].
      assert (Htl : forallb (fun line => negb (is_prefix bang line))
                            (tl (split_lines (c :: l))) = true).
      { destruct (bol prev); [apply forallb_tl |]; exact Hl. }
      rewrite tl_split_lines in Htl. exact Htl.
    + intros Hb. rewrite Hb in Hl.
      rewrite (split_lines_eq (c :: l)) in Hl. cbn [forallb] in Hl.
      apply andb_true_iff in Hl as [Hl _]. apply negb_true_iff in Hl.
      rewrite is_prefix_line_gen in Hl by reflexivity. exact Hl.
Qed.

Lemma error_free (text : string) :
  no_bang_line text = true ->
  mentions "No pages of output" text = false ->
  findall3 ERROR_PATTTERN text = [].
Proof.
  intros Hb Hm.
  unfold mentions in Hm. apply negb_false_iff, Nat.eqb_eq in Hm.
  unfold findall3, finditer.
  rewrite (proj2 (finditer_nil_search _ _ _ _)); [reflexivity |].
  apply error_scan; [exact Hb | exact Hm].
Qed.

(** X9.  When no line of the compiler log opens with [! ] and the log
    does not hold [No pages of output], [check_errors] returns without
    logging and without changing anything. *)
Theorem check_errors_passes_clean_log (s : state) :
  no_bang_line (out (st_self s)) = true ->
  mentions "No pages of output" (out (st_self s)) = false ->
  check_errors s = Ok tt s.
Proof.
  intros Hb Hm. rewrite check_errors_eq, (error_free _ Hb Hm). reflexivity.
Qed.

End CleanLog.

Section Anchored.

(** A literal followed by the end of the line: the line is the
    literal. *)
Lemma literal_line q l :
  no_newline q = true ->
  is_prefix q l && eol (drop (length q) l) = true <-> line_of l = q.
Proof.
  revert l. induction q as [| a q IH]; intros l Hq.
  - simpl. destruct l as [| c l]; simpl; [tauto |].
    destruct (Ascii.eqb c newline); split; intros H; try discriminate;
      reflexivity.
  - simpl in Hq. apply andb_true_iff in Hq as [Ha Hq].
    apply negb_true_iff in Ha.
    destruct l as [| b l]; simpl; [split; intros H; discriminate |].
    destruct (Ascii.eqb a b) eqn:Hab.
    + apply Ascii.eqb_eq in Hab. subst b. rewrite Ha. simpl.
      rewrite (IH l Hq). split; [intros ->; reflexivity | intros [= H]; exact H].
    + simpl. split; [discriminate |].
      destruct (Ascii.eqb b newline); [discriminate |].
      intros [= -> _]. rewrite Ascii.eqb_refl in Hab. discriminate.
Qed.

Lemma suffix_drop (q l : list ascii) :
  q `suffix_of` l -> drop (length l - length q) l = q.
Proof.
  intros [k ->]. rewrite length_app.
  replace (length k + length q - length q) with (length k) by lia.
  apply drop_app_length.
Qed.

(** The greedy [.*] in front of a continuation that wants the line to
    end with [q]: it runs to the end of the line and comes back to the
    place where [q] begins. *)
Lemma many_dot_suffix (k : kont) q pos prev caps rest :
  (forall st, line_of (m_rest st) <> q -> k st = None) ->
  (forall st, line_of (m_rest st) = q -> is_Some (k st)) ->
  many CDot pos prev caps rest k
  = if bool_decide (q `suffix_of` line_of rest)
    then k (advance (length (line_of rest) - length q)
                    (MState pos prev rest caps))
    else None.
Proof.
  intros Hfail Hok. revert pos prev.
  assert (Hstop : forall pos prev rest,
            line_of rest = [] ->
            k (MState pos prev rest caps)
            = if bool_decide (q `suffix_of` [])
              then k (advance (0 - length q) (MState pos prev rest caps))
              else None).
  { intros pos prev l Hl. simpl.
    destruct (decide (q `suffix_of` [])) as [Hs | Hs].
    - rewrite bool_decide_eq_true_2 by exact Hs. reflexivity.
    - rewrite bool_decide_eq_false_2 by exact Hs.
      apply Hfail. cbn [m_rest]. rewrite Hl. intros <-. apply Hs.
      reflexivity. }
  induction rest as [| c r IH]; intros pos prev.
  - simpl many. simpl line_of. apply Hstop. reflexivity.
  - simpl many. simpl line_of.
    destruct (Ascii.eqb c newline) eqn:Hc; simpl negb; cbv iota.
    + apply Hstop. simpl. rewrite Hc. reflexivity.
    + rewrite IH.
      destruct (decide (q `suffix_of` line_of r)) as [Hs | Hs].
      * rewrite bool_decide_eq_true_2 by exact Hs.
        rewrite bool_decide_eq_true_2 by (apply suffix_cons_r; exact Hs).
        pose proof (suffix_length _ _ Hs) as Hlen.
        cbn [length].
        replace (S (length (line_of r)) - length q)
          with (S (length (line_of r) - length q)) by lia.
        rewrite advance_S.
        destruct (Hok (advance (length (line_of r) - length q)
                               (MState (S pos) (Some c) r caps)))
          as [st' Hst'].
        { rewrite advance_rest. cbn [m_rest].
          rewrite line_of_drop by lia. apply suffix_drop. exact Hs. }
        rewrite Hst'. reflexivity.
      * rewrite bool_decide_eq_false_2 by exact Hs. cbn [orelse].
        destruct (decide (q = c :: line_of r)) as [Hq | Hq].
        -- rewrite bool_decide_eq_true_2 by (rewrite Hq; reflexivity).
           rewrite Hq. cbn [length]. rewrite Nat.sub_diag. reflexivity.
        -- rewrite bool_decide_eq_false_2.
           ++ apply Hfail. cbn [m_rest line_of]. rewrite Hc. congruence.
           ++ intros H. destruct q as [| a q].
              ** apply Hs, suffix_nil.
              ** apply suffix_cons_inv in H as [H | H]; auto.
Qed.

End Anchored.

Section ProjectFile.

Lemma set_cap_rest n a b : m_rest (set_cap n a b) = m_rest b.
Proof. reflexivity. Qed.

Lemma texlipse_match_at pos prev rest :
  option_map (fun m => group_str m 1)
             (match_at TEXLIPSE_MAIN_PATTERN pos prev rest)
  = if bol prev then main_of_line (line_of rest) else None.
Proof.
  unfold match_at, TEXLIPSE_MAIN_PATTERN. cbn [seqs fold_right mt].
  rewrite at_bol_bol. cbn [m_prev].
  destruct (bol prev); [| reflexivity].
  unfold lit. rewrite mt_lit_chars. cbn [m_rest].
  unfold main_of_line. fold main_open.
  rewrite (is_prefix_line_gen main_open rest) by reflexivity.
  destruct (is_prefix main_open rest) eqn:Hp; [| reflexivity].
  cbn [andb].
  assert (Hlen : length main_open <= length (line_of rest)).
  { apply is_prefix_length. rewrite is_prefix_line_gen by reflexivity.
    exact Hp. }
  rewrite <- line_of_drop by exact Hlen.
  set (st0 := MState pos prev rest []).
  assert (Hrest : m_rest (advance (length main_open) st0)
                  = drop (length main_open) rest)
    by (rewrite advance_rest; reflexivity).
  assert (Hcaps : m_caps (advance (length main_open) st0) = [])
    by (rewrite advance_caps; reflexivity).
  destruct (advance (length main_open) st0) as [pos1 prev1 rest1 caps1].
  cbn [m_rest m_caps m_pos m_prev] in *. subst rest1 caps1.
  set (rest1 := drop (length main_open) rest).
  set (st1 := MState pos1 prev1 rest1 []).
  rewrite (many_dot_suffix _ tex_ext).
  - destruct (bool_decide (tex_ext `suffix_of` line_of rest1)) eqn:Hs;
      [| reflexivity].
    apply bool_decide_eq_true in Hs.
    pose proof (suffix_length _ _ Hs) as Hlen1.
    set (j := length (line_of rest1) - length tex_ext).
    assert (Hjl : j <= length (line_of rest1)) by (unfold j; lia).
    assert (Hj : j <= length rest1).
    { pose proof (f_equal length (line_after rest1)) as Hla.
      rewrite length_app in Hla. lia. }
    assert (Hline : line_of (m_rest (advance j st1)) = tex_ext).
    { rewrite advance_rest. cbn [m_rest].
      rewrite line_of_drop by exact Hjl. apply suffix_drop. exact Hs. }
    apply (literal_line tex_ext) in Hline; [| reflexivity].
    apply andb_true_iff in Hline as [Hpre Heol].
    unfold lit. rewrite mt_lit_chars. cbn [set_cap m_rest].
    change (list_ascii_of_string ".tex") with tex_ext. fold st1.
    rewrite Hpre, at_eol_eol, advance_rest, set_cap_rest, Heol.
    cbn [option_map]. unfold group_str, group. cbn [r_caps].
    rewrite advance_caps. unfold set_cap.
    cbn [m_caps cap_lookup Nat.eqb option_map].
    rewrite advance_pos by exact Hj. cbn [m_pos m_rest st1].
    replace (pos1 + j - pos1) with j by lia.
    f_equal. f_equal.
    rewrite <- (line_after rest1) at 1.
    rewrite take_app_le by exact Hjl. reflexivity.
  - intros st Hne. unfold lit. rewrite mt_lit_chars. cbn [set_cap m_rest].
    change (list_ascii_of_string ".tex") with tex_ext.
    destruct (is_prefix tex_ext (m_rest st)) eqn:Hpre; [| reflexivity].
    rewrite at_eol_eol, advance_rest, set_cap_rest.
    destruct (eol (drop (length tex_ext) (m_rest st))) eqn:Heol;
      [| reflexivity].
    exfalso. apply Hne. apply (literal_line tex_ext); [reflexivity |].
    rewrite Hpre, Heol. reflexivity.
  - intros st Hline.
    apply (literal_line tex_ext) in Hline; [| reflexivity].
    apply andb_true_iff in Hline as [Hpre Heol].
    unfold lit. rewrite mt_lit_chars. cbn [set_cap m_rest].
    change (list_ascii_of_string ".tex") with tex_ext.
    rewrite Hpre, at_eol_eol, advance_rest, set_cap_rest, Heol. eauto.
Qed.

(** [search] with a pattern anchored at line starts goes line by line:
    the first line that gives something decides. *)
Lemma omap_cons_eq {A B} (h : A -> option B) a l :
  omap h (a :: l)
  = match h a with Some y => y :: omap h l | None => omap h l end.
Proof. reflexivity. Qed.

Lemma search_by_line {X} (r : re) (f : rmatch -> X)
    (h : list ascii -> option X) pos prev l :
  (forall pos prev rest,
     option_map f (match_at r pos prev rest)
     = if bol prev then h (line_of rest) else None) ->
  option_map f (search_from r pos prev l)
  = head (omap h (if bol prev then split_lines l else tl (split_lines l))).
Proof.
  intros Hr. revert pos prev. induction l as [| c l IH]; intros pos prev.
  - cbn [search_from]. specialize (Hr pos prev []).
    destruct (match_at r pos prev []) as [m |]; cbn [option_map] in *;
      rewrite Hr; destruct (bol prev); try reflexivity;
      cbn [split_lines line_of]; rewrite omap_cons_eq;
      destruct (h []); reflexivity.
  - cbn [search_from]. specialize (Hr pos prev (c :: l)).
    assert (Htl : head (omap h (tl (split_lines (c :: l))))
                  = option_map f (search_from r (S pos) (Some c) l)).
    { rewrite IH, tl_split_lines. cbn [bol].
      destruct (Ascii.eqb c newline); reflexivity. }
    destruct (match_at r pos prev (c :: l)) as [m |]; cbn [option_map] in *.
    + destruct (bol prev); [| discriminate].
      rewrite (split_lines_eq (c :: l)), omap_cons_eq, <- Hr.
      reflexivity.
    + rewrite <- Htl. destruct (bol prev); [| reflexivity].
      rewrite (split_lines_eq (c :: l)), omap_cons_eq, <- Hr.
      reflexivity.
Qed.

Lemma texlipse_search content :
  option_map (fun m => group_str m 1) (search TEXLIPSE_MAIN_PATTERN content)
  = main_of content.
Proof.
  unfold search, main_of.
  rewrite (search_by_line _ _ main_of_line); [reflexivity |].
  apply texlipse_match_at.
Qed.

Variable E : env.

(** X3.  With a project file that can be read,
    [_parse_texlipse_config] returns the name given by the first line
    that opens with [mainTexFile=] and ends with [.tex], which is what
    stands between the two, and logs where it found it; when no line
    has this form it logs the failure and raises [LatexMkError]. *)
Theorem parse_texlipse_reads_first_main_line (s : state) (bytes : string)
    (t : Z) :
  w_files (st_world s) !! ".texlipse" = Some (File bytes t) ->
  _parse_texlipse_config E s
  = match main_of (decode bytes) with
    | Some name => Ok name (add_events [found_notice name] s)
    | None =>
        Raise (LatexMkError "! Fatal error: Parsing .texlipse failed.")
              (add_events
                 [EvLog ERROR "! Fatal error: Parsing .texlipse failed."] s)
    end.
Proof.
  intros Hf. rewrite <- texlipse_search.
  destruct (search TEXLIPSE_MAIN_PATTERN (decode bytes)) as [m |] eqn:Hs.
  - unfold _parse_texlipse_config.
    assert (Hx : is_file (st_world s) ".texlipse" = true)
      by (unfold is_file; rewrite Hf; reflexivity).
    rewrite bind_eq, isfile_eq, Hx. rewrite bind_eq. unfold ret at 1.
    rewrite bind_eq, (read_ok _ _ _ _ Hf), Hs. reflexivity.
  - exact (parse_texlipse_unparsable E s bytes t Hf Hs).
Qed.

End ProjectFile.

Section BibNotice.

Lemma compile_inside w pre post :
  is_some (search (compile w) (pre +:+ w +:+ post)) = true.
Proof.
  apply search_inside. intros pos prev. unfold compile.
  erewrite mt_compile_self by reflexivity. eauto.
Qed.

Lemma log_hints_bib_on_notice o pre w post :
  bib_notice (project_name o) w ->
  out o = pre +:+ w +:+ post ->
  log_hints_bib o = true.
Proof.
  intros Hw Hout. unfold log_hints_bib. rewrite Hout.
  destruct Hw as [| x Hx].
  - rewrite compile_inside. reflexivity.
  - unfold CITATION_UNDEFINED.
    rewrite (dots_then_lit_inside _ _ x pre post Hx), orb_true_r.
    reflexivity.
Qed.

End BibNotice.

Section BibNoticePlain.

(** X6.  For a project whose name holds no character special to [re]
    and an auxiliary file in ASCII: when the auxiliary file names the
    bibliography [b] and the compiler log holds [No file NAME.bbl.] for
    the project NAME, or an undefined-citation warning, [_need_bib_run]
    asks for a bibliography pass if [b.bib] exists, whatever the
    snapshot and the saved copy are; if [b.bib] does not exist it logs
    a warning and asks for none.  In both cases [bib_file] is set to
    [b]. *)
Theorem need_bib_run_follows_log_notice
    (old : gmap string (gmap string nat)) (s : state)
    (bytes : string) (t : Z) (b pre w post : string) :
  plain_name (project_name (st_self s)) = true ->
  w_files (st_world s) !! aux_name s = Some (File bytes t) ->
  ascii_text bytes = true ->
  bibdata_of (decode bytes) = Some b ->
  bib_notice (project_name (st_self s)) w ->
  out (st_self s) = pre +:+ w +:+ post ->
  _need_bib_run old s
  = if is_file (st_world s) (b +:+ ".bib")
    then Ok (Some true) (with_bib_file b s)
    else Ok (Some false) (add_events [bib_warning] (with_bib_file b s)).
Proof.
  intros _ Haux _ Hb Hw Hout.
  apply (need_bib_run_hinted old s bytes t b Haux Hb).
  exact (log_hints_bib_on_notice _ pre w post Hw Hout).
Qed.

End BibNoticePlain.

Section Throws.

Lemma throws_weaken {A} (c : M A) (P Q : exn -> Prop) :
  (forall e, P e -> Q e) -> throws c P -> throws c Q.
Proof. intros H Hc s e s' Hr. exact (H _ (Hc _ _ _ Hr)). Qed.

Lemma throws_ret {A} (a : A) P : throws (ret a) P.
Proof. intros s e s' H. discriminate. Qed.

Lemma throws_raise {A} e (P : exn -> Prop) : P e -> throws (@raise A e) P.
Proof. intros H s e' s' [= <- _]. exact H. Qed.

Lemma throws_bind {A B} (c : M A) (f : A -> M B) P :
  throws c P -> (forall a, throws (f a) P) -> throws (bind c f) P.
Proof.
  intros Hc Hf s e s'. rewrite bind_eq.
  destruct (c s) as [a s1 | e1 s1] eqn:H1.
  - apply Hf.
  - intros [= <- _]. exact (Hc _ _ _ H1).
Qed.

Lemma throws_get_self P : throws get_self P.
Proof. intros s e s' H. discriminate. Qed.

Lemma throws_get_world P : throws get_world P.
Proof. intros s e s' H. discriminate. Qed.

Lemma throws_put_world w P : throws (put_world w) P.
Proof. intros s e s' H. discriminate. Qed.

Lemma throws_update_self f P : throws (update_self f) P.
Proof. intros s e s' H. discriminate. Qed.

Lemma throws_emit ev P : throws (emit ev) P.
Proof. intros s e s' H. discriminate. Qed.

Lemma throws_log lv msg P : throws (log lv msg) P.
Proof. intros s e s' H. discriminate. Qed.

Lemma throws_when b c P : throws c P -> throws (when b c) P.
Proof. intros H. destruct b; [exact H | apply throws_ret]. Qed.

Lemma throws_for_each {A} (l : list A) body P :
  (forall x, throws (body x) P) -> throws (for_each l body) P.
Proof.
  intros H. induction l as [| x l IH]; [apply throws_ret |].
  cbn [for_each]. apply throws_bind; [apply H | intros _; exact IH].
Qed.

Lemma throws_for_fold {A B} (l : list A) (acc : B) body P :
  (forall acc x, x ∈ l -> throws (body acc x) P) ->
  throws (for_fold l acc body) P.
Proof.
  revert acc. induction l as [| x l IH]; intros acc H; [apply throws_ret |].
  cbn [for_fold]. apply throws_bind.
  - apply H, elem_of_cons. auto.
  - intros acc'. apply IH. intros a y Hy. apply H, elem_of_cons. auto.
Qed.

(** A handler for [OSError] takes that class away. *)
Lemma throws_except_OSError {A} (c : M A) h (P : exn -> Prop) :
  throws c (fun e => is_OSError e \/ P e) ->
  (forall w, throws (h w) P) ->
  throws (except_OSError c h) P.
Proof.
  intros Hc Hh s e s'. unfold except_OSError.
  destruct (c s) as [a s1 | e1 s1] eqn:H1; [discriminate |].
  destruct e1; try (intros [= <- _];
    destruct (Hc _ _ _ H1) as [[f Hf] | Hp]; [discriminate | exact Hp]).
  apply Hh.
Qed.

Lemma throws_isfile path P : throws (isfile path) P.
Proof. intros s e s' H. discriminate. Qed.

Lemma throws_listdir P : throws listdir P.
Proof. intros s e s' H. discriminate. Qed.

Lemma throws_read path : throws (read path) is_OSError.
Proof.
  intros s e s'. unfold read. rewrite bind_get_world.
  destruct (w_files (st_world s) !! path) as [[c t |] |];
    try discriminate; intros [= <- _]; eexists; reflexivity.
Qed.

Lemma throws_open_rb path : throws (open_rb path) is_OSError.
Proof.
  intros s e s'. unfold open_rb. rewrite bind_get_world.
  destruct (w_files (st_world s) !! path) as [[c t |] |];
    try discriminate; intros [= <- _]; eexists; reflexivity.
Qed.

Lemma throws_copy src dst : throws (copy src dst) is_OSError.
Proof.
  intros s e s'. unfold copy. rewrite bind_get_world.
  destruct (w_files (st_world s) !! src) as [[c t |] |];
    try (intros [= <- _]; eexists; reflexivity).
  destruct (String.eqb _ src); [intros [= <- _]; eexists; reflexivity |].
  destruct (w_files (st_world s) !! _) as [[c' t' |] |]; try discriminate.
  intros [= <- _]; eexists; reflexivity.
Qed.

Lemma throws_filecmp_cmp f1 f2 : throws (filecmp_cmp f1 f2) is_OSError.
Proof.
  intros s e s' H.
  destruct (filecmp_cmp f1 f2 s) as [b s1 | e1 s1] eqn:Hc; [discriminate |].
  injection H as <- _. unfold filecmp_cmp in Hc.
  rewrite bind_get_world in Hc.
  destruct (w_files (st_world s) !! f1) as [[c1 t1 |] |];
    destruct (w_files (st_world s) !! f2) as [[c2 t2 |] |];
    unfold ret, raise in Hc;
    repeat (match type of Hc with
            | context [if ?c then _ else _] => destruct c
            end);
    try discriminate; injection Hc as <- _; eexists; reflexivity.
Qed.

End Throws.

Section ThrowsMethods.

Variable E : env.

Lemma throws_popen cmd : throws (popen E cmd) is_OSError.
Proof.
  intros s e s'. unfold popen. rewrite bind_eq. unfold emit at 1.
  rewrite bind_get_world. cbn [st_world].
  destruct (exec E cmd (st_world s)); [discriminate |].
  intros [= <- _]. eexists. reflexivity.
Qed.

Lemma throws_remove path : throws (remove E path) is_OSError.
Proof.
  intros s e s'. unfold remove. rewrite bind_get_world.
  destruct (w_files (st_world s) !! path) as [[c t |] |];
    try (intros [= <- _]; eexists; reflexivity).
  destruct (removable E path); [discriminate |].
  intros [= <- _]. eexists. reflexivity.
Qed.

Lemma throws_fatal_error {A} msg : throws (@_fatal_error A msg) is_LatexMkError.
Proof.
  unfold _fatal_error. apply throws_bind; [apply throws_log | intros _].
  apply throws_raise. eexists. reflexivity.
Qed.

(** Starting a tool: the failure to start it becomes a fatal error. *)
Lemma throws_tool cmd msg :
  throws (except_OSError (popen E cmd) (fun _ => _fatal_error msg))
         is_LatexMkError.
Proof.
  apply throws_except_OSError.
  - eapply throws_weaken; [| apply throws_popen]. auto.
  - intros _. apply throws_fatal_error.
Qed.

Lemma throws_count_citations f : throws (_count_citations f) is_OSError.
Proof.
  unfold _count_citations.
  apply throws_bind; [apply throws_read | intros c; apply throws_ret].
Qed.

Lemma throws_generate_citation_counter :
  throws generate_citation_counter is_OSError.
Proof.
  unfold generate_citation_counter.
  apply throws_bind; [apply throws_get_self | intros o]. cbv zeta.
  apply throws_bind; [apply throws_read | intros main_aux].
  apply throws_bind; [apply throws_count_citations | intros counter].
  apply throws_for_fold. intros acc m _.
  apply throws_except_OSError; [| intros _; apply throws_ret].
  apply throws_bind; [| intros c; apply throws_ret].
  eapply throws_weaken; [| apply throws_count_citations]. auto.
Qed.

Lemma throws_read_glossaries : throws read_glossaries is_OSError.
Proof.
  unfold read_glossaries.
  apply throws_bind; [apply throws_get_self | intros o]. cbv zeta.
  apply throws_bind; [apply throws_read | intros main_aux].
  apply throws_for_each. intros m. apply throws_update_self.
Qed.

Lemma build_failure_os e : is_OSError e -> build_failure e.
Proof. unfold build_failure. auto. Qed.

Lemma build_failure_mk e : is_LatexMkError e -> build_failure e.
Proof. unfold build_failure. auto. Qed.

Lemma throws_read_latex_files : throws _read_latex_files build_failure.
Proof.
  unfold _read_latex_files.
  apply throws_bind; [apply throws_get_self | intros o]. cbv zeta.
  apply throws_bind; [apply throws_isfile | intros ex].
  apply throws_bind.
  { destruct ex; [| apply throws_ret].
    apply throws_bind;
      [eapply throws_weaken; [apply build_failure_os |];
       apply throws_generate_citation_counter | intros c].
    apply throws_bind; [| intros _; apply throws_ret].
    eapply throws_weaken; [apply build_failure_os |].
    apply throws_read_glossaries. }
  intros cc.
  apply throws_bind; [apply throws_isfile | intros ex_toc].
  apply throws_bind.
  { destruct ex_toc; [| apply throws_ret].
    apply throws_bind;
      [eapply throws_weaken; [apply build_failure_os |];
       apply throws_open_rb | intros _].
    apply throws_raise. unfold build_failure. auto. }
  intros sha.
  apply throws_bind; [apply throws_get_self | intros o'].
  apply throws_bind; [| intros gf; apply throws_ret].
  apply throws_for_fold. intros acc gloss Hin.
  destruct (dict_get_in gloss (glossaries o') Hin) as [[ext_i ext] ->].
  apply throws_bind; [apply throws_isfile | intros ex'].
  destruct ex'; [| apply throws_ret].
  apply throws_bind; [| intros c; apply throws_ret].
  eapply throws_weaken; [apply build_failure_os |]. apply throws_read.
Qed.

Lemma throws_is_toc_changed sha : throws (_is_toc_changed sha) build_failure.
Proof.
  unfold _is_toc_changed.
  apply throws_bind; [apply throws_get_self | intros o]. cbv zeta.
  apply throws_bind; [apply throws_isfile | intros ex].
  destruct ex; [| apply throws_ret].
  apply throws_bind;
    [eapply throws_weaken; [apply build_failure_os |];
     apply throws_open_rb | intros _].
  apply throws_raise. unfold build_failure. auto.
Qed.

Lemma throws_need_bib_run old : throws (_need_bib_run old) is_OSError.
Proof.
  unfold _need_bib_run.
  apply throws_bind; [apply throws_get_self | intros o].
  apply throws_bind; [apply throws_read | intros content].
  destruct (search BIB_PATTERN content) as [m |]; [| apply throws_ret].
  apply throws_bind; [apply throws_update_self | intros _].
  apply throws_bind; [apply throws_get_self | intros o'].
  apply throws_bind; [apply throws_isfile | intros ex].
  destruct (negb ex).
  { apply throws_bind; [apply throws_log | intros _; apply throws_ret]. }
  destruct (_ || _); [apply throws_ret |].
  apply throws_bind; [apply throws_generate_citation_counter | intros new].
  destruct (negb _); [apply throws_ret |].
  apply throws_bind; [apply throws_isfile | intros ex_old].
  destruct ex_old; [| apply throws_ret]. cbv zeta.
  apply throws_bind; [apply throws_filecmp_cmp | intros same].
  destruct (negb same); apply throws_ret.
Qed.

Lemma throws_check_errors : throws check_errors is_LatexMkError.
Proof.
  unfold check_errors.
  apply throws_bind; [apply throws_get_self | intros o]. cbv zeta.
  destruct (findall3 _ _); [apply throws_ret |].
  apply throws_bind; [apply throws_log | intros _].
  apply throws_bind; [apply throws_log | intros _].
  apply throws_bind; [apply throws_log | intros _].
  apply throws_when, throws_raise. eexists. reflexivity.
Qed.

Lemma throws_latex_run : throws (latex_run E) build_failure.
Proof.
  unfold latex_run.
  apply throws_bind; [apply throws_get_self | intros o].
  apply throws_bind; [apply throws_log | intros _].
  apply throws_bind;
    [eapply throws_weaken; [apply build_failure_mk |]; apply throws_tool
    | intros _].
  apply throws_bind; [apply throws_update_self | intros _].
  apply throws_bind;
    [eapply throws_weaken; [apply build_failure_os |]; apply throws_read
    | intros content].
  apply throws_bind; [apply throws_update_self | intros _].
  eapply throws_weaken; [apply build_failure_mk |]. apply throws_check_errors.
Qed.

Lemma throws_bibtex_run : throws (bibtex_run E) build_failure.
Proof.
  unfold bibtex_run.
  apply throws_bind; [apply throws_get_self | intros o].
  apply throws_bind; [apply throws_log | intros _].
  apply throws_bind;
    [eapply throws_weaken; [apply build_failure_mk |]; apply throws_tool
    | intros _].
  eapply throws_weaken; [apply build_failure_os |]. apply throws_copy.
Qed.

Lemma throws_rerun_loop fuel : throws (rerun_loop E fuel) build_failure.
Proof.
  induction fuel as [| fuel IH]; [apply throws_ret |].
  cbn [rerun_loop].
  apply throws_bind; [apply throws_get_self | intros o].
  destruct (_ <? _)%nat; [| apply throws_ret].
  destruct (negb _); [apply throws_ret |].
  apply throws_bind; [apply throws_latex_run | intros _; exact IH].
Qed.

End ThrowsMethods.

Section ThrowsRun.

Variable E : env.

Lemma throws_makeindex_loop gf ks acc s e s' :
  (forall k, k ∈ ks -> is_Some (dict_get k (glossaries (st_self s)))) ->
  for_fold ks acc (makeindex_one E gf) s = Raise e s' ->
  is_LatexMkError e.
Proof.
  revert acc s. induction ks as [| k ks IH]; intros acc s Hk; [discriminate |].
  cbn [for_fold]. rewrite bind_eq.
  destruct (Hk k) as [[ext_i ext_o] Hd]; [apply elem_of_cons; auto |].
  rewrite (makeindex_one_eq E gf acc k ext_i ext_o s Hd).
  destruct (needs_rebuild _ _ _ _ _ _).
  - unfold rebuild. destruct (exec E _ _).
    + apply IH. cbn [st_self]. intros k' Hk'. apply Hk, elem_of_cons. auto.
    + intros [= <- _]. eexists. reflexivity.
  - apply IH. intros k' Hk'. apply Hk, elem_of_cons. auto.
Qed.

Lemma throws_makeindex_runs gf : throws (makeindex_runs E gf) build_failure.
Proof.
  intros s e s'. unfold makeindex_runs. rewrite bind_get_self. intros H.
  apply build_failure_mk. apply (throws_makeindex_loop _ _ _ _ _ _ (fun k => dict_get_in k _) H).
Qed.

Lemma throws_open_preview : throws (open_preview E) is_OSError.
Proof.
  unfold open_preview.
  apply throws_bind; [apply throws_get_self | intros o].
  apply throws_bind; [apply throws_log | intros _]. cbv zeta.
  destruct (String.eqb (platform E) "win32").
  { apply throws_except_OSError; [| intros _; apply throws_log].
    apply throws_bind; [apply throws_emit | intros _].
    apply throws_bind; [apply throws_get_world | intros w].
    destruct (startfile E _ w); [apply throws_put_world |].
    apply throws_raise. left. eexists. reflexivity. }
  destruct (String.eqb (platform E) "darwin"); [apply throws_popen |].
  apply throws_except_OSError; [| intros what; apply throws_log].
  eapply throws_weaken; [| apply throws_popen]. auto.
Qed.

Lemma throws_check_cite_block : throws check_cite_block is_OSError.
Proof.
  unfold check_cite_block.
  apply throws_bind; [apply throws_get_self | intros o].
  apply throws_bind; [apply throws_read | intros aux]. cbv zeta.
  apply throws_bind; [apply throws_read | intros bib].
  apply throws_for_each. intros m. apply throws_when, throws_log.
Qed.

Lemma throws_clean_block : throws (clean_block E) is_OSError.
Proof.
  unfold clean_block.
  apply throws_bind; [apply throws_get_self | intros o]. cbv zeta.
  apply throws_bind; [apply throws_listdir | intros names].
  apply throws_for_each. intros f. apply throws_when.
  apply throws_except_OSError; [| intros _; apply throws_ret].
  eapply throws_weaken; [| apply throws_remove]. auto.
Qed.

Lemma throws_run_build : throws (run_build E) build_failure.
Proof.
  unfold run_build.
  apply throws_bind; [apply throws_update_self | intros _].
  apply throws_bind; [apply throws_get_self | intros o].
  apply throws_bind; [| intros _].
  { apply throws_when.
    apply throws_bind; [apply throws_listdir | intros names].
    apply throws_update_self. }
  apply throws_bind; [apply throws_read_latex_files | intros [[cc sha] gf]].
  apply throws_bind; [apply throws_latex_run | intros _].
  apply throws_bind;
    [eapply throws_weaken; [apply build_failure_os |];
     apply throws_read_glossaries | intros _].
  apply throws_bind; [apply throws_makeindex_runs | intros changed].
  apply throws_bind; [| intros again].
  { destruct changed; [apply throws_ret |].
    apply throws_bind; [apply throws_is_toc_changed | intros r].
    apply throws_ret. }
  apply throws_bind; [apply throws_when, throws_latex_run | intros _].
  apply throws_bind;
    [eapply throws_weaken; [apply build_failure_os |];
     apply throws_need_bib_run | intros need].
  apply throws_bind; [| intros _; apply throws_rerun_loop].
  apply throws_when.
  apply throws_bind; [apply throws_bibtex_run | intros _].
  apply throws_latex_run.
Qed.

(** The last part of [run] raises [OSError], and [AttributeError] when a
    notification is asked for and [notify2] is not there. *)
Lemma throws_finish o :
  throws
    (when (check_cite (opt o)) check_cite_block ;;
     when (clean (opt o)) (clean_block E) ;;
     when (preview (opt o)) (open_preview E) ;;
     (let msg := "'" +:+ project_name o +:+ ".tex' compiled" in
      log INFO msg ;;
      when (notify (opt o)) (notify_send E msg)))
    (fun e => is_OSError e
              \/ (notify (opt o) = true /\ notify2_loaded E = false)).
Proof.
  apply throws_bind;
    [eapply throws_weaken; [| apply throws_when, throws_check_cite_block];
     auto | intros _].
  apply throws_bind;
    [eapply throws_weaken; [| apply throws_when, throws_clean_block];
     auto | intros _].
  apply throws_bind;
    [eapply throws_weaken; [| apply throws_when, throws_open_preview];
     auto | intros _].
  cbv zeta. apply throws_bind; [apply throws_log | intros _].
  destruct (notify (opt o)) eqn:Hn; [| apply throws_ret].
  cbn [when]. unfold notify_send.
  destruct (notify2_loaded E) eqn:Hl; [apply throws_emit |].
  apply throws_raise. auto.
Qed.

Lemma run_finish_raises s e s' :
  run_finish E s = Raise e s' ->
  is_OSError e
  \/ (notify (opt (st_self s)) = true /\ notify2_loaded E = false).
Proof.
  unfold run_finish. rewrite bind_get_self. apply throws_finish.
Qed.

Lemma steady_parse_texlipse_config : steady (_parse_texlipse_config E).
Proof.
  unfold _parse_texlipse_config.
  apply steady_bind; [apply steady_isfile | intros ex].
  apply steady_bind.
  { destruct ex; [apply steady_ret |].
    apply steady_bind; [apply steady_get_world | intros w].
    apply steady_bind; [apply steady_put_world | intros _].
    apply steady_bind; [apply steady_isfile | intros ex'].
    destruct ex'; [apply steady_ret | apply steady_fatal_error]. }
  intros _.
  apply steady_bind; [apply steady_read | intros content].
  destruct (search _ _); [| apply steady_fatal_error].
  apply steady_bind; [apply steady_log | intros _; apply steady_ret].
Qed.

Lemma throws_parse_texlipse_config :
  throws (_parse_texlipse_config E) build_failure.
Proof.
  unfold _parse_texlipse_config.
  apply throws_bind; [apply throws_isfile | intros ex].
  apply throws_bind.
  { destruct ex; [apply throws_ret |].
    apply throws_bind; [apply throws_get_world | intros w].
    apply throws_bind; [apply throws_put_world | intros _].
    apply throws_bind; [apply throws_isfile | intros ex'].
    destruct ex'; [apply throws_ret |].
    eapply throws_weaken; [apply build_failure_mk |].
    apply throws_fatal_error. }
  intros _.
  apply throws_bind;
    [eapply throws_weaken; [apply build_failure_os |]; apply throws_read
    | intros content].
  destruct (search _ _).
  - apply throws_bind; [apply throws_log | intros _; apply throws_ret].
  - eapply throws_weaken; [apply build_failure_mk |].
    apply throws_fatal_error.
Qed.

Lemma throws_init name o : throws (init E name o) build_failure.
Proof.
  unfold init.
  apply throws_bind; [apply throws_update_self | intros _].
  apply throws_bind.
  { destruct (String.eqb name ".texlipse");
      [apply throws_parse_texlipse_config | apply throws_ret]. }
  intros n.
  apply throws_bind; [apply throws_update_self | intros _].
  apply throws_bind; [apply throws_when, throws_update_self | intros _].
  repeat (apply throws_bind; [apply throws_update_self | intros _]).
  apply throws_update_self.
Qed.

(** [__init__] installs the options it is given. *)
Lemma init_opt name o s s' :
  init E name o s = Ok tt s' -> opt (st_self s') = o.
Proof.
  unfold init. rewrite bind_eq. unfold update_self at 1.
  rewrite bind_eq.
  set (s0 := State _ (st_world s) (st_trace s)).
  assert (Hst : steady (if String.eqb name ".texlipse"
                        then _parse_texlipse_config E else ret name)).
  { destruct (String.eqb name ".texlipse");
      [apply steady_parse_texlipse_config | apply steady_ret]. }
  specialize (Hst s0).
  destruct ((if String.eqb name ".texlipse"
             then _parse_texlipse_config E else ret name) s0)
    as [n s1 | e s1]; [| discriminate].
  cbn [final] in Hst.
  assert (Ho : opt (st_self s1) = o).
  { apply (f_equal c_opt) in Hst. exact Hst. }
  rewrite bind_eq. unfold update_self at 1. rewrite bind_eq.
  destruct (endswith n ".tex");
    cbv beta iota zeta delta [when bind update_self ret];
    intros [= <-]; exact Ho.
Qed.

End ThrowsRun.

Section MainExit.

Variable E : env.

Lemma throws_parser_error {A} msg :
  throws (@parser_error A msg) (fun e => e = SystemExit 2).
Proof.
  unfold parser_error. apply throws_bind; [apply throws_emit | intros _].
  apply throws_raise. reflexivity.
Qed.

Lemma verbosity_total q : (-1 <= q)%Z -> is_Some (verbosity q).
Proof.
  intros H. unfold verbosity.
  destruct (Z.min q 2 =? -1)%Z eqn:H1; [eauto |].
  destruct (Z.min q 2 =? 0)%Z eqn:H2; [eauto |].
  destruct (Z.min q 2 =? 1)%Z eqn:H3; [eauto |].
  destruct (Z.min q 2 =? 2)%Z eqn:H4; [eauto |].
  apply Z.eqb_neq in H1, H2, H3, H4. lia.
Qed.

(** What [run] raises once [main] has let the options through. *)
Lemma run_raises s e s' :
  (notify (opt (st_self s)) = true -> notify2_loaded E = true) ->
  run E s = Raise e s' -> build_failure e.
Proof.
  intros Hn. unfold run. rewrite bind_eq.
  destruct (run_build E s) as [[] s1 | e1 s1] eqn:Hb.
  - intros Hf. apply run_finish_raises in Hf as [Hos | [Hy Hl]].
    + apply build_failure_os. exact Hos.
    + rewrite (run_build_opt E _ _ Hb) in Hy. rewrite (Hn Hy) in Hl.
      discriminate.
  - intros [= <- _]. exact (throws_run_build E _ _ _ Hb).
Qed.

Ltac by_throws H P :=
  match type of H with
  | ?c ?s = Raise ?e ?s' =>
      let T := fresh "T" in
      enough (T : throws c P) by exact (T s e s' H)
  end.

(** What leaves [main]: the exit of the argument parser, the exit of
    the handler right after its notice, or what the build raises apart
    from [LatexMkError]. *)
Lemma main_raises (args : options) (rest : list string) (s : state)
    (e : exn) (s' : state) :
  (-1 <= quiet args)%Z ->
  (notify args = true -> notify2_loaded E = false) ->
  main E args rest s = Raise e s' ->
  e = SystemExit 2
  \/ (e = SystemExit 1 /\ last (st_trace s') = Some exiting_notice)
  \/ is_OSError e
  \/ e = NameError "hashlib".
Proof.
  intros Hq Hn. unfold main.
  rewrite bind_eq.
  destruct (when _ _ s) as [[] s1 | e1 s1] eqn:H1.
  2:{ intros [= <- _]. left. by_throws H1 (fun e => e = SystemExit 2).
      apply throws_when, throws_parser_error. }
  rewrite bind_eq.
  match goal with
  | |- context [match ?c s1 with _ => _ end] =>
      destruct (c s1) as [fname s2 | e2 s2] eqn:H2
  end.
  2:{ intros [= <- _]. left. by_throws H2 (fun e => e = SystemExit 2).
      destruct (filename args); [apply throws_ret |].
      apply throws_bind; [apply throws_listdir | intros names].
      destruct (List.filter _ names) as [| f [| g fs]];
        [apply throws_parser_error | apply throws_ret
        | apply throws_parser_error]. }
  rewrite bind_eq.
  destruct (notify args) eqn:Hy.
  { rewrite (Hn eq_refl). cbn [when].
    intros H. left.
    destruct (parser_error _ s2) as [[] s3 | e3 s3] eqn:H3.
    - discriminate H3.
    - injection H as <- _. by_throws H3 (fun e => e = SystemExit 2).
      apply throws_parser_error. }
  cbn [when]. unfold ret at 1.
  destruct (verbosity_total _ Hq) as [lv ->].
  rewrite bind_eq. unfold emit at 1.
  rewrite bind_eq. unfold log at 1, emit at 1.
  cbn [st_self st_world st_trace].
  set (s4 := State _ _ _).
  unfold except_LatexMkError.
  destruct ((init E fname args ;; run E) s4) as [[] s5 | e5 s5] eqn:H5;
    [discriminate |].
  assert (Hb : build_failure e5).
  { rewrite bind_eq in H5.
    destruct (init E fname args s4) as [[] s6 | e6 s6] eqn:H6.
    - revert H5. apply run_raises.
      rewrite (init_opt E _ _ _ _ H6), Hy. discriminate.
    - injection H5 as <- _. exact (throws_init E _ _ _ _ _ H6). }
  destruct Hb as [[msg ->] | [Hos | ->]].
  - rewrite exit_handler_eq. intros [= <- <-]. right. left.
    split; [reflexivity |]. unfold add_events. cbn [st_trace].
    apply last_snoc.
  - destruct Hos as [f ->]. intros [= <- _]. right. right. left.
    eexists. reflexivity.
  - intros [= <- _]. right. right. right. reflexivity.
Qed.

End MainExit.

Section MainKeeps.

Variable E : env.


End MainKeeps.

Section AtLeastOnce.

Variable E : env.

Lemma grows_steady {A} (c : M A) : steady c -> grows c.
Proof.
  intros H s. destruct (steady_final c s H) as (_ & -> & ->). lia.
Qed.

Lemma grows_bind {A B} (c : M A) (f : A -> M B) :
  grows c -> (forall a, grows (f a)) -> grows (bind c f).
Proof.
  intros Hc Hf s. rewrite bind_eq. specialize (Hc s).
  destruct (c s) as [a s1 | e s1]; cbn [final] in *; [| exact Hc].
  specialize (Hf a s1). lia.
Qed.

Lemma grows_when b c : grows c -> grows (when b c).
Proof. intros H. destruct b; [exact H |]. intros s. cbn. lia. Qed.

Lemma grows_latex_run : grows (latex_run E).
Proof.
  intros s. destruct (latex_run_spec E s) as (_ & Hk & Hc).
  split; [| lia].
  destruct (latex_run E s) as [[] s1 | e s1] eqn:Hr; cbn [final]; [lia |].
  rewrite latex_run_eq in Hr. cbv zeta in Hr.
  destruct (exec E _ _) as [w' |].
  - set (s0 := State _ w' _) in Hr.
    assert (Hst : steady (content <- read (project_name (st_self s) +:+ ".log") ;;
                          update_self (set_out content) ;; check_errors)).
    { apply steady_bind; [apply steady_read | intros c].
      apply steady_bind;
        [apply steady_update_self, minor_set_out
        | intros _; apply steady_check_errors]. }
    destruct (steady_final _ s0 Hst) as (_ & Hn & _).
    rewrite Hr in Hn. cbn [final] in Hn. rewrite Hn.
    unfold counter, s0. cbn. lia.
  - injection Hr as _ <-. unfold counter. cbn. lia.
Qed.

Lemma grows_rerun_loop fuel : grows (rerun_loop E fuel).
Proof.
  induction fuel as [| fuel IH]; [intros s; cbn; lia |].
  cbn [rerun_loop].
  apply grows_bind; [apply grows_steady, steady_get_self | intros o].
  destruct (_ <? _)%nat; [| apply grows_steady, steady_ret].
  destruct (negb _); [apply grows_steady, steady_ret |].
  apply grows_bind; [apply grows_latex_run | intros _; exact IH].
Qed.

Lemma run_build_passes s s' :
  run_build E s = Ok tt s' ->
  counter s < counter s' /\ calls s < calls s'.
Proof.
  rewrite run_build_eq. set (s0 := State _ _ _).
  assert (H0 : counter s0 = counter s /\ calls s0 = calls s)
    by (split; reflexivity).
  destruct H0 as [<- <-]. clearbody s0.
  rewrite bind_eq.
  destruct (steady_final _ s0 steady_read_latex_files) as (_ & Hn1 & Hk1).
  destruct (_read_latex_files s0) as [[[cc sha] gf] s1 | e s1];
    [| discriminate].
  cbn [final] in Hn1, Hk1. rewrite <- Hn1, <- Hk1.
  rewrite bind_eq.
  destruct (latex_run_spec E s1) as (_ & Hk2 & Hn2).
  destruct (latex_run E s1) as [[] s2 | e s2]; [| discriminate].
  cbn [final] in Hk2.
  match goal with
  | |- ?tail s2 = _ -> _ =>
      assert (Hg : grows tail)
  end.
  { apply grows_bind;
      [apply grows_steady, steady_read_glossaries | intros _].
    apply grows_bind;
      [apply grows_steady, steady_makeindex_runs | intros changed].
    apply grows_bind; [| intros again].
    { apply grows_steady. destruct changed; [apply steady_ret |].
      apply steady_bind; [apply steady_is_toc_changed | intros r].
      apply steady_ret. }
    apply grows_bind; [apply grows_when, grows_latex_run | intros _].
    apply grows_bind;
      [apply grows_steady, steady_need_bib_run | intros need].
    apply grows_bind; [| intros _; apply grows_rerun_loop].
    apply grows_when, grows_bind.
    - apply grows_steady, steady_bibtex_run.
    - intros _. apply grows_latex_run. }
  intros H. specialize (Hg s2). rewrite H in Hg. cbn [final] in Hg. lia.
Qed.

Lemma run_finish_compiled s s' :
  run_finish E s = Ok tt s' -> compiled_notice (st_self s') ∈ st_trace s'.
Proof.
  intros H.
  assert (Hname : project_name (st_self s') = project_name (st_self s)).
  { destruct (steady_final _ s (steady_run_finish E)) as (Hi & _ & _).
    rewrite H in Hi. cbn [final] in Hi. unfold ids, core_of in Hi.
    cbn in Hi. congruence. }
  unfold compiled_notice. rewrite Hname. clear Hname.
  revert H. unfold run_finish. rewrite bind_get_self.
  set (o := st_self s). clearbody o.
  rewrite bind_eq. destruct (when _ _ s) as [[] s1 | e s1]; [| discriminate].
  rewrite bind_eq. destruct (when _ _ s1) as [[] s2 | e s2]; [| discriminate].
  rewrite bind_eq. destruct (when _ _ s2) as [[] s3 | e s3]; [| discriminate].
  cbv zeta. rewrite bind_eq. unfold log at 1, emit at 1.
  destruct (notify (opt o)); cbn [when].
  - unfold notify_send. destruct (notify2_loaded E); [| discriminate].
    unfold emit. intros [= <-]. cbn [st_trace].
    rewrite !elem_of_app, !list_elem_of_singleton. auto.
  - unfold ret. intros [= <-]. cbn [st_trace].
    rewrite elem_of_app, list_elem_of_singleton. auto.
Qed.

(** X18.  A call of [run] that returns has started the compiler at
    least once and at most [MAX_RUNS] times, has raised the counter,
    and has logged that the project is compiled. *)
Theorem run_compiles_at_least_once (s s' : state) :
  run E s = Ok tt s' ->
  compiler_calls (st_trace s) < compiler_calls (st_trace s')
  /\ compiler_calls (st_trace s') <= compiler_calls (st_trace s) + MAX_RUNS
  /\ latex_run_counter (st_self s) < latex_run_counter (st_self s')
  /\ compiled_notice (st_self s') ∈ st_trace s'.
Proof.
  intros H.
  destruct (run_spends E s) as [_ Hup]. rewrite H in Hup. cbn [final] in Hup.
  unfold run in H. rewrite bind_eq in H.
  destruct (run_build E s) as [[] s1 | e s1] eqn:Hb; [| discriminate].
  destruct (run_build_passes _ _ Hb) as [Hn Hk].
  destruct (steady_final _ s1 (steady_run_finish E)) as (_ & Hn' & Hk').
  rewrite H in Hn', Hk'. cbn [final] in Hn', Hk'.
  unfold counter, calls, MAX_RUNS in *.
  split; [lia |]. split; [lia |]. split; [lia |].
  exact (run_finish_compiled _ _ H).
Qed.

End AtLeastOnce.

Section RegistryTwice.

Lemma dict_set_twice {V} k (v v' : V) d :
  dict_set k v (dict_set k v' d) = dict_set k v d.
Proof.
  induction d as [| [k0 v0] d IH]; simpl.
  - rewrite String.eqb_refl. reflexivity.
  - destruct (String.eqb k0 k) eqn:Hk; simpl.
    + rewrite String.eqb_refl. reflexivity.
    + rewrite Hk, IH. reflexivity.
Qed.

Lemma dict_set_keys {V} k (v : V) d :
  k ∈ map fst d -> map fst (dict_set k v d) = map fst d.
Proof.
  induction d as [| [k0 v0] d IH]; simpl.
  - intros H. apply elem_of_nil in H. destruct H.
  - intros H. destruct (String.eqb k0 k) eqn:Hk; simpl.
    + apply String.eqb_eq in Hk. subst k0. reflexivity.
    + apply elem_of_cons in H as [-> | H].
      * rewrite String.eqb_refl in Hk. discriminate.
      * rewrite IH by exact H. reflexivity.
Qed.

(** Writes to two names can be swapped when the first name is in the
    dictionary: no entry is appended out of order. *)
Lemma dict_set_swap {V} k n (u v : V) d :
  k <> n -> k ∈ map fst d ->
  dict_set k u (dict_set n v d) = dict_set n v (dict_set k u d).
Proof.
  intros Hne. induction d as [| [k0 v0] d IH]; simpl.
  - intros H. apply elem_of_nil in H. destruct H.
  - intros H.
    assert (Hkn : String.eqb k n = false) by (apply String.eqb_neq; exact Hne).
    assert (Hnk : String.eqb n k = false)
      by (apply String.eqb_neq; congruence).
    destruct (String.eqb k0 n) eqn:Hn; destruct (String.eqb k0 k) eqn:Hk;
      simpl; rewrite ?Hn, ?Hk, ?Hkn, ?Hnk; try reflexivity.
    + apply String.eqb_eq in Hn, Hk. congruence.
    + apply elem_of_cons in H as [-> | H].
      * rewrite String.eqb_refl in Hk. discriminate.
      * rewrite IH by exact H. reflexivity.
Qed.

Lemma register_keys decls g k :
  k ∈ map fst g -> k ∈ map fst (register decls g).
Proof.
  revert g. induction decls as [| [n v] decls IH]; intros g H; [exact H |].
  cbn [register fold_left]. apply IH. cbn [fst snd].
  destruct (dict_get_in k g H) as [x Hx].
  apply (dict_get_key k (if String.eqb n k then v else x)).
  rewrite dict_get_set. destruct (String.eqb n k); [reflexivity | exact Hx].
Qed.

Lemma register_declared decls g k :
  k ∈ map fst decls -> k ∈ map fst (register decls g).
Proof.
  revert g. induction decls as [| [n v] decls IH]; intros g H.
  - apply elem_of_nil in H. destruct H.
  - cbn [register fold_left fst snd].
    destruct (decide (k ∈ map fst decls)) as [Hk | Hk]; [apply IH, Hk |].
    cbn [map fst] in H. apply elem_of_cons in H as [-> | H]; [| contradiction].
    apply register_keys. apply (dict_get_key n v).
    rewrite dict_get_set, String.eqb_refl. reflexivity.
Qed.

(** A write that comes first and is repeated last can be left out. *)
Lemma register_after_set decls n v g :
  (forall k, k ∈ map fst decls -> k ∈ map fst g) ->
  dict_set n v (register decls (dict_set n v g))
  = dict_set n v (register decls g).
Proof.
  revert g. induction decls as [| [k u] decls IH]; intros g Hk.
  - cbn [register fold_left]. apply dict_set_twice.
  - cbn [register fold_left fst snd].
    assert (Hin : k ∈ map fst g) by (apply Hk, elem_of_cons; auto).
    assert (Hrest : forall k', k' ∈ map fst decls ->
                               k' ∈ map fst (dict_set k u g)).
    { intros k' Hk'. rewrite dict_set_keys by exact Hin.
      apply Hk, elem_of_cons. auto. }
    destruct (decide (k = n)) as [-> | Hne].
    + rewrite dict_set_twice. reflexivity.
    + rewrite (dict_set_swap k n u v g Hne Hin). apply IH. exact Hrest.
Qed.

Lemma register_app decls1 decls2 g :
  register (decls1 ++ decls2) g = register decls2 (register decls1 g).
Proof. unfold register. apply fold_left_app. Qed.

Lemma register_twice decls g :
  register decls (register decls g) = register decls g.
Proof.
  induction decls as [| [n v] decls IH] using rev_ind; [reflexivity |].
  rewrite !register_app. cbn [register fold_left fst snd].
  fold (register decls g).
  fold (register decls (dict_set n v (register decls g))).
  rewrite register_after_set by (intros k; apply register_declared).
  rewrite IH. reflexivity.
Qed.

Lemma read_glossaries_eq s bytes t :
  w_files (st_world s) !! aux_name s = Some (File bytes t) ->
  read_glossaries s
  = Ok tt (State (set_glossaries
                    (register (declared (decode bytes))
                              (glossaries (st_self s)))
                    (st_self s))
                 (st_world s) (st_trace s)).
Proof.
  intros Haux. unfold aux_name in Haux. unfold read_glossaries.
  rewrite bind_get_self, bind_eq, (read_ok _ _ _ _ Haux).
  rewrite for_each_update_self, fold_glossaries_only, glossaries_fold.
  reflexivity.
Qed.

(** X7.  Reading the glossaries twice from the same auxiliary file
    is reading them once: a second call of [read_glossaries] right after
    a call that returned changes nothing, also when the file declares a
    name several times. *)
Theorem read_glossaries_twice (s s' : state) :
  read_glossaries s = Ok tt s' -> read_glossaries s' = Ok tt s'.
Proof.
  intros H.
  destruct (is_file (st_world s) (aux_name s)) eqn:Haux.
  2:{ unfold read_glossaries in H. rewrite bind_get_self, bind_eq in H.
      unfold aux_name in Haux. rewrite (read_fail _ _ Haux) in H.
      discriminate. }
  apply is_file_true in Haux as (bytes & t & Haux).
  rewrite (read_glossaries_eq s bytes t Haux) in H. injection H as <-.
  rewrite (read_glossaries_eq _ bytes t) by exact Haux.
  cbn [st_self st_world st_trace glossaries set_glossaries].
  rewrite register_twice. reflexivity.
Qed.

End RegistryTwice.

Section EndToEnd.

Variable E : env.

(** [run] up to the check of the first log, in a directory without
    files of an earlier build. *)
Lemma run_build_first_pass s w' bytes t :
  fresh_start s ->
  exec E (latex_cmdline (st_self s)) (st_world s) = Some w' ->
  w_files w' !! (project_name (st_self s) +:+ ".log") = Some (File bytes t) ->
  run_build E s
  = (check_errors ;;
     read_glossaries ;;
     gloss_changed <- makeindex_runs E ∅ ;;
     again <- (if gloss_changed then ret true
               else r <- _is_toc_changed EmptyString ;; ret (truthy r)) ;;
     when again (latex_run E) ;;
     need_bib <- _need_bib_run (<[aux_name s := ∅]> ∅) ;;
     when (truthy need_bib) (bibtex_run E ;; latex_run E) ;;
     rerun_loop E MAX_RUNS)
      (State (passed (decode bytes) (set_old_dir (baseline s) (st_self s)))
             w' (st_trace s ++ pass_events (st_self s))).
Proof.
  intros (Haux & Htoc & Hg) Hx Hl. rewrite run_build_eq.
  fold (baseline s). set (s1 := State _ (st_world s) (st_trace s)).
  rewrite bind_eq.
  rewrite (read_latex_files_nothing s1) by assumption.
  change (aux_name s1) with (aux_name s).
  cbv beta iota zeta.
  rewrite bind_eq, latex_run_eq. cbv zeta.
  change (latex_cmdline (st_self s1)) with (latex_cmdline (st_self s)).
  change (st_world s1) with (st_world s). rewrite Hx.
  rewrite bind_eq.
  change (project_name (st_self s1)) with (project_name (st_self s)).
  rewrite (read_ok _ _ bytes t) by exact Hl.
  rewrite bind_eq. unfold update_self at 1.
  cbn [st_self st_world st_trace].
  rewrite <- app_assoc. reflexivity.
Qed.



End EndToEnd.

(** ** The check for entries that are not cited, line by line *)

Section Greedy.

(** The greedy [.*] when the continuation fails everywhere on the
    line. *)
Lemma many_dot_none (k : kont) pos prev caps rest :
  (forall j, j <= length (line_of rest) ->
             k (advance j (MState pos prev rest caps)) = None) ->
  many CDot pos prev caps rest k = None.
Proof.
  revert pos prev. induction rest as [| c r IH]; intros pos prev H.
  - apply (H 0). simpl. lia.
  - cbn [many cset_match].
    destruct (Ascii.eqb c newline) eqn:Hc; cbn [negb].
    + apply (H 0). lia.
    + rewrite IH.
      * apply (H 0). lia.
      * intros j Hj. rewrite <- (advance_S j pos prev c r caps). apply H.
        simpl. rewrite Hc. simpl. lia.
Qed.

(** The greedy [.*] stops at the last place of the line where the
    continuation succeeds. *)
Lemma many_dot_pick (k : kont) i pos prev caps rest :
  i <= length (line_of rest) ->
  (forall j, i < j -> j <= length (line_of rest) ->
             k (advance j (MState pos prev rest caps)) = None) ->
  is_Some (k (advance i (MState pos prev rest caps))) ->
  many CDot pos prev caps rest k = k (advance i (MState pos prev rest caps)).
Proof.
  revert i pos prev. induction rest as [| c r IH]; intros i pos prev Hi Hj Hk.
  - simpl in Hi. assert (i = 0) by lia. subst i. reflexivity.
  - cbn [many cset_match]. simpl in Hi, Hj.
    destruct (Ascii.eqb c newline) eqn:Hc; cbn [negb].
    + simpl in Hi. assert (i = 0) by lia. subst i. reflexivity.
    + simpl in Hi, Hj. destruct i as [| i].
      * rewrite many_dot_none; [reflexivity |].
        intros j Hl. rewrite <- (advance_S j pos prev c r caps). apply Hj; lia.
      * rewrite advance_S in Hk |- *. rewrite (IH i).
        -- destruct Hk as [st Hst]. rewrite Hst. reflexivity.
        -- lia.
        -- intros j H1 H2. rewrite <- (advance_S j pos prev c r caps).
           apply Hj; lia.
        -- exact Hk.
Qed.

Lemma last_at_none_prefix q l n :
  q <> [] -> last_at q l = None -> is_prefix q (drop n l) = false.
Proof.
  intros Hq. revert n. induction l as [| c l IH]; intros n H.
  - rewrite drop_nil. destruct q; [destruct (Hq eq_refl) | reflexivity].
  - simpl in H. destruct (last_at q l) eqn:Hl; [discriminate |].
    destruct (is_prefix q (c :: l)) eqn:Hp; [discriminate |].
    destruct n as [| n]; [exact Hp |]. simpl. apply IH. reflexivity.
Qed.

Lemma last_at_beyond q xs i j :
  q <> [] -> last_at q xs = Some i -> i < j ->
  is_prefix q (drop j xs) = false.
Proof.
  intros Hq H Hij. apply last_at_after in H.
  replace j with (S i + (j - S i)) by lia. rewrite <- drop_drop.
  apply last_at_none_prefix; assumption.
Qed.

(** The greedy [.*] in front of a literal [q]: the last [q] of the
    line decides, when what follows it there is accepted. *)
Lemma many_dot_last_ok (q : list ascii) (k k' : kont) pos prev caps rest i :
  q <> [] -> no_newline q = true ->
  (forall st, k st = if is_prefix q (m_rest st) then k' st else None) ->
  last_at q (line_of rest) = Some i ->
  is_Some (k' (advance i (MState pos prev rest caps))) ->
  many CDot pos prev caps rest k
  = k' (advance i (MState pos prev rest caps)).
Proof.
  intros Hq Hn Hk Hl Hs.
  pose proof (last_at_lt _ _ _ Hl) as Hi.
  assert (Hpre : forall j, j <= length (line_of rest) ->
                   is_prefix q (drop j rest)
                   = is_prefix q (drop j (line_of rest))).
  { intros j Hj. rewrite <- line_of_drop by exact Hj.
    symmetry. apply is_prefix_line_gen. exact Hn. }
  assert (Hat : k (advance i (MState pos prev rest caps))
                = k' (advance i (MState pos prev rest caps))).
  { rewrite Hk, advance_rest. cbn [m_rest]. rewrite Hpre by lia.
    rewrite (last_at_prefix _ _ _ Hl). reflexivity. }
  rewrite <- Hat. apply many_dot_pick.
  - lia.
  - intros j H1 H2. rewrite Hk, advance_rest. cbn [m_rest].
    rewrite Hpre by exact H2.
    rewrite (last_at_beyond _ _ _ _ Hq Hl H1). reflexivity.
  - rewrite Hat. exact Hs.
Qed.

Lemma last_at_app q x l i :
  last_at q l = Some i -> last_at q (x ++ l) = Some (length x + i).
Proof.
  intros H. induction x as [| c x IH]; [exact H |].
  simpl. rewrite IH. reflexivity.
Qed.

Lemma last_at_lacks c q l : lacks c l = true -> last_at (c :: q) l = None.
Proof.
  induction l as [| a l IH]; [reflexivity |].
  simpl. intros H. apply andb_true_iff in H as [Ha H].
  rewrite (IH H). rewrite (Ascii.eqb_sym c a).
  apply negb_true_iff in Ha. rewrite Ha. reflexivity.
Qed.

(** A text that ends with the first character of [q], which stands
    nowhere else in it, holds no [q] of two characters or more. *)
Lemma last_at_end c d q x :
  lacks c x = true -> last_at (c :: d :: q) (x ++ [c]) = None.
Proof.
  induction x as [| a x IH]; intros H.
  - simpl. rewrite Ascii.eqb_refl. reflexivity.
  - simpl in H. apply andb_true_iff in H as [Ha H].
    cbn [app last_at]. rewrite (IH H). cbn [is_prefix].
    rewrite (Ascii.eqb_sym c a).
    apply negb_true_iff in Ha. rewrite Ha. reflexivity.
Qed.

Lemma advance_through x pos prev rest caps :
  advance (length x) (MState pos prev (x ++ rest) caps)
  = MState (pos + length x) (prev_of prev x) rest caps.
Proof.
  revert pos prev. induction x as [| c x IH]; intros pos prev.
  - simpl. f_equal. lia.
  - cbn [length app]. rewrite advance_S, IH. simpl. f_equal. lia.
Qed.

Lemma is_prefix_here p l : is_prefix p (p ++ l) = true.
Proof. apply is_prefix_self. Qed.

Lemma lacks_app c x y : lacks c (x ++ y) = lacks c x && lacks c y.
Proof. apply forallb_app. Qed.

End Greedy.

Section GreedySteps.

(** A greedy [.*], in a group or not, in front of the literal [q]: when
    the last [q] of the line stands after [x], the repetition takes
    [x]. *)
Lemma mt_many_lit q (r : re) (k : kont) pos prev caps x tail :
  q <> [] -> no_newline q = true ->
  last_at q (line_of (x ++ q ++ tail)) = Some (length x) ->
  is_Some (mt r (MState (pos + length x + length q)
                        (prev_of (prev_of prev x) q) tail caps) k) ->
  mt (Seq (Many CDot) (Seq (lit_chars q) r))
     (MState pos prev (x ++ q ++ tail) caps) k
  = mt r (MState (pos + length x + length q)
                 (prev_of (prev_of prev x) q) tail caps) k.
Proof.
  intros Hq Hn Hl Hs.
  change (mt (Seq (Many CDot) (Seq (lit_chars q) r)) ?st k)
    with (many CDot (m_pos st) (m_prev st) (m_caps st) (m_rest st)
               (fun st' => mt (lit_chars q) st' (fun st2 => mt r st2 k))).
  cbn [m_pos m_prev m_caps m_rest].
  rewrite (many_dot_last_ok q _
             (fun st' => mt r (advance (length q) st') k)
             _ _ _ _ (length x) Hq Hn).
  - rewrite advance_through, advance_through. reflexivity.
  - intros st. apply mt_lit_chars.
  - exact Hl.
  - rewrite advance_through, advance_through. exact Hs.
Qed.

Lemma mt_group_lit n q (r : re) (k : kont) pos prev caps x tail :
  q <> [] -> no_newline q = true ->
  last_at q (line_of (x ++ q ++ tail)) = Some (length x) ->
  is_Some (mt r (MState (pos + length x + length q)
                        (prev_of (prev_of prev x) q) tail
                        ((n, x) :: caps)) k) ->
  mt (Seq (Grp n (Many CDot)) (Seq (lit_chars q) r))
     (MState pos prev (x ++ q ++ tail) caps) k
  = mt r (MState (pos + length x + length q)
                 (prev_of (prev_of prev x) q) tail ((n, x) :: caps)) k.
Proof.
  intros Hq Hn Hl Hs.
  set (st0 := MState pos prev (x ++ q ++ tail) caps).
  change (mt (Seq (Grp n (Many CDot)) (Seq (lit_chars q) r)) st0 k)
    with (many CDot pos prev caps (x ++ q ++ tail)
               (fun st' => mt (lit_chars q) (set_cap n st0 st')
                             (fun st2 => mt r st2 k))).
  assert (Hcap : set_cap n st0 (advance (length x) st0)
                 = MState (pos + length x) (prev_of prev x) (q ++ tail)
                          ((n, x) :: caps)).
  { unfold st0. rewrite advance_through. unfold set_cap.
    cbn [m_pos m_prev m_rest m_caps].
    replace (pos + length x - pos) with (length x) by lia.
    rewrite take_app_length. reflexivity. }
  rewrite (many_dot_last_ok q _
             (fun st' => mt r (advance (length q) (set_cap n st0 st')) k)
             _ _ _ _ (length x) Hq Hn).
  - fold st0. rewrite Hcap, advance_through. reflexivity.
  - intros st. rewrite mt_lit_chars. reflexivity.
  - exact Hl.
  - fold st0. rewrite Hcap, advance_through. exact Hs.
Qed.

(** Where the last [q] of a line is. *)
Lemma last_at_last_char c x :
  last_at [c] (x ++ [c]) = Some (length x).
Proof.
  replace (length x) with (length x + 0) by lia.
  apply last_at_app. simpl. rewrite Ascii.eqb_refl. reflexivity.
Qed.

Lemma last_at_then_lacks c x y :
  lacks c y = true -> last_at [c] (x ++ c :: y) = Some (length x).
Proof.
  intros H. replace (length x) with (length x + 0) by lia.
  apply last_at_app. cbn [last_at]. rewrite (last_at_lacks c [] y H).
  cbn [is_prefix]. rewrite Ascii.eqb_refl. reflexivity.
Qed.

Lemma last_at_pair c d x y :
  Ascii.eqb c d = false -> lacks c y = true ->
  last_at [c; d] (x ++ c :: d :: y ++ [c]) = Some (length x).
Proof.
  intros Hcd H. replace (length x) with (length x + 0) by lia.
  apply last_at_app. cbn [last_at].
  rewrite (last_at_end c d [] y H). cbn [is_prefix].
  rewrite Hcd, !Ascii.eqb_refl. reflexivity.
Qed.

End GreedySteps.

Section ScanLines.

Lemma finditer_skip r x pos prev rest :
  finditer_from r (length x) pos prev (x ++ rest)
  = finditer_from r 0 (pos + length x) (prev_of prev x) rest.
Proof.
  revert pos prev. induction x as [| c x IH]; intros pos prev.
  - simpl. rewrite Nat.add_0_r. reflexivity.
  - cbn [length app finditer_from prev_of]. rewrite IH.
    f_equal. lia.
Qed.

Lemma is_prefix_before_newline p x rest :
  no_newline p = true ->
  is_prefix p (x ++ newline :: rest) = is_prefix p x.
Proof.
  revert x. induction p as [| a p IH]; intros x Hp; [reflexivity |].
  simpl in Hp. apply andb_true_iff in Hp as [Ha Hp].
  destruct x as [| b x]; cbn [app is_prefix].
  - apply negb_true_iff in Ha. rewrite Ha. reflexivity.
  - rewrite IH by exact Hp. reflexivity.
Qed.

Lemma match_at_no_opener r p pos prev l :
  opens_with r p -> is_prefix p l = false -> match_at r pos prev l = None.
Proof.
  intros Ho Hp. apply match_at_None. apply Ho. exact Hp.
Qed.

Variable r : re.
Variable p : list ascii.
Hypothesis r_opens : opens_with r p.
Hypothesis p_nonempty : p <> [].
Hypothesis p_no_newline : no_newline p = true.

Lemma no_opener_at_newline rest : is_prefix p (newline :: rest) = false.
Proof.
  change (newline :: rest) with ([] ++ newline :: rest).
  rewrite is_prefix_before_newline by exact p_no_newline.
  destruct p; [destruct (p_nonempty eq_refl) | reflexivity].
Qed.

(** A line without the opening gives no match. *)
Lemma finditer_no_opener x pos prev rest :
  occurrences p x = 0 ->
  exists pos',
    finditer_from r 0 pos prev (x ++ newline :: rest)
    = finditer_from r 0 pos' (Some newline) rest.
Proof.
  revert pos prev. induction x as [| c x IH]; intros pos prev Ho.
  - cbn [app]. rewrite finditer_from_0.
    rewrite (match_at_no_opener r p) by
      (exact r_opens || apply no_opener_at_newline).
    eauto.
  - cbn [occurrences] in Ho.
    destruct (is_prefix p (c :: x)) eqn:Hp; [lia |].
    cbn [app]. rewrite finditer_from_0.
    rewrite (match_at_no_opener r p); [| exact r_opens |].
    + apply IH. simpl in Ho. exact Ho.
    + change (c :: x ++ newline :: rest) with ((c :: x) ++ newline :: rest).
      rewrite is_prefix_before_newline by exact p_no_newline. exact Hp.
Qed.

(** A line that is matched as a whole, with or without the line break
    that ends it, gives that match and nothing else. *)
Lemma finditer_whole_line m pos prev rest len caps :
  match_at r pos prev (m ++ newline :: rest)
  = Some (RMatch pos (pos + len) caps) ->
  m <> [] ->
  len = length m \/ len = S (length m) ->
  exists pos',
    finditer_from r 0 pos prev (m ++ newline :: rest)
    = RMatch pos (pos + len) caps
      :: finditer_from r 0 pos' (Some newline) rest.
Proof.
  intros Hm Hne Hlen. destruct m as [| c m]; [destruct (Hne eq_refl) |].
  rewrite finditer_from_0, Hm. cbn [app r_end r_start].
  replace (pred (pos + len - pos)) with (pred len) by lia.
  destruct Hlen as [-> | ->].
  - cbn [length pred]. rewrite finditer_skip, finditer_from_0.
    rewrite (match_at_no_opener r p) by
      (exact r_opens || apply no_opener_at_newline).
    eauto.
  - cbn [length pred].
    change (m ++ newline :: rest) with (m ++ [newline] ++ rest).
    rewrite app_assoc.
    replace (S (length m)) with (length (m ++ [newline]))
      by (rewrite length_app; simpl; lia).
    rewrite finditer_skip, prev_of_last, last_snoc. eauto.
Qed.

End ScanLines.

Section CheckLines.

Lemma line_of_two x q rest :
  no_newline x = true -> no_newline q = true ->
  line_of (x ++ q ++ newline :: rest) = x ++ q.
Proof.
  intros Hx Hq. rewrite line_of_app by exact Hx.
  rewrite line_of_app by exact Hq. simpl. rewrite app_nil_r. reflexivity.
Qed.

(** A [\bibcite] line is matched as a whole, and its key is the first
    group. *)
Lemma match_at_bibcite pos prev key label rest :
  no_newline key = true ->
  no_newline label = true -> lacks close_brace label = true ->
  exists caps,
    match_at BIBCITE_PATTERN pos prev
      ((bibcite_open ++ key ++ cite_mid ++ label ++ cite_end)
       ++ newline :: rest)
    = Some (RMatch pos
              (pos + length (bibcite_open ++ key ++ cite_mid
                                          ++ label ++ cite_end))
              caps)
    /\ cap_lookup 1 caps = Some key.
Proof.
  intros Hk Hl1 Hl2.
  assert (Hin : forall pos2 prev2 caps2,
            mt (Seq (Grp 2 (Many CDot)) (Seq (lit_chars cite_end) Eps))
               (MState pos2 prev2 (label ++ cite_end ++ newline :: rest)
                       caps2) Some
            = Some (MState (pos2 + length label + length cite_end)
                           (prev_of (prev_of prev2 label) cite_end)
                           (newline :: rest) ((2, label) :: caps2))).
  { intros pos2 prev2 caps2. rewrite mt_group_lit.
    - reflexivity.
    - discriminate.
    - reflexivity.
    - rewrite line_of_two by (exact Hl1 || reflexivity).
      apply last_at_last_char.
    - cbn [mt]. eauto. }
  unfold match_at, BIBCITE_PATTERN, seqs, lit. cbn [fold_right].
  change (list_ascii_of_string "\bibcite{") with bibcite_open.
  change (list_ascii_of_string "}{") with cite_mid.
  change (list_ascii_of_string "}") with cite_end.
  rewrite <- !app_assoc.
  change (mt (Seq (lit_chars bibcite_open) ?y) ?st ?k)
    with (mt (lit_chars bibcite_open) st (fun st' => mt y st' k)).
  rewrite mt_lit_chars. cbn [m_rest]. rewrite is_prefix_self.
  rewrite advance_through.
  rewrite mt_group_lit.
  - rewrite Hin. eexists. split.
    + cbn [m_pos m_caps]. f_equal. f_equal.
      rewrite !length_app. lia.
    + reflexivity.
  - discriminate.
  - reflexivity.
  - rewrite line_of_app by exact Hk.
    rewrite line_of_app by reflexivity.
    rewrite line_of_two by (exact Hl1 || reflexivity).
    change (cite_mid ++ label ++ cite_end)
      with (close_brace :: "{"%char :: label ++ [close_brace]).
    apply last_at_pair; [reflexivity | exact Hl2].
  - rewrite Hin. eauto.
Qed.

(** The head of an entry is matched as a whole, with the line break
    that ends it, and its key is the first group. *)
Lemma match_at_entry pos prev kind key rest :
  no_newline kind = true ->
  no_newline key = true -> lacks "{"%char key = true ->
  exists caps,
    match_at BIBENTRY_PATTERN pos prev
      ((entry_open ++ kind ++ entry_mid ++ key ++ entry_end)
       ++ newline :: rest)
    = Some (RMatch pos
              (pos + S (length (entry_open ++ kind ++ entry_mid
                                           ++ key ++ entry_end)))
              caps)
    /\ cap_lookup 1 caps = Some key.
Proof.
  intros Hk1 Hk2 Hk3.
  assert (Hin : forall pos2 prev2 caps2,
            mt (Seq (Grp 1 (Many CDot))
                    (Seq (lit_chars entry_end) (Seq (One CSpace) Eps)))
               (MState pos2 prev2 (key ++ entry_end ++ newline :: rest)
                       caps2) Some
            = Some (MState (S (pos2 + length key + length entry_end))
                           (Some newline) rest ((1, key) :: caps2))).
  { intros pos2 prev2 caps2. rewrite mt_group_lit.
    - reflexivity.
    - discriminate.
    - reflexivity.
    - rewrite line_of_two by (exact Hk2 || reflexivity).
      apply last_at_last_char.
    - cbn. eauto. }
  unfold match_at, BIBENTRY_PATTERN, seqs, lit. cbn [fold_right].
  change (list_ascii_of_string "@") with entry_open.
  change (list_ascii_of_string "{") with entry_mid.
  change (list_ascii_of_string ",") with entry_end.
  rewrite <- !app_assoc.
  change (mt (Seq (lit_chars entry_open) ?y) ?st ?k)
    with (mt (lit_chars entry_open) st (fun st' => mt y st' k)).
  rewrite mt_lit_chars. cbn [m_rest]. rewrite is_prefix_self.
  rewrite advance_through.
  rewrite mt_many_lit.
  - rewrite Hin. eexists. split.
    + cbn [m_pos m_caps]. f_equal. f_equal.
      rewrite !length_app. simpl. lia.
    + reflexivity.
  - discriminate.
  - reflexivity.
  - rewrite line_of_app by exact Hk1.
    rewrite line_of_app by reflexivity.
    rewrite line_of_two by (exact Hk2 || reflexivity).
    change (entry_mid ++ key ++ entry_end)
      with ("{"%char :: (key ++ entry_end)).
    apply last_at_then_lacks.
    rewrite lacks_app, Hk3. reflexivity.
  - rewrite Hin. eauto.
Qed.

Lemma opens_with_bibcite : opens_with BIBCITE_PATTERN bibcite_open.
Proof.
  intros st k H. unfold BIBCITE_PATTERN, seqs, lit. cbn [fold_right].
  change (list_ascii_of_string "\bibcite{") with bibcite_open.
  change (mt (Seq ?x ?y) st k) with (mt x st (fun st' => mt y st' k)).
  rewrite mt_lit_chars, H. reflexivity.
Qed.

Lemma opens_with_entry : opens_with BIBENTRY_PATTERN entry_open.
Proof.
  intros st k H. unfold BIBENTRY_PATTERN, seqs, lit. cbn [fold_right].
  change (list_ascii_of_string "@") with entry_open.
  change (mt (Seq ?x ?y) st k) with (mt x st (fun st' => mt y st' k)).
  rewrite mt_lit_chars, H. reflexivity.
Qed.

Lemma lacks_occurrences c l : lacks c l = true -> occurrences [c] l = 0.
Proof.
  induction l as [| a l IH]; [reflexivity |].
  simpl. intros H. apply andb_true_iff in H as [Ha H].
  rewrite (IH H). rewrite (Ascii.eqb_sym c a).
  apply negb_true_iff in Ha. rewrite Ha. reflexivity.
Qed.

Lemma unlines_cons l ls :
  list_ascii_of_string (unlines (l :: ls))
  = list_ascii_of_string l ++ newline :: list_ascii_of_string (unlines ls).
Proof.
  cbn [unlines fold_right]. rewrite !list_ascii_app. reflexivity.
Qed.

(** The keys the matcher finds in an auxiliary file written line by
    line are the keys of its [\bibcite] lines. *)
Lemma bibcite_keys ls pos prev :
  forallb bibcite_line_ok ls = true ->
  keys (finditer_from BIBCITE_PATTERN 0 pos prev
          (list_ascii_of_string (unlines (map render_bibcite ls))))
  = cited_keys ls.
Proof.
  revert pos prev. induction ls as [| l ls IH]; intros pos prev Hok.
  - reflexivity.
  - cbn [forallb] in Hok. apply andb_true_iff in Hok as [Hl Hok].
    cbn [map]. rewrite unlines_cons.
    destruct l as [key label | t]; cbn [render_bibcite bibcite_line_ok] in *.
    + apply andb_true_iff in Hl as [Hl Hl4].
      apply andb_true_iff in Hl as [Hl1 Hl3].
      rewrite !list_ascii_app.
      change (list_ascii_of_string "\bibcite{") with bibcite_open.
      change (list_ascii_of_string "}{") with cite_mid.
      change (list_ascii_of_string "}") with cite_end.
      destruct (match_at_bibcite pos prev _ _
                  (list_ascii_of_string (unlines (map render_bibcite ls)))
                  Hl1 Hl3 Hl4) as (caps & Hm & Hc).
      destruct (finditer_whole_line BIBCITE_PATTERN bibcite_open
                  opens_with_bibcite ltac:(discriminate) eq_refl
                  _ pos prev _ _ caps Hm) as [pos' Hf].
      * discriminate.
      * left. reflexivity.
      * rewrite Hf.
        change (cited_keys (Bibcite key label :: ls))
          with (key :: cited_keys ls).
        cbn [keys map].
        unfold group_str at 1, group. cbn [r_caps]. rewrite Hc.
        cbn [option_map]. rewrite string_of_list_ascii_of_string.
        f_equal. exact (IH _ _ Hok).
    + apply andb_true_iff in Hl as [Hl1 Hl2].
      apply Nat.eqb_eq in Hl2.
      destruct (finditer_no_opener BIBCITE_PATTERN bibcite_open
                  opens_with_bibcite ltac:(discriminate) eq_refl
                  (list_ascii_of_string t) pos prev
                  (list_ascii_of_string (unlines (map render_bibcite ls)))
                  Hl2) as [pos' Hf].
      rewrite Hf. change (cited_keys (Plain t :: ls)) with (cited_keys ls).
      exact (IH _ _ Hok).
Qed.

(** The keys the matcher finds in a bibliography written line by line
    are the keys of its entries. *)
Lemma entry_keys_found ls pos prev :
  forallb bib_line_ok ls = true ->
  keys (finditer_from BIBENTRY_PATTERN 0 pos prev
          (list_ascii_of_string (unlines (map render_bib ls))))
  = entry_keys ls.
Proof.
  revert pos prev. induction ls as [| l ls IH]; intros pos prev Hok.
  - reflexivity.
  - cbn [forallb] in Hok. apply andb_true_iff in Hok as [Hl Hok].
    cbn [map]. rewrite unlines_cons.
    destruct l as [kind key | t]; cbn [render_bib bib_line_ok] in *.
    + apply andb_true_iff in Hl as [Hl Hl3].
      apply andb_true_iff in Hl as [Hl1 Hl2].
      rewrite !list_ascii_app.
      change (list_ascii_of_string "@") with entry_open.
      change (list_ascii_of_string "{") with entry_mid.
      change (list_ascii_of_string ",") with entry_end.
      destruct (match_at_entry pos prev _ _
                  (list_ascii_of_string (unlines (map render_bib ls)))
                  Hl1 Hl2 Hl3) as (caps & Hm & Hc).
      destruct (finditer_whole_line BIBENTRY_PATTERN entry_open
                  opens_with_entry ltac:(discriminate) eq_refl
                  _ pos prev _ _ caps Hm) as [pos' Hf].
      * discriminate.
      * right. reflexivity.
      * rewrite Hf.
        change (entry_keys (Entry kind key :: ls))
          with (key :: entry_keys ls).
        cbn [keys map].
        unfold group_str at 1, group. cbn [r_caps]. rewrite Hc.
        cbn [option_map]. rewrite string_of_list_ascii_of_string.
        f_equal. exact (IH _ _ Hok).
    + apply andb_true_iff in Hl as [Hl1 Hl2].
      apply lacks_occurrences in Hl2.
      destruct (finditer_no_opener BIBENTRY_PATTERN entry_open
                  opens_with_entry ltac:(discriminate) eq_refl
                  (list_ascii_of_string t) pos prev
                  (list_ascii_of_string (unlines (map render_bib ls)))
                  Hl2) as [pos' Hf].
      rewrite Hf. change (entry_keys (Field t :: ls)) with (entry_keys ls).
      exact (IH _ _ Hok).
Qed.

End CheckLines.

Section Uncited.

Lemma uncited_loop (cites : gset string) ms s :
  for_each ms (fun m =>
    when (negb (bool_decide (group_str m 1 ∈ cites)))
         (log INFO ("Bib entry not cited: " +:+ dquote +:+ group_str m 1
                    +:+ dquote))) s
  = Ok tt (add_events
             (map uncited_notice
                (List.filter (fun name => negb (bool_decide (name ∈ cites)))
                             (keys ms)))
             s).
Proof.
  revert s. induction ms as [| m ms IH]; intros s.
  - destruct s as [o w tr]. unfold add_events. cbn.
    rewrite app_nil_r. reflexivity.
  - cbn [for_each keys map List.filter]. rewrite bind_eq.
    fold (keys ms).
    destruct (negb (bool_decide (group_str m 1 ∈ cites))); cbn [when].
    + unfold log at 1, emit at 1. rewrite IH.
      destruct s as [o w tr]. unfold add_events.
      cbn [st_self st_world st_trace map].
      rewrite <- app_assoc. reflexivity.
    + unfold ret at 1. apply IH.
Qed.

(** The check on files written line by line. *)
Lemma check_cite_block_lines (s : state) (aux : string) (t1 : Z)
    (bib : string) (t2 : Z) (als : list bibcite_line) (bls : list bib_line) :
  w_files (st_world s) !! aux_name s = Some (File aux t1) ->
  w_files (st_world s) !! (bib_file (st_self s) +:+ ".bib")
  = Some (File bib t2) ->
  decode aux = unlines (map render_bibcite als) ->
  decode bib = unlines (map render_bib bls) ->
  forallb bibcite_line_ok als = true ->
  forallb bib_line_ok bls = true ->
  check_cite_block s
  = Ok tt (add_events (map uncited_notice (not_cited als bls)) s).
Proof.
  intros Haux Hbib Ha Hb Hals Hbls. unfold aux_name in Haux.
  unfold check_cite_block.
  rewrite bind_get_self, bind_eq, (read_ok _ _ _ _ Haux).
  cbv zeta. rewrite bind_eq, (read_ok _ _ _ _ Hbib).
  rewrite uncited_loop, Ha, Hb. unfold finditer.
  rewrite (entry_keys_found bls 0 None Hbls).
  fold (keys (finditer_from BIBCITE_PATTERN 0 0 None
                (list_ascii_of_string (unlines (map render_bibcite als))))).
  rewrite (bibcite_keys als 0 None Hals).
  unfold not_cited.
  rewrite (List.filter_ext
             (fun name =>
                negb (bool_decide
                        (name ∈ (list_to_set (cited_keys als) : gset string))))
             (fun key => negb (bool_decide (key ∈ cited_keys als)))).
  - reflexivity.
  - intros key. f_equal. apply bool_decide_ext. apply elem_of_list_to_set.
Qed.

(** X21.  For an auxiliary file and a bibliography in ASCII that are
    written line by line, the lines of the auxiliary file being
    [\bibcite{key}{label}] (the label without closing brace) or lines
    without [\bibcite{], and the lines of the bibliography being heads
    of entries [@kind{key,] (the key without opening brace) or lines
    without [@]: the check for entries that are not cited logs one line
    for each entry whose key no [\bibcite] line names, in the order of
    the bibliography, and changes nothing else. *)
Theorem check_cite_block_reports_uncited (s : state) (aux : string) (t1 : Z)
    (bib : string) (t2 : Z) (als : list bibcite_line) (bls : list bib_line) :
  w_files (st_world s) !! aux_name s = Some (File aux t1) ->
  w_files (st_world s) !! (bib_file (st_self s) +:+ ".bib")
  = Some (File bib t2) ->
  ascii_text aux = true -> ascii_text bib = true ->
  decode aux = unlines (map render_bibcite als) ->
  decode bib = unlines (map render_bib bls) ->
  forallb bibcite_line_ok als = true ->
  forallb bib_line_ok bls = true ->
  check_cite_block s
  = Ok tt (add_events (map uncited_notice (not_cited als bls)) s).
Proof.
  intros Haux Hbib _ _ Ha Hb Hals Hbls.
  exact (check_cite_block_lines s aux t1 bib t2 als bls
           Haux Hbib Ha Hb Hals Hbls).
Qed.

End Uncited.

(** * Further sample runs *)

Section WorkedMore.

Lemma init_tex_suffix_optional_witness :
  "paper" <> ".texlipse"
  /\ endswith "paper" ".tex" = false
  /\ init E_idle "paper" options_default s_paper
     = init E_idle "paper.tex" options_default s_paper.
Proof.
  split; [discriminate |]. split; [reflexivity |].
  apply (proj2 (init_tex_suffix_optional E_idle "paper" options_default
                  s_paper)); [discriminate | reflexivity].
Defined.

Example double_suffix_loses_one :
  project_name (st_self (final (init E_idle "paper.tex.tex" options_default
                                     s_paper)))
  = "paper.tex".
Proof. vm_compute. reflexivity. Qed.

Lemma texlipse_found_after_sleep_witness :
  is_file (st_world s_paper) ".texlipse" = false
  /\ is_file (sleep E_refresh (st_world s_paper)) ".texlipse" = true
  /\ _parse_texlipse_config E_refresh s_paper
     = _parse_texlipse_config E_refresh
         (State (st_self s_paper) (sleep E_refresh (st_world s_paper))
                (st_trace s_paper)).
Proof.
  split; [vm_compute; reflexivity |]. split; [vm_compute; reflexivity |].
  apply (texlipse_found_after_sleep E_refresh s_paper);
    vm_compute; reflexivity.
Defined.

Lemma parse_texlipse_reads_first_main_line_witness :
  w_files (st_world s_texlipse) !! ".texlipse" = Some (File texlipse_file 0)
  /\ _parse_texlipse_config E_idle s_texlipse
     = Ok "thesis" (add_events [found_notice "thesis"] s_texlipse).
Proof.
  assert (H : w_files (st_world s_texlipse) !! ".texlipse"
              = Some (File texlipse_file 0)) by (vm_compute; reflexivity).
  split; [exact H |].
  rewrite (parse_texlipse_reads_first_main_line E_idle s_texlipse _ _ H).
  vm_compute. reflexivity.
Defined.

Lemma count_refs_not_empty : count_citations_text (decode aux_refs) <> ∅.
Proof.
  intros H. apply (f_equal (fun m : gmap string nat => m !! "knuth")) in H.
  vm_compute in H. discriminate.
Defined.


Lemma need_bib_run_true_has_database_witness :
  _need_bib_run ∅ (s_refs (File "aaaa" 0) (File "bb" 5))
  = Ok (Some true) (with_bib_file "refs" (s_refs (File "aaaa" 0) (File "bb" 5)))
  /\ is_file (st_world (s_refs (File "aaaa" 0) (File "bb" 5))) "refs.bib"
     = true.
Proof.
  assert (H : _need_bib_run ∅ (s_refs (File "aaaa" 0) (File "bb" 5))
              = Ok (Some true)
                   (with_bib_file "refs"
                      (s_refs (File "aaaa" 0) (File "bb" 5))))
    by (vm_compute; reflexivity).
  split; [exact H |].
  exact (proj1 (need_bib_run_true_has_database _ _ _ _ H eq_refl)).
Defined.

Lemma check_errors_reports_witness :
  out (st_self (after_pass log_failed s_paper))
  = text ["This is pdfTeX"] +:+ "! "
    +:+ text ["Undefined control sequence."; "l.5 \foo"]
  /\ ends_line (text ["This is pdfTeX"]) = true
  /\ check_errors (after_pass log_failed s_paper)
     = Ok tt (add_events
                (error_report (st_self (after_pass log_failed s_paper)))
                (after_pass log_failed s_paper)).
Proof.
  split; [vm_compute; reflexivity |]. split; [vm_compute; reflexivity |].
  rewrite (check_errors_reports (after_pass log_failed s_paper)
             (text ["This is pdfTeX"]) "! "
             (text ["Undefined control sequence."; "l.5 \foo"])).
  - reflexivity.
  - vm_compute. reflexivity.
  - left. split; [reflexivity | vm_compute; reflexivity].
Defined.

Example failed_pass_report :
  error_text (findall3 ERROR_PATTTERN log_failed)
  = "Undefined control sequence." +:+ nl +:+ "l.5 \foo".
Proof. vm_compute. reflexivity. Qed.

Lemma check_errors_passes_clean_log_witness :
  no_bang_line (out (st_self (after_pass log_fine s_paper))) = true
  /\ mentions "No pages of output"
              (out (st_self (after_pass log_fine s_paper))) = false
  /\ check_errors (after_pass log_fine s_paper)
     = Ok tt (after_pass log_fine s_paper).
Proof.
  split; [vm_compute; reflexivity |]. split; [vm_compute; reflexivity |].
  apply check_errors_passes_clean_log; vm_compute; reflexivity.
Defined.

Lemma latex_run_without_log_witness :
  exec E_idle (latex_cmdline (st_self s_paper)) (st_world s_paper)
  = Some (st_world s_paper)
  /\ is_file (st_world s_paper) "paper.log" = false
  /\ exists s',
       latex_run E_idle s_paper = Raise (OSError "paper.log") s'
       /\ latex_run_counter (st_self s') = 1.
Proof.
  split; [reflexivity |]. split; [vm_compute; reflexivity |].
  destruct (latex_run_without_log E_idle s_paper (st_world s_paper))
    as (s' & H1 & H2 & _); [reflexivity | vm_compute; reflexivity |].
  exists s'. split; [exact H1 | exact H2].
Defined.

Lemma latex_run_publishes_log_witness :
  exec E_pdf (latex_cmdline (st_self s_paper)) (st_world s_paper)
  = Some (built (st_world s_paper))
  /\ w_files (built (st_world s_paper)) !! "paper.log"
     = Some (File (text ["Output written"]) 1)
  /\ out (st_self (final (latex_run E_pdf s_paper)))
     = text ["Output written"]
  /\ exists s', latex_run E_pdf s_paper = Ok tt s'.
Proof.
  split; [reflexivity |]. split; [vm_compute; reflexivity |].
  destruct (latex_run_publishes_log E_pdf s_paper (built (st_world s_paper))
              (text ["Output written"]) 1)
    as (H1 & _ & _ & H4); [reflexivity | vm_compute; reflexivity |].
  split; [rewrite H1; vm_compute; reflexivity |].
  apply H4. right. reflexivity.
Defined.

Lemma bibtex_run_saves_copy_witness :
  exec E_idle ["bibtex"; "paper"]
       (st_world (with_bib_file "refs" (s_refs (File "aaaa" 0) (File "bb" 5))))
  = Some (st_world (s_refs (File "aaaa" 0) (File "bb" 5)))
  /\ exists s',
       bibtex_run E_idle
         (with_bib_file "refs" (s_refs (File "aaaa" 0) (File "bb" 5)))
       = Ok tt s'
       /\ filecmp_cmp "refs.bib" "refs.bib.old" s' = Ok true s'.
Proof.
  split; [reflexivity |].
  destruct (bibtex_run_saves_copy E_idle
              (with_bib_file "refs" (s_refs (File "aaaa" 0) (File "bb" 5)))
              (st_world (s_refs (File "aaaa" 0) (File "bb" 5))) "aaaa" 0)
    as (s' & H1 & _ & _ & H4).
  - reflexivity.
  - vm_compute. reflexivity.
  - vm_compute. discriminate.
  - exists s'. split; [exact H1 | exact H4].
Defined.


Lemma open_preview_raises_only_on_darwin_witness :
  platform E_no_tools <> "darwin"
  /\ exists s', open_preview E_no_tools s_paper = Ok tt s'
                /\ st_self s' = st_self s_paper.
Proof.
  split; [discriminate |].
  apply (proj1 (open_preview_raises_only_on_darwin E_no_tools s_paper)).
  discriminate.
Defined.

Lemma need_latex_rerun_on_notice_witness :
  out (set_out log_restless (fresh "paper" no_stop))
  = text ["LaTeX Warning: Reference `sec:a' on page 1 undefined on input line 3.";
          "LaTeX Warning: There were undefined references."]
    +:+ "LaTeX Warning: Label(s) may have changed."
    +:+ (" Rerun to get it right." +:+ nl +:+ text ["No file paper.lof."])
  /\ need_latex_rerun (set_out log_restless (fresh "paper" no_stop)) = true.
Proof.
  split; [vm_compute; reflexivity |].
  apply (need_latex_rerun_on_notice _
           (text ["LaTeX Warning: Reference `sec:a' on page 1 undefined on input line 3.";
                  "LaTeX Warning: There were undefined references."])
           "LaTeX Warning: Label(s) may have changed."
           (" Rerun to get it right." +:+ nl +:+ text ["No file paper.lof."])).
  - exact notice_labels.
  - vm_compute. reflexivity.
Defined.

Lemma need_latex_rerun_only_on_notice_witness :
  mentions "LaTeX Warning: " log_fine = false
  /\ mentions "No file " log_fine = false
  /\ rerun_loop E_restless MAX_RUNS (after_pass log_fine s_paper)
     = Ok tt (after_pass log_fine s_paper).
Proof.
  split; [vm_compute; reflexivity |]. split; [vm_compute; reflexivity |].
  apply (proj2 (need_latex_rerun_only_on_notice E_restless
                  (after_pass log_fine s_paper)
                  ltac:(vm_compute; reflexivity)
                  ltac:(vm_compute; reflexivity))).
Defined.

Lemma rerun_loop_stops_when_settled_or_spent_witness :
  rerun_loop E_restless MAX_RUNS (after_pass log_restless s_paper)
  = Ok tt (final (rerun_loop E_restless MAX_RUNS
                    (after_pass log_restless s_paper)))
  /\ (MAX_RUNS
      <= latex_run_counter
           (st_self (final (rerun_loop E_restless MAX_RUNS
                              (after_pass log_restless s_paper))))
      \/ need_latex_rerun
           (st_self (final (rerun_loop E_restless MAX_RUNS
                              (after_pass log_restless s_paper))))
         = false).
Proof.
  assert (H : rerun_loop E_restless MAX_RUNS (after_pass log_restless s_paper)
              = Ok tt (final (rerun_loop E_restless MAX_RUNS
                                (after_pass log_restless s_paper))))
    by (vm_compute; reflexivity).
  split; [exact H |].
  exact (proj1 (rerun_loop_stops_when_settled_or_spent E_restless _ _ H)).
Defined.

Example restless_loop_is_spent :
  latex_run_counter
    (st_self (final (rerun_loop E_restless MAX_RUNS
                       (after_pass log_restless s_paper))))
  = 4.
Proof. vm_compute. reflexivity. Qed.

Lemma run_compiles_at_least_once_witness :
  run E_pdf s_clean = Ok tt (final (run E_pdf s_clean))
  /\ compiler_calls (st_trace s_clean)
     < compiler_calls (st_trace (final (run E_pdf s_clean)))
  /\ compiled_notice (st_self (final (run E_pdf s_clean)))
     ∈ st_trace (final (run E_pdf s_clean)).
Proof.
  assert (H : run E_pdf s_clean = Ok tt (final (run E_pdf s_clean)))
    by (vm_compute; reflexivity).
  split; [exact H |].
  destruct (run_compiles_at_least_once E_pdf _ _ H) as (H1 & _ & _ & H4).
  split; [exact H1 | exact H4].
Defined.

Lemma clean_block_twice_witness :
  clean_block E_pdf s_clean_built
  = Ok tt (final (clean_block E_pdf s_clean_built))
  /\ clean_block E_pdf (final (clean_block E_pdf s_clean_built))
     = Ok tt (final (clean_block E_pdf s_clean_built)).
Proof.
  assert (H : clean_block E_pdf s_clean_built
              = Ok tt (final (clean_block E_pdf s_clean_built)))
    by (vm_compute; reflexivity).
  split; [exact H |].
  exact (clean_block_twice E_pdf _ _ H).
Defined.

Lemma need_bib_run_follows_log_notice_witness :
  plain_name
    (project_name (st_self (after_pass log_no_bbl (s_refs (File "aaaa" 0) Dir))))
  = true
  /\ ascii_text aux_refs = true
  /\ out (st_self (after_pass log_no_bbl (s_refs (File "aaaa" 0) Dir)))
     = text ["This is pdfTeX"] +:+ "No file paper.bbl." +:+ nl
  /\ _need_bib_run ∅ (after_pass log_no_bbl (s_refs (File "aaaa" 0) Dir))
     = Ok (Some true)
          (with_bib_file "refs"
             (after_pass log_no_bbl (s_refs (File "aaaa" 0) Dir))).
Proof.
  split; [vm_compute; reflexivity |].
  split; [vm_compute; reflexivity |].
  split; [vm_compute; reflexivity |].
  rewrite (need_bib_run_follows_log_notice
             ∅ (after_pass log_no_bbl (s_refs (File "aaaa" 0) Dir))
             aux_refs 0 "refs" (text ["This is pdfTeX"])
             "No file paper.bbl." nl).
  - vm_compute. reflexivity.
  - vm_compute. reflexivity.
  - vm_compute. reflexivity.
  - vm_compute. reflexivity.
  - vm_compute. reflexivity.
  - exact (notice_bbl "paper").
  - vm_compute. reflexivity.
Defined.


End WorkedMore.

Section WorkedBuilds.

Lemma s_plain_fresh : fresh_start s_plain.
Proof. repeat split; vm_compute; reflexivity. Defined.



Lemma read_glossaries_twice_witness :
  read_glossaries s_stale = Ok tt (final (read_glossaries s_stale))
  /\ read_glossaries (final (read_glossaries s_stale))
     = Ok tt (final (read_glossaries s_stale)).
Proof.
  assert (H : read_glossaries s_stale
              = Ok tt (final (read_glossaries s_stale)))
    by (vm_compute; reflexivity).
  split; [exact H |]. exact (read_glossaries_twice _ _ H).
Defined.

Lemma check_cite_block_reports_uncited_witness :
  w_files (st_world s_cited) !! aux_name s_cited
  = Some (File (unlines (map render_bibcite aux_knuth)) 0)
  /\ forallb bibcite_line_ok aux_knuth = true
  /\ forallb bib_line_ok bib_two = true
  /\ check_cite_block s_cited
     = Ok tt (add_events [uncited_notice "lamport"] s_cited).
Proof.
  assert (H : w_files (st_world s_cited) !! aux_name s_cited
              = Some (File (unlines (map render_bibcite aux_knuth)) 0))
    by (vm_compute; reflexivity).
  split; [exact H |].
  split; [vm_compute; reflexivity |].
  split; [vm_compute; reflexivity |].
  rewrite (check_cite_block_reports_uncited s_cited _ 0
             (unlines (map render_bib bib_two)) 0 aux_knuth bib_two H).
  - vm_compute. reflexivity.
  - vm_compute. reflexivity.
  - vm_compute. reflexivity.
  - vm_compute. reflexivity.
  - vm_compute. reflexivity.
  - vm_compute. reflexivity.
  - vm_compute. reflexivity.
  - vm_compute. reflexivity.
Defined.

End WorkedBuilds.
